(** * tools/resources/update.py: version-gated download of the WebRTC resources

    A shallow embedding of [update.py].  The script is Python 2: integers are
    unbounded ([Z]), [str] values are byte strings ([string]), dictionaries and
    directories are finite maps ([gmap]).  Every statement with an effect
    (printing, the filesystem, the network) is a computation in the monad [M]
    below, which threads the state and keeps the effects made before an
    exception was raised.  The builtins and the standard library are those of
    Python 2.7: [float] is IEEE 754 binary64, [round] rounds a tie away from
    zero, and [urlparse] is the module of that name. *)

From Stdlib Require Import ZArith Lia Ascii SpecFloat.
From stdpp Require Import base option list gmap strings pretty.

(** ** Module-level constants of update.py *)

Definition DEPS_KEY : string := "webrtc_resources_revision".
Definition REMOTE_URL_BASE : string :=
  "http://commondatastorage.googleapis.com/webrtc-resources".
Definition VERSION_FILENAME : string := "webrtc-resources-version".
Definition FILENAME_PREFIX : string := "webrtc-resources-".
Definition EXTENSION : string := ".tgz".

(** Every character of [s] satisfies [p]. *)
Fixpoint string_forall (p : ascii -> bool) (s : string) : bool :=
  match s with
  | "" => true
  | String c s' => p c && string_forall p s'
  end.

(** ** Exceptions and results *)

(** The exceptions that the calls of the script raise. *)
Inductive exn :=
| URLError            (* urllib2.urlopen: connection failure *)
| HTTPError           (* urllib2.urlopen: response status outside 2xx *)
| SocketError         (* response.read: the connection broke *)
| AttributeError      (* None.strip(): no Content-Length header *)
| ValueError          (* int(...) of a string that is no integer *)
| TypeError           (* int(...) of a value that is neither string nor number *)
| ZeroDivisionError   (* float(bytes_so_far) / 0 *)
| OverflowError       (* float(...) of an integer beyond the range of a float *)
| KeyError            (* locals_dict['vars'], deps_vars[DEPS_KEY] *)
| IOError             (* open / execfile of a missing file, mkdtemp *)
| OSError             (* os.mkdir, shutil.rmtree *)
| TarError            (* tarfile.open, extractall *)
| SyntaxError         (* execfile of a file that is no Python *)
| LoopBound.          (* the bound of [read_loop]; see [read_loop_total] *)

Inductive result (A : Type) :=
| Ok (a : A)
| Raise (e : exn).
Arguments Ok {A} a.
Arguments Raise {A} e.

Definition is_ok {A} (r : result A) : bool :=
  match r with Ok _ => true | Raise _ => false end.

(** ** The Python builtins and library functions the script calls *)

Module Py.

(** ['%d' % n] and ['%s' % n] for an integer [n]: decimal, a leading minus
    sign for negative numbers, no leading zeros. *)
Definition str_of_int (n : Z) : string := pretty n.

(** [len(s)] *)
Definition len (s : string) : Z := Z.of_nat (String.length s).

(** [s[:n]] and [s[n:]] for [n >= 0]. *)
Fixpoint take (n : nat) (s : string) : string :=
  match n, s with
  | S n', String c s' => String c (take n' s')
  | _, _ => ""
  end.

Fixpoint drop (n : nat) (s : string) : string :=
  match n, s with
  | S n', String _ s' => drop n' s'
  | _, _ => s
  end.

(** [s[-1:]]: the last character as a string, [""] for the empty string. *)
Fixpoint last1 (s : string) : string :=
  match s with
  | "" => ""
  | String c "" => String c ""
  | String _ s' => last1 s'
  end.

(** [s.split('/')] *)
Fixpoint split_slash (s : string) : list string :=
  match s with
  | "" => [""]
  | String c s' =>
      if decide (c = "/"%char) then "" :: split_slash s'
      else match split_slash s' with
           | [] => [String c ""]
           | seg :: segs => String c seg :: segs
           end
  end.

(** ['/'.join(l)] *)
Fixpoint join_slash (l : list string) : string :=
  match l with
  | [] => ""
  | [x] => x
  | x :: l' => x +:+ "/" +:+ join_slash l'
  end.

(** [l[:-1]] *)
Definition init {A} (l : list A) : list A := removelast l.

(** [s.lstrip()], [s.rstrip()] and [s.strip()] (ASCII white space). *)
Fixpoint lstrip (s : string) : string :=
  match s with
  | String c s' => if Ascii.is_space c then lstrip s' else s
  | "" => ""
  end.

Fixpoint rstrip (s : string) : string :=
  match s with
  | "" => ""
  | String c s' =>
      match rstrip s' with
      | "" => if Ascii.is_space c then "" else String c ""
      | r => String c r
      end
  end.

Definition strip (s : string) : string := rstrip (lstrip s).

(** One decimal digit. *)
Definition digit (c : ascii) : option Z := Z.of_nat <$> Ascii.is_nat c.

(** The digits of a literal, most significant first, onto [acc]. *)
Fixpoint digits (acc : Z) (s : string) : option Z :=
  match s with
  | "" => Some acc
  | String c s' => d ← digit c; digits (10 * acc + d) s'
  end.

(** [int(s)] for a string [s] in base ten: white space around the literal is
    skipped, then an optional sign and at least one digit; [None] stands for
    [ValueError]. *)
Definition int (s : string) : option Z :=
  match strip s with
  | "" => None
  | String "-" "" | String "+" "" => None
  | String "-" ds => Z.opp <$> digits 0 ds
  | String "+" ds => digits 0 ds
  | ds => digits 0 ds
  end.

(** A value a DEPS variable can be bound to, as far as [int(...)] accepts
    it. *)
Inductive value :=
| VInt (n : Z)
| VStr (s : string)
| VNone.

(** [int(v)]: [ValueError] for a string that is no literal, [TypeError] for
    [None]. *)
Definition int_of_value (v : value) : result Z :=
  match v with
  | VInt n => Ok n
  | VStr s => match int s with Some n => Ok n | None => Raise ValueError end
  | VNone => Raise TypeError
  end.

(** Truth value of a string option ([None] and [''] are false). *)
Definition truthy (o : option string) : bool :=
  match o with
  | Some (String _ _) => true
  | _ => false
  end.

(** [a or b] on string options where [b] is a string. *)
Definition or_else (o : option string) (default : string) : string :=
  match o with
  | Some (String c s) => String c s
  | _ => default
  end.

(** *** Strings *)

(** [s.find(c)] and [s.rfind(c)] for a character [c]; [None] stands for
    [-1]. *)
Fixpoint find (c : ascii) (s : string) : option nat :=
  match s with
  | "" => None
  | String a s' => if decide (a = c) then Some 0 else S <$> find c s'
  end.

Fixpoint rfind (c : ascii) (s : string) : option nat :=
  match s with
  | "" => None
  | String a s' =>
      match rfind c s' with
      | Some i => Some (S i)
      | None => if decide (a = c) then Some 0 else None
      end
  end.

(** [c in s] *)
Definition contains (c : ascii) (s : string) : bool :=
  bool_decide (is_Some (find c s)).

(** [s.split(c, 1)] for [c in s] *)
Definition split1 (c : ascii) (s : string) : string * string :=
  match find c s with
  | Some i => (take i s, drop (S i) s)
  | None => (s, "")
  end.

(** [s.lower()] *)
Definition lower_char (c : ascii) : ascii :=
  let n := nat_of_ascii c in
  if (65 <=? n) && (n <=? 90) then ascii_of_nat (n + 32) else c.

Fixpoint lower (s : string) : string :=
  match s with
  | "" => ""
  | String c s' => String (lower_char c) (lower s')
  end.

(** The truth value of a string. *)
Definition nonempty (s : string) : bool := negb (bool_decide (s = "")).

(** [s in l] for a list of strings. *)
Definition elem (s : string) (l : list string) : bool := bool_decide (s ∈ l).

(** *** Floating point

    A [float] is an IEEE 754 binary64 number.  The arithmetic is that of
    [SpecFloat], which rounds to the nearest float and a tie to the even
    one. *)

Definition FLOAT_PREC : Z := 53.
Definition FLOAT_EMAX : Z := 1024.

(** The least integer that is too large for a float: the greatest float is
    [2^1024 - 2^971], and the integer halfway between it and [2^1024] is
    rounded up. *)
Definition FLOAT_LIMIT : Z := 2 ^ 1024 - 2 ^ 970.

(** [float(n)] raises [OverflowError] unless [fits_float n]. *)
Definition fits_float (n : Z) : bool := bool_decide (Z.abs n < FLOAT_LIMIT)%Z.

(** [float(n)] for an integer [n] that fits. *)
Definition float (n : Z) : spec_float :=
  binary_normalize FLOAT_PREC FLOAT_EMAX n 0 false.

(** [x / y] for [y] other than 0, and [x * y]. *)
Definition fdiv (x y : spec_float) : spec_float := SFdiv FLOAT_PREC FLOAT_EMAX x y.
Definition fmul (x y : spec_float) : spec_float := SFmul FLOAT_PREC FLOAT_EMAX x y.

(** The integer nearest to [num / den], for [0 <= num] and [0 < den]: a tie
    goes up, or to the even neighbour. *)
Definition div_half_up (num den : Z) : Z := ((2 * num + den) / (2 * den))%Z.

Definition div_half_even (num den : Z) : Z :=
  let q := (num / den)%Z in
  match (2 * (num mod den) ?= den)%Z with
  | Lt => q
  | Gt => (q + 1)%Z
  | Eq => if Z.even q then q else (q + 1)%Z
  end.

(** A hundred times the float [m * 2^e], as a fraction. *)
Definition hundredths (m : positive) (e : Z) : Z * Z :=
  if (0 <=? e)%Z then (100 * Z.pos m * 2 ^ e, 1)%Z
  else (100 * Z.pos m, 2 ^ (- e))%Z.

(** [round(x, 2)]: the float nearest to the decimal of two places that is
    nearest to [x], a tie going away from zero. *)
Definition round2 (x : spec_float) : spec_float :=
  match x with
  | S754_finite s m e =>
      let '(num, den) := hundredths m e in
      match div_half_up num den with
      | Z.pos h => fdiv (S754_finite s h 0) (S754_finite false 100 0)
      | _ => S754_zero s
      end
  | _ => x
  end.

Definition sign (s : bool) : string := if s then "-" else "".

(** ['%0.2f' % x]: the decimal of two places nearest to [x], a tie going to
    the even neighbour. *)
Definition format_2f (x : spec_float) : string :=
  match x with
  | S754_nan => "nan"
  | S754_infinity s => sign s +:+ "inf"
  | S754_zero s => sign s +:+ "0.00"
  | S754_finite s m e =>
      let '(num, den) := hundredths m e in
      let h := div_half_even num den in
      sign s +:+ pretty (h / 100)%Z +:+ "."
      +:+ pretty (h mod 100 / 10)%Z +:+ pretty (h mod 10)%Z
  end.

(** *** urlparse

    The module [urlparse] belongs to the Python standard library and is not
    part of this repository.  What follows is [urljoin] of Python 2.7 with
    the functions it calls, on byte strings.  One check of [urlsplit] is left
    out: a netloc with a square bracket that is not closed raises
    [ValueError] there. *)

Definition uses_relative : list string :=
  ["ftp"; "http"; "gopher"; "nntp"; "imap"; "wais"; "file"; "https"; "shttp";
   "mms"; "prospero"; "rtsp"; "rtspu"; ""; "sftp"; "svn"; "svn+ssh"].

Definition uses_netloc : list string :=
  ["ftp"; "http"; "gopher"; "nntp"; "telnet"; "imap"; "wais"; "file"; "mms";
   "https"; "shttp"; "snews"; "prospero"; "rtsp"; "rtspu"; "rsync"; ""; "svn";
   "svn+ssh"; "sftp"; "nfs"; "git"; "git+ssh"].

Definition uses_params : list string :=
  ["ftp"; "hdl"; "prospero"; "http"; "imap"; "https"; "shttp"; "rtsp"; "rtspu";
   "sip"; "sips"; "mms"; ""; "sftp"; "tel"].

Definition is_decimal (c : ascii) : bool :=
  let n := nat_of_ascii c in (48 <=? n) && (n <=? 57).

Definition is_letter (c : ascii) : bool :=
  let n := nat_of_ascii c in
  ((97 <=? n) && (n <=? 122)) || ((65 <=? n) && (n <=? 90)).

(** [c in scheme_chars] *)
Definition scheme_char (c : ascii) : bool :=
  is_letter c || is_decimal c || bool_decide (c ∈ ["+"; "-"; "."]%char).

(** The end of the netloc: the first of ['/'], ['?'] and ['#']. *)
Fixpoint netloc_end (s : string) : nat :=
  match s with
  | "" => 0
  | String c s' =>
      if bool_decide (c ∈ ["/"; "?"; "#"]%char) then 0 else S (netloc_end s')
  end.

(** [_splitnetloc(url, 2)] *)
Definition _splitnetloc (url : string) : string * string :=
  let rest := drop 2 url in
  let delim := netloc_end rest in
  (take delim rest, drop delim rest).

(** The part of [urlsplit] that follows the scheme: the netloc, the fragment
    and the query are split off. *)
Definition split_hier (scheme url : string)
    : string * string * string * string * string :=
  let '(netloc, url) :=
    if bool_decide (take 2 url = "//") then _splitnetloc url else ("", url) in
  let '(url, fragment) := if contains "#" url then split1 "#" url else (url, "") in
  let '(url, query) := if contains "?" url then split1 "?" url else (url, "") in
  (scheme, netloc, url, query, fragment).

(** [urlsplit(url, scheme)]: what stands before the first colon is the scheme
    when it consists of scheme characters and what follows is no port
    number. *)
Definition urlsplit (url scheme : string)
    : string * string * string * string * string :=
  match find ":" url with
  | Some (S i') =>
      let i := S i' in
      if bool_decide (take i url = "http") then split_hier "http" (drop (S i) url)
      else if string_forall scheme_char (take i url) then
        let rest := drop (S i) url in
        if bool_decide (rest = "") || negb (string_forall is_decimal rest)
        then split_hier (lower (take i url)) rest
        else split_hier scheme url
      else split_hier scheme url
  | _ => split_hier scheme url
  end.

(** [_splitparams(url)]: the parameters follow the first [';'] of the last
    segment. *)
Definition _splitparams (url : string) : string * string :=
  let start := default 0 (rfind "/" url) in
  match find ";" (drop start url) with
  | Some j => (take (start + j) url, drop (S (start + j)) url)
  | None => (url, "")
  end.

(** [urlparse(url, scheme)] *)
Definition urlparse (url scheme : string)
    : string * string * string * string * string * string :=
  let '(scheme, netloc, url, query, fragment) := urlsplit url scheme in
  let '(url, params) :=
    if elem scheme uses_params && contains ";" url then _splitparams url
    else (url, "") in
  (scheme, netloc, url, params, query, fragment).

(** [urlunsplit(data)] *)
Definition urlunsplit (data : string * string * string * string * string) : string :=
  let '(scheme, netloc, url, query, fragment) := data in
  let url :=
    if nonempty netloc
       || (nonempty scheme && elem scheme uses_netloc
           && negb (bool_decide (take 2 url = "//")))
    then
      let url :=
        if nonempty url && negb (bool_decide (take 1 url = "/")) then "/" +:+ url
        else url in
      "//" +:+ netloc +:+ url
    else url in
  let url := if nonempty scheme then scheme +:+ ":" +:+ url else url in
  let url := if nonempty query then url +:+ "?" +:+ query else url in
  let url := if nonempty fragment then url +:+ "#" +:+ fragment else url in
  url.

(** [urlunparse(data)] *)
Definition urlunparse
    (data : string * string * string * string * string * string) : string :=
  let '(scheme, netloc, url, params, query, fragment) := data in
  let url := if nonempty params then url +:+ ";" +:+ params else url in
  urlunsplit (scheme, netloc, url, query, fragment).

(** One round of the loop of [urljoin] that removes ['..']: the first
    segment ['..'] that is not the last one and follows a segment other than
    [''] and ['..'] is deleted together with that segment. *)
Fixpoint collapse_once (l : list string) : option (list string) :=
  match l with
  | a :: ((b :: ((_ :: _) as rest)) as tl) =>
      if bool_decide (b = "..") && negb (bool_decide (a = "") || bool_decide (a = ".."))
      then Some rest
      else cons a <$> collapse_once tl
  | _ => None
  end.

(** The loop, until no round applies; a round removes two segments, so as
    many rounds as there are segments are enough ([collapse_done]). *)
Fixpoint collapse (fuel : nat) (l : list string) : list string :=
  match fuel with
  | O => l
  | S fuel' =>
      match collapse_once l with
      | Some l' => collapse fuel' l'
      | None => l
      end
  end.

(** What [urljoin] does with the segments ['.'] and ['..']. *)
Definition resolve (segments : list string) : list string :=
  let segments :=
    if bool_decide (last segments = Some ".") then init segments ++ [""]
    else segments in
  let segments := List.filter (fun x => negb (bool_decide (x = "."))) segments in
  let segments := collapse (length segments) segments in
  if bool_decide (segments = [""; ".."]) then [""; ""]
  else if bool_decide (2 <= length segments) && bool_decide (last segments = Some "..")
       then init (init segments) ++ [""]
       else segments.

(** [urljoin(base, url)] *)
Definition urljoin (base url : string) : string :=
  if negb (nonempty base) then url
  else if negb (nonempty url) then base
  else
    let '(bscheme, bnetloc, bpath, bparams, bquery, bfragment) := urlparse base "" in
    let '(scheme, netloc, path, params, query, fragment) := urlparse url bscheme in
    if negb (bool_decide (scheme = bscheme)) || negb (elem scheme uses_relative)
    then url
    else
      let in_netloc := elem scheme uses_netloc in
      if in_netloc && nonempty netloc then
        urlunparse (scheme, netloc, path, params, query, fragment)
      else
        let netloc := if in_netloc then bnetloc else netloc in
        if bool_decide (take 1 path = "/") then
          urlunparse (scheme, netloc, path, params, query, fragment)
        else if negb (nonempty path) && negb (nonempty params) then
          urlunparse (scheme, netloc, bpath, bparams,
                      (if nonempty query then query else bquery), fragment)
        else
          let segments := init (split_slash bpath) ++ split_slash path in
          urlunparse (scheme, netloc, join_slash (resolve segments),
                      params, query, fragment).

End Py.

(** ** The state of a run *)

(** What a run does that can be observed from outside, in the order in which
    the calls are made. *)
Inductive event :=
| EvPrint (line : string)             (* print line *)
| EvStdoutWrite (text : string)       (* sys.stdout.write(text) *)
| EvMkdir                             (* os.mkdir(downloads_dir) *)
| EvMkdtemp (dir : option string)     (* tempfile.mkdtemp(...) and its result *)
| EvUrlopen (url : string)            (* urllib2.urlopen(url) *)
| EvRead (size : nat)                 (* response.read(size) *)
| EvRmtree                            (* shutil.rmtree(downloads_dir) *)
| EvExtract                           (* tarfile.open + extractall *)
| EvWriteVersion (text : string)      (* write of the version marker *)
| EvRmtreeTemp (dir : string).        (* shutil.rmtree(temp_dir) *)

(** A directory: file name to content. *)
Abbreviation dir := (gmap string string).

(** The filesystem as far as the script touches it, and the trace of events.
    [resources] is the directory [downloads_dir] ([None] when it does not
    exist), [tmp] the directories below the system's temporary directory. *)
Record state := State {
  resources : option dir;
  tmp : gmap string dir;
  trace : list event
}.

Definition set_resources (r : option dir) (s : state) : state :=
  State r (tmp s) (trace s).
Definition set_tmp (t : gmap string dir) (s : state) : state :=
  State (resources s) t (trace s).
Definition log (e : event) (s : state) : state :=
  State (resources s) (tmp s) (trace s ++ [e]).

(** Computations: state passing, with the state kept when an exception is
    raised. *)
Definition M (A : Type) : Type := state -> result A * state.

Definition ret {A} (a : A) : M A := fun s => (Ok a, s).
Definition raise {A} (e : exn) : M A := fun s => (Raise e, s).
Definition bind {A B} (m : M A) (k : A -> M B) : M B :=
  fun s => match m s with
           | (Ok a, s') => k a s'
           | (Raise e, s') => (Raise e, s')
           end.

(** [try: body finally: handler].  The handler always runs; the exception of
    the body is raised again after it unless the handler raises itself. *)
Definition try_finally {A} (body : M A) (handler : M unit) : M A :=
  fun s => match body s with
           | (r, s1) => match handler s1 with
                        | (Ok _, s2) => (r, s2)
                        | (Raise e, s2) => (Raise e, s2)
                        end
           end.

Declare Scope py_scope.
Delimit Scope py_scope with py.
Notation "x <- m ;; k" := (bind m (fun x => k))
  (at level 100, m at next level, right associativity) : py_scope.
Notation "m ;; k" := (bind m (fun _ => k))
  (at level 100, right associativity) : py_scope.
Open Scope py_scope.

Definition emit (e : event) : M unit := fun s => (Ok tt, log e s).
Definition print (line : string) : M unit := emit (EvPrint line).
Definition stdout_write (text : string) : M unit := emit (EvStdoutWrite text).

(** ** Everything outside the script that a run depends on *)

(** The object that [urllib2.urlopen] returns: the value of its Content-Length
    header, the bytes that [read] delivers, and the index of the [read] call at
    which the connection breaks, if it does. *)
Record response := Response {
  content_length : option string;
  body : string;
  read_error_at : option nat
}.

Record world := World {
  (** os.getenv('WEBRTC_SKIP_RESOURCES_DOWNLOAD') *)
  skip_env : option string;
  (** options.force and options.base_url of the parsed command line *)
  opt_force : bool;
  opt_base_url : option string;
  (** the path of the resources directory, as it is printed *)
  downloads_dir : string;
  (** execfile(deps_file, ...): the exception that evaluating DEPS raises, if
      any (IOError when there is no such file), and else the dictionary that
      DEPS binds to [vars], [None] when it binds no [vars] *)
  deps_error : option exn;
  deps_vars : option (gmap string Py.value);
  (** urllib2.urlopen: a response for a 2xx status, an exception otherwise *)
  urlopen : string -> result response;
  (** tarfile on the bytes of an archive: the members written by extractall,
      in order, and whether open and extractall ended without an exception *)
  untar : string -> list (string * string) * bool;
  (** tempfile: the random names that mkdtemp tries, and how many it tries *)
  tmp_names : nat -> string;
  tmp_max : nat
}.

(** ** The filesystem and network calls *)

(** [os.path.isdir(downloads_dir)] *)
Definition isdir : M bool := fun s => (Ok (bool_decide (is_Some (resources s))), s).

(** [os.mkdir(downloads_dir)]: fails when the directory exists. *)
Definition mkdir : M unit :=
  fun s => match resources s with
           | None => (Ok tt, set_resources (Some ∅) (log EvMkdir s))
           | Some _ => (Raise OSError, log EvMkdir s)
           end.

(** [shutil.rmtree(downloads_dir)]: fails when there is no such directory. *)
Definition rmtree : M unit :=
  fun s => match resources s with
           | Some _ => (Ok tt, set_resources None (log EvRmtree s))
           | None => (Raise OSError, log EvRmtree s)
           end.

(** The content of the version marker when [os.path.isfile] holds of it. *)
Definition marker (s : state) : option string :=
  resources s ≫= (.!! VERSION_FILENAME).

Definition version_file : M (option string) := fun s => (Ok (marker s), s).

(** [f = open(new_version_file, 'w'); f.write(text); f.close()] *)
Definition write_version (text : string) : M unit :=
  fun s => match resources s with
           | Some d => (Ok tt, set_resources (Some (<[VERSION_FILENAME := text]> d))
                                 (log (EvWriteVersion text) s))
           | None => (Raise IOError, log (EvWriteVersion text) s)
           end.

(** The first of the names [prefix + tmp_names i], [i = from, from + 1, ...],
    that is free, among [tries] of them. *)
Fixpoint mkdtemp_search (W : world) (prefix : string) (t : gmap string dir)
    (tries from : nat) : option string :=
  match tries with
  | O => None
  | S tries' =>
      let name := prefix +:+ tmp_names W from in
      match t !! name with
      | None => Some name
      | Some _ => mkdtemp_search W prefix t tries' (S from)
      end
  end.

(** [tempfile.mkdtemp(prefix=prefix)]: creates an empty directory under a name
    that is not taken. *)
Definition mkdtemp (W : world) (prefix : string) : M string :=
  fun s => match mkdtemp_search W prefix (tmp s) (tmp_max W) 0 with
           | Some name =>
               (Ok name, set_tmp (<[name := ∅]> (tmp s)) (log (EvMkdtemp (Some name)) s))
           | None => (Raise IOError, log (EvMkdtemp None) s)
           end.

(** [shutil.rmtree(temp_dir)] *)
Definition rmtree_temp (temp_dir : string) : M unit :=
  fun s => match tmp s !! temp_dir with
           | Some _ =>
               (Ok tt, set_tmp (delete temp_dir (tmp s)) (log (EvRmtreeTemp temp_dir) s))
           | None => (Raise OSError, log (EvRmtreeTemp temp_dir) s)
           end.

(** [open(os.path.join(temp_dir, name), 'wb')]: an empty file. *)
Definition open_temp (temp_dir name : string) : M unit :=
  fun s => match tmp s !! temp_dir with
           | Some d => (Ok tt, set_tmp (<[temp_dir := <[name := ""]> d]> (tmp s)) s)
           | None => (Raise IOError, s)
           end.

(** [output_file.write(chunk)] on the file opened by [open_temp]. *)
Definition write_temp (temp_dir name chunk : string) : M unit :=
  fun s => (Ok tt,
            set_tmp (alter (alter (fun old => old +:+ chunk) name) temp_dir (tmp s)) s).

(** [urllib2.urlopen(url)] *)
Definition do_urlopen (W : world) (url : string) : M response :=
  fun s => (urlopen W url, log (EvUrlopen url) s).

(** [response.read(size)], the [nread]-th call, on a response of which [rest]
    has not been delivered yet. *)
Definition response_read (r : response) (nread : nat) (rest : string) (size : nat)
    : M string :=
  emit (EvRead size);;
  if bool_decide (read_error_at r = Some nread) then raise SocketError
  else ret (Py.take size rest).

(** [archive = tarfile.open(temp_filename, 'r:gz');
     archive.extractall(downloads_dir); archive.close()] *)
Definition extract (W : world) (temp_dir name : string) : M unit :=
  fun s =>
    let s := log EvExtract s in
    match tmp s !! temp_dir ≫= (.!! name), resources s with
    | Some bytes, Some d =>
        let '(members, complete) := untar W bytes in
        let d' := foldl (fun acc m => <[m.1 := m.2]> acc) d members in
        (if complete then Ok tt else Raise TarError, set_resources (Some d') s)
    | None, _ => (Raise IOError, s)
    | _, None => (Raise OSError, s)
    end.

(** ** The functions of update.py *)

Definition CR : string := String "013"%char "".
Definition NL : string := String "010"%char "".

(** The default [chunk_size=10*1024] of [_read_chunks]. *)
Definition CHUNK_SIZE : nat := 10 * 1024.

(** [percent = (float(bytes_so_far) / total_size) * 100;
     percent = round(percent, 2)] *)
Definition percent (bytes_so_far total_size : Z) : spec_float :=
  let percent :=
    Py.fmul (Py.fdiv (Py.float bytes_so_far) (Py.float total_size)) (Py.float 100) in
  Py.round2 percent.

(** ['Downloaded %d of %d kB (%0.2f%%)\r' %
     (bytes_so_far/1024, total_size/1024, percent)] *)
Definition progress_line (bytes_so_far total_size : Z) : string :=
  "Downloaded " +:+ Py.str_of_int (bytes_so_far / 1024) +:+ " of "
  +:+ Py.str_of_int (total_size / 1024) +:+ " kB ("
  +:+ Py.format_2f (percent bytes_so_far total_size) +:+ "%)" +:+ CR.

(** The division makes floats of both numbers, which raises OverflowError
    for an integer that does not fit, and then raises ZeroDivisionError for
    the divisor 0. *)
Definition _print_progress (bytes_so_far total_size : Z) : M unit :=
  if negb (Py.fits_float bytes_so_far && Py.fits_float total_size)
  then raise OverflowError
  else if bool_decide (total_size = 0%Z) then raise ZeroDivisionError
  else
    stdout_write (progress_line bytes_so_far total_size);;
    if bool_decide (total_size ≤ bytes_so_far)%Z then stdout_write NL
    else ret tt.

(** The [while True] loop of [_read_chunks]; [fuel] bounds its iterations. *)
Fixpoint read_loop (temp_dir name : string) (r : response)
    (chunk_size : nat) (total_size : Z)
    (fuel nread : nat) (rest : string) (bytes_so_far : Z) : M Z :=
  match fuel with
  | O => raise LoopBound
  | S fuel' =>
      chunk <- response_read r nread rest chunk_size;;
      write_temp temp_dir name chunk;;
      let bytes_so_far := (bytes_so_far + Py.len chunk)%Z in
      if bool_decide (chunk = "") then ret bytes_so_far
      else
        _print_progress bytes_so_far total_size;;
        read_loop temp_dir name r chunk_size total_size
          fuel' (S nread) (Py.drop chunk_size rest) bytes_so_far
  end.

Definition _read_chunks (temp_dir name : string) (r : response)
    (chunk_size : nat) : M Z :=
  (* total_size = response.info().getheader('Content-Length').strip() *)
  match content_length r with
  | None => raise AttributeError
  | Some header =>
      (* total_size = int(total_size) *)
      match Py.int (Py.strip header) with
      | None => raise ValueError
      | Some total_size =>
          read_loop temp_dir name r chunk_size total_size
            (S (String.length (body r))) 0 (body r) 0
      end
  end.

(** [archive_name] of [_perform_download] *)
Definition archive_name (desired_version : Z) : string :=
  FILENAME_PREFIX +:+ Py.str_of_int desired_version +:+ EXTENSION.

(** [remote_archive_url] of [_perform_download] *)
Definition remote_archive_url (base_url : string) (desired_version : Z) : string :=
  let base_url :=
    if bool_decide (Py.last1 base_url = "/") then base_url else base_url +:+ "/" in
  Py.urljoin base_url (archive_name desired_version).

(** Lines 121-136 of [_perform_download]: the archive is downloaded into a
    file of the temporary directory. *)
Definition fetch (W : world) (temp_dir base_url : string) (desired_version : Z)
    : M unit :=
  let archive_name := archive_name desired_version in
  let remote_archive_url := remote_archive_url base_url desired_version in
  print ("Downloading: " +:+ remote_archive_url);;
  response <- do_urlopen W remote_archive_url;;
  open_temp temp_dir archive_name;;
  _read_chunks temp_dir archive_name response CHUNK_SIZE;;
  ret tt.

(** Lines 138-147 of [_perform_download]: the resources directory is emptied
    and the archive is extracted into it. *)
Definition install (W : world) (temp_dir : string) (desired_version : Z)
    (downloads_dir : string) : M unit :=
  print ("Removing old resources in " +:+ downloads_dir);;
  rmtree;;
  mkdir;;
  extract W temp_dir (archive_name desired_version);;
  print ("Extracted resource files into " +:+ downloads_dir).

Definition _perform_download (W : world) (base_url : string) (desired_version : Z)
    (downloads_dir : string) : M unit :=
  temp_dir <- mkdtemp W "webrtc-resources-";;
  try_finally
    (fetch W temp_dir base_url desired_version;;
     install W temp_dir desired_version downloads_dir;;
     (* lines 149-154 *)
     write_version (Py.str_of_int desired_version))
    (rmtree_temp temp_dir).

Definition _get_current_version : M Z :=
  marker <- version_file;;
  match marker with
  | Some text =>
      match Py.int text with
      | Some current_version =>
          print ("Found downloaded resources: version: "
                 +:+ Py.str_of_int current_version);;
          ret current_version
      | None => raise ValueError
      end
  | None => ret 0%Z
  end.

Definition _get_desired_version (W : world) : M Z :=
  (* execfile(deps_file, {}, locals_dict) *)
  match deps_error W with
  | Some e => raise e
  | None =>
      (* deps_vars = locals_dict['vars'] *)
      match deps_vars W with
      | None => raise KeyError
      | Some vars =>
          (* desired_version = int(deps_vars[DEPS_KEY]) *)
          match vars !! DEPS_KEY with
          | None => raise KeyError
          | Some v =>
              match Py.int_of_value v with
              | Raise e => raise e
              | Ok desired_version =>
                  print ("Version in DEPS file: " +:+ Py.str_of_int desired_version);;
                  ret desired_version
              end
          end
      end
  end.

Definition main (W : world) : M unit :=
  if Py.truthy (skip_env W) then
    print "Skipping resources download since WEBRTC_SKIP_RESOURCES_DOWNLOAD set"
  else
    present <- isdir;;
    (if present then ret tt else mkdir);;
    current_version <- _get_current_version;;
    desired_version <- _get_desired_version W;;
    if negb (bool_decide (desired_version = current_version)) || opt_force W then
      let base_url := Py.or_else (opt_base_url W) REMOTE_URL_BASE in
      _perform_download W base_url desired_version (downloads_dir W)
    else
      print ("Already have correct version: " +:+ Py.str_of_int current_version).

(** ** What is observed of a run *)

(** The events that a run from [s] to [s'] added to the trace. *)
Definition new_events (s s' : state) : list event :=
  drop (length (trace s)) (trace s').

(** The three steps of a sync, as they show in the trace: the request for the
    archive, the removal of the installed directory that starts the install,
    and the write of the version marker. *)
Inductive action :=
| Fetch (url : string)
| Install
| RecordVersion (text : string).

Definition action_of (e : event) : option action :=
  match e with
  | EvUrlopen url => Some (Fetch url)
  | EvRmtree => Some Install
  | EvWriteVersion text => Some (RecordVersion text)
  | _ => None
  end.

Definition actions (evs : list event) : list action := omap action_of evs.

(** [_perform_download] was entered: its first call is [mkdtemp]. *)
Definition download_started (evs : list event) : Prop :=
  exists t, EvMkdtemp t ∈ evs.

Definition is_print (e : event) : bool :=
  match e with EvPrint _ => true | _ => false end.

(** The texts passed to [sys.stdout.write], in order. *)
Definition stdout_writes (evs : list event) : list string :=
  omap (fun e => match e with EvStdoutWrite t => Some t | _ => None end) evs.

(** The files of the resources directory; none when it does not exist. *)
Definition files (s : state) : dir := default ∅ (resources s).

(** The events of [main] up to and including the two reads, when they return
    [current] and [desired], and the state they leave. *)
Definition prelude_events (s : state) (current desired : Z) : list event :=
  (if resources s is None then [EvMkdir] else [])
  ++ (if marker s is Some _
      then [EvPrint ("Found downloaded resources: version: "
                     +:+ Py.str_of_int current)]
      else [])
  ++ [EvPrint ("Version in DEPS file: " +:+ Py.str_of_int desired)].

Definition after_reads (s : state) (current desired : Z) : state :=
  State (Some (files s)) (tmp s) (trace s ++ prelude_events s current desired).

(** The number of chunks of [chunk_size] bytes in [length] bytes. *)
Definition chunk_count (chunk_size length : nat) : nat :=
  (length + chunk_size - 1) / chunk_size.

(** The causes for which the download of [url] fails: no connection, a
    status that is not a success, no Content-Length header, a header that is
    no integer, and a connection that breaks at one of the reads that the
    download makes (the reads of the chunks and the last, empty, one). *)
Inductive fetch_fails (W : world) (url : string) : Prop :=
| connection_error :
    urlopen W url = Raise URLError -> fetch_fails W url
| status_error :
    urlopen W url = Raise HTTPError -> fetch_fails W url
| header_missing r :
    urlopen W url = Ok r -> content_length r = None -> fetch_fails W url
| header_unparsable r h :
    urlopen W url = Ok r -> content_length r = Some h ->
    Py.int (Py.strip h) = None -> fetch_fails W url
| connection_broken r k :
    urlopen W url = Ok r -> read_error_at r = Some k ->
    k <= chunk_count CHUNK_SIZE (String.length (body r)) -> fetch_fails W url.

(** The progress of a download of [body] can be reported against the length
    [total]: both numbers fit a float and [total] is not 0, or there is no
    byte to report on. *)
Definition reportable (total : Z) (body : string) : Prop :=
  body = ""
  \/ (total <> 0%Z
      /\ Py.fits_float total = true
      /\ Py.fits_float (Py.len body) = true).

(** The events of one iteration of the loop of [_read_chunks] that read a
    chunk which is not empty and brought the count to [bytes_so_far]. *)
Definition chunk_events (chunk_size : nat) (total_size bytes_so_far : Z)
    : list event :=
  [EvRead chunk_size; EvStdoutWrite (progress_line bytes_so_far total_size)]
  ++ (if bool_decide (total_size ≤ bytes_so_far)%Z then [EvStdoutWrite NL] else []).

(** The events of the whole loop on a body of [length] bytes, [bytes_so_far]
    being the count before the loop: one iteration per chunk, then the read
    that returns the empty string. *)
Definition loop_events (chunk_size : nat) (total_size : Z)
    (length : nat) (bytes_so_far : Z) : list event :=
  flat_map
    (fun k => chunk_events chunk_size total_size
                (bytes_so_far + Z.of_nat ((k * chunk_size) `min` length)))
    (seq 1 (chunk_count chunk_size length))
  ++ [EvRead chunk_size].

Definition is_digit (c : ascii) : bool := bool_decide (is_Some (Py.digit c)).

(** ** Sample runs *)

Module Sample.

(** A server that answers every request with [r]. *)
Definition world_of (force : bool) (version : Z) (r : result response) : world :=
  {| skip_env := None;
     opt_force := force;
     opt_base_url := None;
     downloads_dir := "/src/resources";
     deps_error := None;
     deps_vars := Some {[ DEPS_KEY := Py.VInt version ]};
     urlopen := fun _ => r;
     untar := fun bytes => ([("audio.pcm", bytes)], true);
     tmp_names := fun i => pretty i;
     tmp_max := 100 |}.

(** Nothing installed, nothing in the temporary directory. *)
Definition fresh : state := State None ∅ [].

(** Version 12 installed. *)
Definition installed : state :=
  State (Some {[ VERSION_FILENAME := "12"; "audio.pcm" := "abc" ]}) ∅ [].

Definition three_bytes : response := Response (Some "3") "abc" None.
Definition empty_body : response := Response (Some "0") "" None.
Definition no_length : response := Response None "abc" None.

(** The server announces five bytes and closes the connection after three. *)
Definition truncated : response := Response (Some "5") "abc" None.

End Sample.

(** ** Two sentences of the specification, as they are written *)

(** "For all desiredVersion == currentVersion and force == false: no
    filesystem mutation occurs": the directories are after the run what they
    were before it. *)
Definition up_to_date_run_mutates_nothing : Prop :=
  forall (W : world) (s : state) (v : Z),
    Py.truthy (skip_env W) = false ->
    opt_force W = false ->
    (_get_current_version s).1 = Ok v ->
    (_get_desired_version W s).1 = Ok v ->
    resources (main W s).2 = resources s /\ tmp (main W s).2 = tmp s.

(** "emitting a [...] progress indicator after each chunk [...]; emits a
    trailing newline once the final chunk (empty read) signals completion":
    one progress line per chunk, then the newline. *)
Definition spec_stdout_writes (chunk_size : nat) (total_size : Z)
    (length : nat) : list string :=
  map (fun k => progress_line (Z.of_nat ((k * chunk_size) `min` length)) total_size)
      (seq 1 (chunk_count chunk_size length))
  ++ [NL].

Definition newline_follows_final_read : Prop :=
  forall (temp_dir name : string) (r : response) (total : Z)
         (s s' : state) (n : Z),
    (content_length r ≫= fun h => Py.int (Py.strip h)) = Some total ->
    _read_chunks temp_dir name r CHUNK_SIZE s = (Ok n, s') ->
    stdout_writes (new_events s s')
    = spec_stdout_writes CHUNK_SIZE total (String.length (body r)).

(** ** Base URLs and references *)

(** One segment of a path: not empty, none of the characters that end a
    component of a URL, and no dot segment. *)
Definition is_delim (c : ascii) : bool :=
  bool_decide (c ∈ [":"; "/"; "?"; "#"; ";"]%char).

Definition plain_segment (name : string) : bool :=
  Py.nonempty name
  && string_forall (fun c => negb (is_delim c)) name
  && negb (bool_decide (name = ".") || bool_decide (name = "..")).






(** ** A sentence of the specification, as it is written *)


(** "it is well-defined only under the precondition total_size > 0": the
    progress report ends well for no other total. *)
Definition progress_defined_only_above_zero : Prop :=
  forall (bytes_so_far total_size : Z) (s : state),
    is_ok (_print_progress bytes_so_far total_size s).1 = true ->
    (0 < total_size)%Z.

(** ** The text of a percentage *)

(** [text] shows [x] with two decimal places: the sign, then the number of
    hundredths that is nearest to [x], written as integer part, point and two
    digits. *)
Definition shows_two_places (x : spec_float) (text : string) : Prop :=
  match x with
  | S754_finite s m e =>
      exists h : Z,
        (Z.abs (2 * (h * (Py.hundredths m e).2 - (Py.hundredths m e).1))
         ≤ (Py.hundredths m e).2)%Z
        /\ (0 ≤ h)%Z
        /\ text = Py.sign s +:+ pretty (h / 100)%Z +:+ "."
                  +:+ pretty (h mod 100 / 10)%Z +:+ pretty (h mod 10)%Z
  | S754_zero s => text = Py.sign s +:+ "0.00"
  | S754_infinity s => text = Py.sign s +:+ "inf"
  | S754_nan => text = "nan"
  end.

(** ** How the calls change the state *)

(** The events that are neither a step of a sync nor the creation of a
    temporary directory. *)
Definition silent (e : event) : bool :=
  match e with
  | EvMkdtemp _ | EvUrlopen _ | EvRmtree | EvWriteVersion _ => false
  | _ => true
  end.

(** Only the directory [temp_dir] changes below the temporary directory, and
    it stays in place. *)
Definition tmp_stable (temp_dir : string) (s s' : state) : Prop :=
  (forall k, k <> temp_dir -> tmp s' !! k = tmp s !! k)
  /\ (is_Some (tmp s !! temp_dir) -> is_Some (tmp s' !! temp_dir)).

Definition is_mkdtemp (e : event) : bool :=
  match e with EvMkdtemp _ => true | _ => false end.

(** The three steps of a sync to [desired_version] from [base_url]. *)
Definition sync_actions (base_url : string) (desired_version : Z) : list action :=
  [Fetch (remote_archive_url base_url desired_version);
   Install;
   RecordVersion (Py.str_of_int desired_version)].

(** ** The outcome of a sync *)

(** The directory that [extractall] leaves when it writes [members], in order,
    into an empty directory: a later member replaces an earlier one of the
    same name. *)
Definition extracted (members : list (string * string)) : dir :=
  foldl (fun acc m => <[m.1 := m.2]> acc) ∅ members.

(** The request for [url] is answered with [r] and the whole body of [r]
    arrives: no read fails, and the Content-Length header is an integer
    against which the progress can be reported. *)
Definition delivers (W : world) (url : string) (r : response) : Prop :=
  urlopen W url = Ok r
  /\ read_error_at r = None
  /\ exists total,
      (content_length r ≫= fun h => Py.int (Py.strip h)) = Some total
      /\ reportable total (body r).

(** The content of the file [name] of the temporary directory [temp_dir]. *)
Definition temp_file (s : state) (temp_dir name : string) : option string :=
  tmp s !! temp_dir ≫= (.!! name).

(** The same world with another DEPS file. *)
Definition with_deps_vars (vars : option (gmap string Py.value)) (W : world) : world :=
  {| skip_env := skip_env W;
     opt_force := opt_force W;
     opt_base_url := opt_base_url W;
     downloads_dir := downloads_dir W;
     deps_error := deps_error W;
     deps_vars := vars;
     urlopen := urlopen W;
     untar := untar W;
     tmp_names := tmp_names W;
     tmp_max := tmp_max W |}.

(** Only white space. *)
Definition is_blank (s : string) : bool := string_forall Ascii.is_space s.

(** The computation [m] keeps the property [P] of the state, whatever its
    outcome. *)
Definition preserves {A} (P : state -> Prop) (m : M A) : Prop :=
  forall s, P s -> P (m s).2.

(** ** More sample runs *)

Module Cases.

(** Version 12 was installed, and the marker was overwritten with text that
    is no number. *)
Definition corrupt_marker : state :=
  State (Some {[ VERSION_FILENAME := "twelve"; "audio.pcm" := "abc" ]}) ∅ [].

(** The marker of version 12 as an editor saves it, with a newline. *)
Definition marker_with_newline : state :=
  State (Some {[ VERSION_FILENAME := "12" +:+ NL ]}) ∅ [].

(** An archive of two members whose extraction stops after the first. *)
Definition world_broken_archive (r : response) : world :=
  {| skip_env := None;
     opt_force := false;
     opt_base_url := None;
     downloads_dir := "/src/resources";
     deps_error := None;
     deps_vars := Some {[ DEPS_KEY := Py.VInt 13 ]};
     urlopen := fun _ => Ok r;
     untar := fun bytes => ([("video.yuv", bytes)], false);
     tmp_names := fun i => pretty i;
     tmp_max := 100 |}.

(** A DEPS file without the key, with the force flag; and the skip variable
    set where nothing else works. *)
Definition world_without_key : world :=
  with_deps_vars (Some {[ "chromium_revision" := Py.VInt 7 ]})
    (Sample.world_of true 12 (Ok Sample.three_bytes)).

Definition world_skipping : world :=
  {| skip_env := Some "1";
     opt_force := true;
     opt_base_url := None;
     downloads_dir := "/src/resources";
     deps_error := Some IOError;
     deps_vars := None;
     urlopen := fun _ => Raise URLError;
     untar := fun bytes => ([], false);
     tmp_names := fun i => pretty i;
     tmp_max := 0 |}.

End Cases.

(** ** The builtins on examples *)

Example split_slash_ex :
  Py.split_slash "http://host/path" = ["http:"; ""; "host"; "path"].
Proof. reflexivity. Qed.

Example int_ex : Py.int " 12
" = Some 12%Z /\ Py.int "-7" = Some (-7)%Z /\ Py.int "" = None
  /\ Py.int "1x" = None /\ Py.int "007" = Some 7%Z.
Proof. repeat split; reflexivity. Qed.

Example str_of_int_ex :
  Py.str_of_int 12 = "12" /\ Py.str_of_int (-5) = "-5" /\ Py.str_of_int 0 = "0".
Proof. repeat split; reflexivity. Qed.

Example urljoin_ex :
  Py.urljoin "http://host/path/" "a.tgz" = "http://host/path/a.tgz"
  /\ Py.urljoin "http://host/path" "a.tgz" = "http://host/a.tgz"
  /\ Py.urljoin "http://host/path?x=1/" "a.tgz" = "http://host/a.tgz"
  /\ Py.urljoin "http://host/a/../b/" "c" = "http://host/b/c"
  /\ Py.urljoin "s3://bucket/path/" "a.tgz" = "a.tgz"
  /\ Py.urljoin "/local/path/" "a.tgz" = "/local/path/a.tgz".
Proof. repeat split; reflexivity. Qed.

Example float_ex :
  Py.fits_float (Py.FLOAT_LIMIT - 1) = true
  /\ Py.float (Py.FLOAT_LIMIT - 1) = S754_finite false 9007199254740991 971
  /\ Py.fits_float Py.FLOAT_LIMIT = false
  /\ Py.float Py.FLOAT_LIMIT = S754_infinity false
  /\ Py.fits_float (10 ^ 400) = false.
Proof. repeat split; vm_compute; reflexivity. Qed.

Example percent_ex :
  Py.format_2f (percent 3 3) = "100.00"
  /\ Py.format_2f (percent 1 3) = "33.33"
  /\ Py.format_2f (percent 2 3) = "66.67"
  /\ Py.format_2f (percent 1 800) = "0.13"
  /\ Py.format_2f (percent 10240 25000) = "40.96"
  /\ Py.format_2f (percent 3 (-5)) = "-60.00"
  /\ progress_line 10240 25000 = "Downloaded 10 of 24 kB (40.96%)" +:+ CR.
Proof. repeat split; vm_compute; reflexivity. Qed.

(** ** Facts about the builtins *)

Section builtins.
Implicit Types (s t : string) (n : nat).

Lemma app_cons c s t : String c s +:+ t = String c (s +:+ t).
Proof. reflexivity. Qed.

Lemma app_nil_l t : "" +:+ t = t.
Proof. reflexivity. Qed.

Lemma take_length n s : String.length (Py.take n s) = n `min` String.length s.
Proof.
  revert s; induction n as [|n IH]; intros [|c s]; simpl; try done.
  by rewrite IH.
Qed.

Lemma drop_length n s : String.length (Py.drop n s) = String.length s - n.
Proof. revert s; induction n as [|n IH]; intros [|c s]; simpl; auto. Qed.

Lemma take_empty_iff n s : Py.take n s = "" <-> n = 0 \/ s = "".
Proof.
  destruct n, s; simpl; split; try tauto; try discriminate.
  intros [?|?]; discriminate.
Qed.

Lemma string_app_assoc s t u : (s +:+ t) +:+ u = s +:+ t +:+ u.
Proof. induction s as [|c s IH]; [done|]. by rewrite !app_cons, IH. Qed.

(** *** [split] and [join] *)



Lemma join_slash_app (l1 l2 : list string) :
  l1 <> [] -> l2 <> [] ->
  Py.join_slash (l1 ++ l2) = Py.join_slash l1 +:+ "/" +:+ Py.join_slash l2.
Proof.
  intros H1 H2. induction l1 as [|x l1 IH]; [done|].
  destruct l1 as [|y l1].
  - destruct l2; [done|]. reflexivity.
  - change (Py.join_slash ((x :: y :: l1) ++ l2))
      with (x +:+ "/" +:+ Py.join_slash ((y :: l1) ++ l2)).
    rewrite IH by done.
    change (Py.join_slash (x :: y :: l1))
      with (x +:+ "/" +:+ Py.join_slash (y :: l1)).
    by rewrite !string_app_assoc.
Qed.



End builtins.

(** ** Printing an integer and reading it back *)

Section decimal.
Implicit Types (s t : string) (x : N) (c : ascii).

Lemma string_forall_app p s t :
  string_forall p (s +:+ t) = string_forall p s && string_forall p t.
Proof.
  induction s as [|c s IH]; [done|].
  rewrite app_cons. simpl. by rewrite IH, andb_assoc.
Qed.

Lemma digits_app acc s t :
  Py.digits acc (s +:+ t) = Py.digits acc s ≫= fun v => Py.digits v t.
Proof.
  revert acc; induction s as [|c s IH]; intros acc; [done|].
  rewrite app_cons. simpl. destruct (Py.digit c) as [d|]; simpl; [apply IH|done].
Qed.

Lemma digit_pretty_char x :
  (x < 10)%N -> Py.digit (pretty_N_char x) = Some (Z.of_N x).
Proof.
  intros Hx.
  assert (x ∈ [0; 1; 2; 3; 4; 5; 6; 7; 8; 9]%N) as Hin.
  { rewrite !elem_of_cons. lia. }
  rewrite !elem_of_cons, elem_of_nil in Hin.
  repeat (destruct Hin as [->|Hin]; [reflexivity|]). done.
Qed.

Lemma pretty_N_go_app x s : pretty_N_go x s = pretty_N_go x "" +:+ s.
Proof.
  revert s. induction (N.lt_wf_0 x) as [x _ IH]; intros s.
  destruct (decide (x = 0%N)) as [->|Hx].
  { by rewrite !pretty_N_go_0. }
  rewrite !(pretty_N_go_step x) by lia.
  assert (x `div` 10 < x)%N as Hlt by (apply N.div_lt; lia).
  rewrite (IH _ Hlt (String _ s)), (IH _ Hlt (String _ "")).
  by rewrite string_app_assoc.
Qed.

Lemma pretty_N_go_snoc x :
  (0 < x)%N ->
  pretty_N_go x "" = pretty_N_go (x `div` 10) "" +:+ String (pretty_N_char (x `mod` 10)) "".
Proof. intros Hx. by rewrite pretty_N_go_step, pretty_N_go_app. Qed.

Lemma digits_pretty_N_go x : Py.digits 0 (pretty_N_go x "") = Some (Z.of_N x).
Proof.
  induction (N.lt_wf_0 x) as [x _ IH].
  destruct (decide (x = 0%N)) as [->|Hx]; [done|].
  rewrite pretty_N_go_snoc, digits_app by lia.
  rewrite IH by (apply N.div_lt; lia). simpl.
  rewrite digit_pretty_char by (apply N.mod_lt; lia). simpl.
  f_equal. rewrite (N.div_mod x 10) at 3 by lia. lia.
Qed.

Lemma pretty_N_go_digits x : string_forall is_digit (pretty_N_go x "") = true.
Proof.
  induction (N.lt_wf_0 x) as [x _ IH].
  destruct (decide (x = 0%N)) as [->|Hx]; [done|].
  rewrite pretty_N_go_snoc, string_forall_app by lia.
  rewrite IH by (apply N.div_lt; lia). simpl.
  unfold is_digit. rewrite digit_pretty_char by (apply N.mod_lt; lia). done.
Qed.

Lemma pretty_N_go_nonempty x : (0 < x)%N -> pretty_N_go x "" <> "".
Proof.
  intros Hx. rewrite pretty_N_go_snoc by done.
  by destruct (pretty_N_go (x `div` 10) "").
Qed.

(** A digit is one of ten characters; none of them is white space or a
    sign. *)
Lemma is_digit_cases c :
  is_digit c = true ->
  c ∈ ["0"; "1"; "2"; "3"; "4"; "5"; "6"; "7"; "8"; "9"]%char.
Proof.
  unfold is_digit, Py.digit.
  destruct c as [[] [] [] [] [] [] [] []]; simpl;
    intros H; try discriminate H; rewrite !elem_of_cons; tauto.
Qed.

Lemma digits_no_space s :
  string_forall is_digit s = true ->
  string_forall (fun c => negb (Ascii.is_space c)) s = true.
Proof.
  induction s as [|c s IH]; [done|]. simpl.
  intros [Hc Hs]%andb_true_iff. rewrite IH by done.
  apply is_digit_cases in Hc.
  rewrite !elem_of_cons, elem_of_nil in Hc.
  repeat (destruct Hc as [->|Hc]; [reflexivity|]). done.
Qed.

Lemma rstrip_no_space s :
  string_forall (fun c => negb (Ascii.is_space c)) s = true -> Py.rstrip s = s.
Proof.
  induction s as [|c s IH]; [done|]. simpl.
  intros [Hc Hs]%andb_true_iff. rewrite IH by done.
  destruct s; [|done]. by destruct (Ascii.is_space c).
Qed.

Lemma strip_no_space s :
  string_forall (fun c => negb (Ascii.is_space c)) s = true -> Py.strip s = s.
Proof.
  intros Hs. unfold Py.strip.
  assert (Py.lstrip s = s) as ->.
  { destruct s as [|c s]; [done|]. simpl in *.
    by destruct (Ascii.is_space c). }
  by apply rstrip_no_space.
Qed.

(** An unsigned literal reads as its digits. *)
Lemma int_unsigned s :
  s <> "" -> string_forall is_digit s = true -> Py.int s = Py.digits 0 s.
Proof.
  intros Hne Hd. unfold Py.int.
  rewrite strip_no_space by by apply digits_no_space.
  destruct s as [|c s]; [done|]. simpl in Hd.
  apply andb_true_iff in Hd as [Hc _]. apply is_digit_cases in Hc.
  rewrite !elem_of_cons, elem_of_nil in Hc.
  repeat (destruct Hc as [->|Hc]; [reflexivity|]). done.
Qed.

(** A literal with a minus sign reads as the opposite of its digits. *)
Lemma int_negative s :
  s <> "" -> string_forall is_digit s = true ->
  Py.int ("-" +:+ s) = Z.opp <$> Py.digits 0 s.
Proof.
  intros Hne Hd. unfold Py.int.
  rewrite strip_no_space.
  - destruct s; done.
  - rewrite app_cons, app_nil_l. simpl. by apply digits_no_space.
Qed.

(** [int('%d' % n) == n] for every integer [n]. *)
Lemma int_str_of_int (n : Z) : Py.int (Py.str_of_int n) = Some n.
Proof.
  unfold Py.str_of_int, pretty, pretty_Z.
  destruct n as [|p|p]; [done|..];
    unfold pretty, pretty_positive, pretty, pretty_N;
    (case_decide; [done|]).
  - rewrite int_unsigned
      by (auto using pretty_N_go_nonempty, pretty_N_go_digits with lia).
    by rewrite digits_pretty_N_go.
  - rewrite int_negative
      by (auto using pretty_N_go_nonempty, pretty_N_go_digits with lia).
    by rewrite digits_pretty_N_go.
Qed.
End decimal.

(** ** Resolving a file name against a base URL *)

Section strings.
Implicit Types (s t : string) (c : ascii) (n : nat) (p q : ascii -> bool).



Lemma take_string_prefix n s t :
  n <= String.length s -> Py.take n (s +:+ t) = Py.take n s.
Proof.
  revert s. induction n as [|n IH]; intros [|c s] Hn; simpl in Hn; try done; [lia|].
  rewrite app_cons. simpl. f_equal. apply IH. lia.
Qed.

Lemma string_length_app s t :
  String.length (s +:+ t) = String.length s + String.length t.
Proof. induction s as [|c s IH]; [done|]. rewrite app_cons. simpl. by rewrite IH. Qed.

Lemma string_app_inj_r s1 s2 t : s1 +:+ t = s2 +:+ t -> s1 = s2.
Proof.
  revert s2. induction s1 as [|c s1 IH]; intros [|c2 s2] Heq; try done.
  - apply (f_equal String.length) in Heq.
    rewrite app_nil_l, string_length_app in Heq. simpl in Heq. lia.
  - apply (f_equal String.length) in Heq.
    rewrite app_nil_l, string_length_app in Heq. simpl in Heq. lia.
  - rewrite !app_cons in Heq. injection Heq as -> Heq. f_equal. by apply IH.
Qed.

Lemma last1_app s t : t <> "" -> Py.last1 (s +:+ t) = Py.last1 t.
Proof.
  intros Ht. induction s as [|a s IH]; [done|]. rewrite app_cons.
  change (Py.last1 (String a (s +:+ t)))
    with (match s +:+ t with
          | "" => String a ""
          | String _ _ => Py.last1 (s +:+ t)
          end).
  rewrite IH. destruct (s +:+ t) eqn:E; [|done].
  destruct s; [done|discriminate E].
Qed.

Lemma last1_snoc s c : Py.last1 (s +:+ String c "") = String c "".
Proof. by rewrite last1_app. Qed.


Lemma string_forall_impl p q s :
  (forall c, p c = true -> q c = true) ->
  string_forall p s = true -> string_forall q s = true.
Proof.
  intros Hpq. induction s as [|c s IH]; [done|]. simpl.
  intros [Hc Hs]%andb_true_iff. by rewrite Hpq, IH.
Qed.

Lemma find_absent p c s :
  p c = false -> string_forall p s = true -> Py.find c s = None.
Proof.
  intros Hc. induction s as [|a s IH]; [done|]. simpl.
  intros [Ha Hs]%andb_true_iff. case_decide; [congruence|]. by rewrite IH.
Qed.

Lemma contains_absent p c s :
  p c = false -> string_forall p s = true -> Py.contains c s = false.
Proof.
  intros Hc Hs. unfold Py.contains. rewrite (find_absent p) by done.
  apply bool_decide_eq_false. by intros [? ?].
Qed.


Lemma split_slash_no_slash s : Py.find "/" s = None -> Py.split_slash s = [s].
Proof.
  induction s as [|c s IH]; [done|]. simpl. case_decide; [done|].
  destruct (Py.find "/" s); [done|]. intros _. by rewrite IH.
Qed.

Lemma take_1_no_slash s : Py.find "/" s = None -> Py.take 1 s <> "/".
Proof. destruct s as [|c s]; [done|]. simpl. case_decide; [done|]. congruence. Qed.

Lemma take_2_no_slash s : Py.find "/" s = None -> Py.take 2 s <> "//".
Proof. destruct s as [|c s]; [done|]. simpl. case_decide; [done|]. congruence. Qed.
End strings.

(** *** The dot segments *)

Section segments.
Implicit Types (l S R : list string) (x : string).

Lemma collapse_once_cons a b c rest :
  Py.collapse_once (a :: b :: c :: rest)
  = if bool_decide (b = "..") && negb (bool_decide (a = "") || bool_decide (a = ".."))
    then Some (c :: rest)
    else cons a <$> Py.collapse_once (b :: c :: rest).
Proof. reflexivity. Qed.

Lemma collapse_once_length l l' :
  Py.collapse_once l = Some l' -> length l = 2 + length l'.
Proof.
  revert l'. induction l as [|a l IH]; intros l'; [done|].
  destruct l as [|b [|c rest]]; try done.
  rewrite collapse_once_cons. destruct (_ && _).
  - by intros [= <-].
  - destruct (Py.collapse_once (b :: c :: rest)) as [l1|] eqn:E; [|done].
    simpl. intros [= <-]. simpl. f_equal. by apply IH.
Qed.

(** The loop of [urljoin] ends: after as many rounds as there are segments
    no round applies. *)
Lemma collapse_done n l :
  length l <= n -> Py.collapse_once (Py.collapse n l) = None.
Proof.
  revert l. induction n as [|n IH]; intros l Hn.
  - destruct l; [done|simpl in Hn; lia].
  - simpl. destruct (Py.collapse_once l) as [l'|] eqn:E; [|done].
    apply IH. apply collapse_once_length in E. lia.
Qed.

(** A round never looks at the last segment. *)
Lemma collapse_once_snoc S :
  (forall x, Py.collapse_once (S ++ [x]) = None)
  \/ exists S', forall x, Py.collapse_once (S ++ [x]) = Some (S' ++ [x]).
Proof.
  induction S as [|a S IH]; [by left|].
  destruct S as [|b S]; [by left|].
  assert (forall x, exists c rest, S ++ [x] = c :: rest) as Hsnoc.
  { intros x. destruct S; simpl; eauto. }
  destruct (bool_decide (b = "..")
            && negb (bool_decide (a = "") || bool_decide (a = ".."))) eqn:Hc.
  - right. exists S. intros x. destruct (Hsnoc x) as (c & rest & E).
    rewrite <- !app_comm_cons, E, collapse_once_cons, Hc. done.
  - destruct IH as [IH|[S' IH]].
    + left. intros x. destruct (Hsnoc x) as (c & rest & E).
      specialize (IH x). rewrite <- !app_comm_cons in *. rewrite E in *.
      by rewrite collapse_once_cons, Hc, IH.
    + right. exists (a :: S'). intros x. destruct (Hsnoc x) as (c & rest & E).
      specialize (IH x). rewrite <- !app_comm_cons in *. rewrite E in *.
      by rewrite collapse_once_cons, Hc, IH.
Qed.

Lemma collapse_snoc n S :
  exists R, forall x, Py.collapse n (S ++ [x]) = R ++ [x].
Proof.
  revert S. induction n as [|n IH]; intros S; [by exists S|].
  destruct (collapse_once_snoc S) as [Hnone|[S' Hsome]].
  - exists S. intros x. simpl. by rewrite Hnone.
  - destruct (IH S') as [R HR]. exists R. intros x. simpl. by rewrite Hsome, HR.
Qed.

(** What is left of the segments of the base does not depend on the file
    name that follows them. *)
Lemma resolve_snoc S :
  exists R, forall x, x <> "." -> x <> ".." -> Py.resolve (S ++ [x]) = R ++ [x].
Proof.
  set (f := fun x : string => negb (bool_decide (x = "."))).
  destruct (collapse_snoc (Datatypes.S (length (List.filter f S))) (List.filter f S))
    as [R HR].
  exists R. intros x Hx1 Hx2. unfold Py.resolve.
  rewrite last_snoc, (bool_decide_eq_false_2 (Some x = Some "."))
    by (intros [= E]; auto).
  fold f. rewrite List.filter_app. simpl.
  assert (f x = true) as -> by (unfold f; by rewrite bool_decide_eq_false_2).
  rewrite length_app, Nat.add_1_r, HR.
  rewrite bool_decide_eq_false_2.
  2:{ intros E. apply (f_equal last) in E. rewrite last_snoc in E.
      simpl in E. injection E as E. auto. }
  rewrite last_snoc, (bool_decide_eq_false_2 (Some x = Some ".."))
    by (intros [= E]; auto).
  by rewrite andb_false_r.
Qed.



Lemma join_slash_snoc R x :
  Py.join_slash (R ++ [x])
  = (if R is [] then "" else Py.join_slash R +:+ "/") +:+ x.
Proof.
  destruct R as [|a R]; [done|].
  rewrite join_slash_app by done. by rewrite string_app_assoc.
Qed.
End segments.

(** *** A file name as a reference *)

Section reference.
Implicit Types (base name scheme netloc path : string).

Lemma plain_segment_inv name :
  plain_segment name = true ->
  name <> ""
  /\ string_forall (fun c => negb (is_delim c)) name = true
  /\ name <> "." /\ name <> "..".
Proof.
  unfold plain_segment, Py.nonempty.
  intros [[Hne Hs]%andb_true_iff Hdot]%andb_true_iff.
  apply negb_true_iff, orb_false_iff in Hdot as [H1 H2].
  apply negb_true_iff in Hne.
  by repeat split; try eapply bool_decide_eq_false.
Qed.

Lemma urlparse_plain_segment name scheme :
  plain_segment name = true ->
  Py.urlparse name scheme = (scheme, "", name, "", "", "").
Proof.
  intros (Hne & Hs & _)%plain_segment_inv.
  set (p := fun c => negb (is_delim c)) in Hs.
  assert (Py.find "/" name = None) as Hslash by by apply (find_absent p).
  unfold Py.urlparse, Py.urlsplit.
  rewrite (find_absent p ":") by done.
  unfold Py.split_hier.
  rewrite bool_decide_eq_false_2 by by apply take_2_no_slash.
  rewrite (contains_absent p "#"), (contains_absent p "?") by done.
  rewrite (contains_absent p ";") by done.
  by rewrite andb_false_r.
Qed.

(** Joining a file name to a base replaces the last segment of the path of
    the base, when the scheme of the base takes relative references. *)
Lemma urljoin_plain_segment base name :
  base <> "" -> plain_segment name = true ->
  Py.urljoin base name =
  let '(bscheme, bnetloc, bpath, _, _, _) := Py.urlparse base "" in
  if Py.elem bscheme Py.uses_relative then
    Py.urlunparse
      (bscheme, (if Py.elem bscheme Py.uses_netloc then bnetloc else ""),
       Py.join_slash (Py.resolve (Py.init (Py.split_slash bpath) ++ [name])),
       "", "", "")
  else name.
Proof.
  intros Hbase Hname.
  pose proof (plain_segment_inv _ Hname) as (Hne & Hs & _).
  set (p := fun c => negb (is_delim c)) in Hs.
  assert (Py.find "/" name = None) as Hslash by by apply (find_absent p).
  unfold Py.urljoin, Py.nonempty.
  rewrite !bool_decide_eq_false_2 by done. cbn [negb].
  destruct (Py.urlparse base "") as [[[[[bs bn] bp] bpar] bq] bf].
  rewrite urlparse_plain_segment by done.
  rewrite bool_decide_eq_true_2 by done. cbn [negb orb].
  destruct (Py.elem bs Py.uses_relative); [|done]. cbn [negb].
  rewrite (bool_decide_eq_true_2 ("" = "")) by done. cbn [negb].
  rewrite andb_false_r.
  rewrite (bool_decide_eq_false_2 (Py.take 1 name = "/"))
    by by apply take_1_no_slash.
  rewrite (bool_decide_eq_false_2 (name = "")) by done. cbn [negb andb].
  by rewrite (split_slash_no_slash name).
Qed.

(** The name of an archive is such a file name. *)
Lemma str_of_int_chars (p : ascii -> bool) (d : Z) :
  p "-"%char = true -> (forall c, is_digit c = true -> p c = true) ->
  string_forall p (Py.str_of_int d) = true.
Proof.
  intros Hminus Hdigit.
  assert (forall x, string_forall p (pretty_N_go x "") = true) as Hgo.
  { intros x. eapply string_forall_impl; [exact Hdigit|apply pretty_N_go_digits]. }
  unfold Py.str_of_int, pretty, pretty_Z.
  destruct d as [|q|q]; [simpl; by rewrite Hdigit|..];
    unfold pretty, pretty_positive, pretty, pretty_N;
    (case_decide; [done|]).
  - apply Hgo.
  - rewrite app_cons, app_nil_l. simpl. by rewrite Hminus, Hgo.
Qed.

Lemma archive_name_plain (d : Z) : plain_segment (archive_name d) = true.
Proof.
  unfold plain_segment, archive_name.
  apply andb_true_iff. split; [apply andb_true_iff; split|]; [done| |done].
  rewrite !string_forall_app.
  rewrite str_of_int_chars; [done|done|].
  intros c Hc%is_digit_cases.
  rewrite !elem_of_cons, elem_of_nil in Hc.
  repeat (destruct Hc as [->|Hc]; [reflexivity|]). done.
Qed.
End reference.

(** *** The URL of the archive under any base *)

Section front.
Implicit Types (base scheme netloc pre t : string).

(** [urlunparse] puts the same text before a path, whatever follows the
    prefix of the archive names in it. *)
Lemma urlunparse_front scheme netloc pre :
  exists front, forall t,
    Py.urlunparse (scheme, netloc, pre +:+ FILENAME_PREFIX +:+ t, "", "", "")
    = front +:+ FILENAME_PREFIX +:+ t.
Proof.
  assert (forall n t, n <= 2 ->
            Py.take n (pre +:+ FILENAME_PREFIX +:+ t)
            = Py.take n (pre +:+ FILENAME_PREFIX)) as Htake.
  { intros n t Hn. rewrite <- string_app_assoc. apply take_string_prefix.
    rewrite string_length_app. simpl. lia. }
  assert (forall t, pre +:+ FILENAME_PREFIX +:+ t <> "") as Hne.
  { intros t E. apply (f_equal String.length) in E.
    rewrite string_length_app in E. simpl in E. lia. }
  unfold Py.urlunparse, Py.urlunsplit, Py.nonempty.
  rewrite (bool_decide_eq_true_2 ("" = "")) by done. cbn [negb].
  destruct (negb (bool_decide (netloc = ""))
            || negb (bool_decide (scheme = "")) && Py.elem scheme Py.uses_netloc
               && negb (bool_decide (Py.take 2 (pre +:+ FILENAME_PREFIX) = "//")))
    eqn:Hb1;
    destruct (bool_decide (Py.take 1 (pre +:+ FILENAME_PREFIX) = "/")) eqn:Hb2;
    destruct (bool_decide (scheme = "")) eqn:Hb3.
  all: match type of Hb1 with
       | _ = true =>
           match type of Hb2 with
           | _ = true =>
               match type of Hb3 with
               | _ = true => exists ("//" +:+ netloc +:+ pre)
               | _ => exists (scheme +:+ ":" +:+ "//" +:+ netloc +:+ pre)
               end
           | _ =>
               match type of Hb3 with
               | _ = true => exists ("//" +:+ netloc +:+ "/" +:+ pre)
               | _ => exists (scheme +:+ ":" +:+ "//" +:+ netloc +:+ "/" +:+ pre)
               end
           end
       | _ =>
           match type of Hb3 with
           | _ = true => exists pre
           | _ => exists (scheme +:+ ":" +:+ pre)
           end
       end.
  all: intros t.
  all: rewrite !Htake, ?Hb1, ?Hb2, ?Hb3 by lia; cbn [negb andb orb].
  all: rewrite ?Hb1, ?(bool_decide_eq_false_2 _ (Hne t)); cbn [negb andb orb].
  all: by rewrite ?string_app_assoc.
Qed.

(** Under every base the URL is a text that depends on the base alone,
    followed by the name of the archive. *)
Lemma urljoin_archive_name base :
  exists front, forall d, Py.urljoin base (archive_name d) = front +:+ archive_name d.
Proof.
  destruct (decide (base = "")) as [->|Hbase].
  { exists "". intros d. unfold Py.urljoin. done. }
  pose proof (fun d => urljoin_plain_segment base _ Hbase (archive_name_plain d))
    as Hjoin.
  destruct (Py.urlparse base "") as [[[[[bs bn] bp] bpar] bq] bf].
  destruct (Py.elem bs Py.uses_relative).
  2:{ exists "". intros d. by rewrite Hjoin. }
  destruct (resolve_snoc (Py.init (Py.split_slash bp))) as [R HR].
  destruct (urlunparse_front bs (if Py.elem bs Py.uses_netloc then bn else "")
              (if R is [] then "" else Py.join_slash R +:+ "/"))
    as [front Hfront].
  exists front. intros d. rewrite Hjoin.
  pose proof (plain_segment_inv _ (archive_name_plain d)) as (_ & _ & Hd1 & Hd2).
  rewrite HR, join_slash_snoc by done.
  unfold archive_name. apply Hfront.
Qed.

Lemma archive_name_inj (d1 d2 : Z) : archive_name d1 = archive_name d2 -> d1 = d2.
Proof.
  unfold archive_name. intros Heq.
  apply (inj (String.app FILENAME_PREFIX)) in Heq.
  apply string_app_inj_r in Heq.
  by apply (inj pretty) in Heq.
Qed.

Lemma remote_archive_url_inj base (d1 d2 : Z) :
  remote_archive_url base d1 = remote_archive_url base d2 -> d1 = d2.
Proof.
  unfold remote_archive_url.
  destruct (urljoin_archive_name
              (if bool_decide (Py.last1 base = "/") then base else base +:+ "/"))
    as [front Hfront].
  rewrite !Hfront. intros Heq.
  by apply (inj (String.app front)), archive_name_inj in Heq.
Qed.
End front.

(** *** A base URL without query, fragment, parameters and dot segments *)

Section plain.
Implicit Types (scheme netloc path dir name rest : string).






End plain.

Section plain_url.
Implicit Types (scheme netloc path : string).






End plain_url.

(** ** Traces *)

Section traces.
Implicit Types (s : state) (evs : list event).

Lemma new_events_app s s' evs :
  trace s' = trace s ++ evs -> new_events s s' = evs.
Proof. unfold new_events. intros ->. by rewrite drop_app_length. Qed.

Lemma actions_app evs1 evs2 : actions (evs1 ++ evs2) = actions evs1 ++ actions evs2.
Proof. apply omap_app. Qed.

Lemma actions_silent evs : Forall (fun e => silent e = true) evs -> actions evs = [].
Proof.
  induction 1 as [|e evs He _ IH]; [done|].
  unfold actions in *. destruct e; simpl in *; done.
Qed.

Lemma silent_no_mkdtemp evs t :
  Forall (fun e => silent e = true) evs -> EvMkdtemp t ∉ evs.
Proof.
  intros Hs Hin. rewrite Forall_forall in Hs. by apply Hs in Hin.
Qed.

Lemma tmp_stable_trans td s1 s2 s3 :
  tmp_stable td s1 s2 -> tmp_stable td s2 s3 -> tmp_stable td s1 s3.
Proof.
  intros [H1 H1'] [H2 H2']. split; [|by auto].
  intros k Hk. by rewrite H2, H1.
Qed.
End traces.

(** ** The download loop leaves the installed files alone *)

Section transfer.

Lemma print_progress_run (b t : Z) (s : state) :
  _print_progress b t s =
  if negb (Py.fits_float b && Py.fits_float t) then (Raise OverflowError, s)
  else if bool_decide (t = 0%Z) then (Raise ZeroDivisionError, s)
  else (Ok tt,
        State (resources s) (tmp s)
          (trace s ++ [EvStdoutWrite (progress_line b t)]
           ++ (if bool_decide (t ≤ b)%Z then [EvStdoutWrite NL] else []))).
Proof.
  unfold _print_progress. destruct (negb _); [done|].
  case_bool_decide; [done|].
  unfold bind, stdout_write, emit, ret, log. simpl.
  case_bool_decide; simpl; [|done].
  by rewrite <- app_assoc.
Qed.

(** The numbers that fit a float: every count up to one that fits, and the
    size of a chunk. *)
Lemma fits_float_le (a b : Z) :
  (0 ≤ a ≤ b)%Z -> Py.fits_float b = true -> Py.fits_float a = true.
Proof.
  unfold Py.fits_float. intros Hab Hb%bool_decide_eq_true.
  apply bool_decide_eq_true. lia.
Qed.

Lemma float_limit_large : (2 ^ 64 < Py.FLOAT_LIMIT)%Z.
Proof. reflexivity. Qed.

Lemma fits_float_small (a : Z) : (0 ≤ a < 2 ^ 64)%Z -> Py.fits_float a = true.
Proof.
  intros Ha. apply bool_decide_eq_true.
  pose proof float_limit_large. lia.
Qed.

Lemma write_temp_stable td nm chunk s :
  tmp_stable td s (write_temp td nm chunk s).2.
Proof.
  unfold write_temp, tmp_stable. simpl. split.
  - intros k Hk. by rewrite lookup_alter_ne.
  - rewrite lookup_alter_eq. intros [d ->]. by eexists.
Qed.

Lemma read_loop_frame td nm r cs total fuel :
  forall nread rest b s res s',
    read_loop td nm r cs total fuel nread rest b s = (res, s') ->
    resources s' = resources s /\ tmp_stable td s s'
    /\ exists evs, trace s' = trace s ++ evs
                   /\ Forall (fun e => silent e = true) evs.
Proof.
  induction fuel as [|fuel IH]; intros nread rest b s res s' Hrun.
  { injection Hrun as <- <-. repeat split; auto.
    exists []. by rewrite app_nil_r. }
  simpl in Hrun.
  unfold bind, response_read, bind, emit in Hrun.
  case_bool_decide as Herr.
  { injection Hrun as <- <-. repeat split; auto.
    exists [EvRead cs]. auto. }
  unfold ret in Hrun. simpl in Hrun.
  set (s1 := set_tmp _ _) in Hrun.
  assert (tmp_stable td s s1) as Hst by apply (write_temp_stable td nm _ (log _ s)).
  case_bool_decide as Hchunk.
  { injection Hrun as <- <-. repeat split; try apply Hst; auto.
    exists [EvRead cs]. auto. }
  rewrite print_progress_run in Hrun.
  destruct (negb _).
  { injection Hrun as <- <-. repeat split; try apply Hst; auto.
    exists [EvRead cs]. auto. }
  case_bool_decide as Hz.
  { injection Hrun as <- <-. repeat split; try apply Hst; auto.
    exists [EvRead cs]. auto. }
  apply IH in Hrun as (Hres & Hst' & evs & Htr & Hevs).
  split; [by rewrite Hres|]. split.
  { eapply tmp_stable_trans; [|exact Hst']. split; apply Hst. }
  eexists. split.
  { rewrite Htr. simpl. rewrite <- !app_assoc. reflexivity. }
  apply Forall_app. split; [by auto|].
  apply Forall_app. split; [|done].
  case_bool_decide; auto.
Qed.

Lemma read_chunks_frame td nm r cs s res s' :
  _read_chunks td nm r cs s = (res, s') ->
  resources s' = resources s /\ tmp_stable td s s'
  /\ exists evs, trace s' = trace s ++ evs
                 /\ Forall (fun e => silent e = true) evs.
Proof.
  unfold _read_chunks.
  destruct (content_length r) as [h|]; [destruct (Py.int _) as [total|]|].
  - apply read_loop_frame.
  - intros [= <- <-]. repeat split; auto. exists []. by rewrite app_nil_r.
  - intros [= <- <-]. repeat split; auto. exists []. by rewrite app_nil_r.
Qed.
End transfer.

(** ** One iteration of the loop *)

Lemma read_loop_unfold td nm r cs total fuel nread rest b s :
  read_loop td nm r cs total (S fuel) nread rest b s =
  if bool_decide (read_error_at r = Some nread)
  then (Raise SocketError, log (EvRead cs) s)
  else
    let chunk := Py.take cs rest in
    let s1 := set_tmp (alter (alter (fun old => old +:+ chunk) nm) td (tmp s))
                (log (EvRead cs) s) in
    let b' := (b + Py.len chunk)%Z in
    if bool_decide (chunk = "") then (Ok b', s1)
    else match _print_progress b' total s1 with
         | (Ok _, s2) =>
             read_loop td nm r cs total fuel (S nread) (Py.drop cs rest) b' s2
         | (Raise e, s2) => (Raise e, s2)
         end.
Proof.
  cbn [read_loop]. unfold bind, response_read, bind, emit, raise, ret, write_temp.
  case_bool_decide; [done|]. simpl.
  case_bool_decide; [done|]. reflexivity.
Qed.

(** ** The loop of [_read_chunks], chunk by chunk *)

Section loop.
Implicit Types (s : state) (cs fuel : nat) (total b : Z).

Lemma chunk_count_zero cs : 0 < cs -> chunk_count cs 0 = 0.
Proof. intros Hcs. unfold chunk_count. apply Nat.div_small. lia. Qed.

Lemma chunk_count_step cs L :
  0 < cs -> 0 < L -> chunk_count cs L = S (chunk_count cs (L - cs)).
Proof.
  intros Hcs HL. unfold chunk_count.
  replace (L + cs - 1) with ((L - 1) + 1 * cs) by lia.
  rewrite Nat.div_add by lia.
  destruct (decide (L ≤ cs)) as [Hle|Hgt].
  - replace (L - cs + cs - 1) with (cs - 1) by lia.
    rewrite !Nat.div_small by lia. lia.
  - replace (L - cs + cs - 1) with (L - 1) by lia. lia.
Qed.

Lemma loop_events_zero cs total b :
  0 < cs -> loop_events cs total 0 b = [EvRead cs].
Proof. intros Hcs. unfold loop_events. by rewrite chunk_count_zero. Qed.

Lemma loop_events_step cs total L b :
  0 < cs -> 0 < L ->
  loop_events cs total L b =
  chunk_events cs total (b + Z.of_nat (cs `min` L))
  ++ loop_events cs total (L - cs) (b + Z.of_nat (cs `min` L)).
Proof.
  intros Hcs HL. unfold loop_events.
  rewrite (chunk_count_step cs L) by done.
  rewrite app_assoc. f_equal.
  cbn [seq flat_map]. rewrite Nat.mul_1_l. f_equal.
  destruct (decide (L ≤ cs)) as [Hle|Hgt].
  { replace (L - cs) with 0 by lia. by rewrite chunk_count_zero. }
  rewrite <- seq_shift, flat_map_concat_map, map_map, <- flat_map_concat_map.
  apply flat_map_ext. intros k. f_equal. simpl. lia.
Qed.

(** With enough fuel, no broken connection and a total against which the
    counts can be reported (or nothing to read), the loop returns the number
    of bytes of the body after the events of [loop_events]. *)
Lemma read_loop_run td nm r cs total :
  read_error_at r = None -> 0 < cs ->
  forall fuel nread rest b s,
    String.length rest < fuel ->
    (0 ≤ b)%Z ->
    rest = ""
    \/ (total <> 0%Z /\ Py.fits_float total = true
        /\ Py.fits_float (b + Py.len rest) = true) ->
    exists s',
      read_loop td nm r cs total fuel nread rest b s
      = (Ok (b + Py.len rest)%Z, s')
      /\ resources s' = resources s
      /\ trace s' = trace s ++ loop_events cs total (String.length rest) b.
Proof.
  intros Herr Hcs.
  induction fuel as [|fuel IH]; intros nread rest b s Hfuel Hb Htotal; [lia|].
  rewrite read_loop_unfold, Herr, bool_decide_eq_false_2 by done.
  cbv zeta. set (s1 := set_tmp _ _).
  destruct (decide (rest = "")) as [->|Hrest].
  { replace (Py.take cs "") with "" by (by destruct cs).
    rewrite bool_decide_eq_true_2 by done.
    eexists. split; [reflexivity|]. split; [done|].
    simpl. by rewrite loop_events_zero. }
  rewrite bool_decide_eq_false_2.
  2:{ rewrite take_empty_iff. intros [?|?]; [lia|done]. }
  destruct Htotal as [?|(Htotal & Hft & Hfb)]; [done|].
  assert (Py.len (Py.take cs rest) + Py.len (Py.drop cs rest) = Py.len rest)%Z
    as Hsplit.
  { unfold Py.len. rewrite take_length, drop_length. lia. }
  assert (0 ≤ Py.len (Py.take cs rest) /\ 0 ≤ Py.len (Py.drop cs rest))%Z
    as [Htk Hdr] by (unfold Py.len; lia).
  rewrite print_progress_run, Hft.
  rewrite (fits_float_le (b + Py.len (Py.take cs rest)) (b + Py.len rest))
    by (done || lia).
  cbn [andb negb]. rewrite bool_decide_eq_false_2 by done.
  set (s2 := State _ _ _).
  assert (0 < String.length rest) as HL by (destruct rest; [done|simpl; lia]).
  destruct (IH (S nread) (Py.drop cs rest) (b + Py.len (Py.take cs rest))%Z s2)
    as (s' & Hrun & Hres & Htr).
  { rewrite drop_length. lia. }
  { lia. }
  { right. repeat split; [done..|].
    by replace (b + Py.len (Py.take cs rest) + Py.len (Py.drop cs rest))%Z
      with (b + Py.len rest)%Z by lia. }
  exists s'. split.
  { rewrite Hrun. do 2 f_equal. unfold Py.len.
    rewrite take_length, drop_length. lia. }
  split; [by rewrite Hres|].
  rewrite Htr. subst s2 s1. simpl.
  rewrite (loop_events_step cs total (String.length rest) b) by done.
  unfold chunk_events, Py.len.
  rewrite take_length, drop_length, <- !app_assoc. reflexivity.
Qed.

(** A total of zero with something to read: the division of the first
    progress report fails, after one read and before any output. *)
Lemma read_loop_zero_total td nm r cs fuel nread rest b s :
  read_error_at r = None -> 0 < cs -> rest <> "" ->
  Py.fits_float (b + Py.len (Py.take cs rest)) = true ->
  read_loop td nm r cs 0 (S fuel) nread rest b s
  = (Raise ZeroDivisionError,
     set_tmp (alter (alter (fun old => old +:+ Py.take cs rest) nm) td (tmp s))
       (log (EvRead cs) s)).
Proof.
  intros Herr Hcs Hrest Hfits.
  rewrite read_loop_unfold, Herr, bool_decide_eq_false_2 by done.
  cbv zeta. rewrite bool_decide_eq_false_2.
  2:{ rewrite take_empty_iff. intros [?|?]; [lia|done]. }
  by rewrite print_progress_run, Hfits.
Qed.

(** The count after the first chunk of 10 KiB fits a float. *)
Lemma first_chunk_fits (rest : string) :
  Py.fits_float (0 + Py.len (Py.take CHUNK_SIZE rest)) = true.
Proof.
  apply fits_float_small. unfold Py.len. rewrite take_length.
  assert (Z.of_nat CHUNK_SIZE = 10240%Z) as Hcs by reflexivity.
  change (2 ^ 64)%Z with 18446744073709551616%Z. lia.
Qed.

(** A connection that breaks at a read the loop gets to: the loop raises
    (at that read, or earlier when the total is 0). *)
Lemma read_loop_broken td nm r cs total k :
  read_error_at r = Some k -> 0 < cs ->
  forall fuel nread rest b s,
    String.length rest < fuel ->
    nread <= k ->
    k - nread <= chunk_count cs (String.length rest) ->
    is_ok (read_loop td nm r cs total fuel nread rest b s).1 = false.
Proof.
  intros Herr Hcs.
  induction fuel as [|fuel IH]; intros nread rest b s Hfuel Hle Hreach; [lia|].
  rewrite read_loop_unfold. case_bool_decide as Hnow; [done|]. cbv zeta.
  assert (nread < k) as Hlt.
  { destruct (decide (nread = k)) as [->|?]; [done|lia]. }
  case_bool_decide as Hchunk.
  { apply take_empty_iff in Hchunk as [?| ->]; [lia|].
    simpl in Hreach. rewrite chunk_count_zero in Hreach by done. lia. }
  rewrite print_progress_run. destruct (negb _); [done|].
  case_bool_decide; [done|].
  assert (0 < String.length rest) as HL.
  { destruct rest; [|simpl; lia]. by destruct cs. }
  rewrite (chunk_count_step cs (String.length rest)) in Hreach by done.
  apply IH; rewrite ?drop_length; lia.
Qed.
End loop.

Lemma chunk_size_positive : 0 < CHUNK_SIZE.
Proof. unfold CHUNK_SIZE. lia. Qed.

(** ** The loop ends *)

(** With more fuel than bytes to read the bound of the loop is never hit,
    whatever the response, the chunk size and the total: every iteration but
    the last consumes at least one byte. *)
Lemma read_loop_total td nm r cs total fuel :
  forall nread rest b s,
    String.length rest < fuel ->
    (read_loop td nm r cs total fuel nread rest b s).1 <> Raise LoopBound.
Proof.
  induction fuel as [|fuel IH]; intros nread rest b s Hfuel; [lia|].
  rewrite read_loop_unfold. case_bool_decide; [done|]. cbv zeta.
  case_bool_decide as Hchunk; [done|].
  rewrite print_progress_run. destruct (negb _); [done|].
  case_bool_decide; [done|].
  apply IH. rewrite drop_length.
  rewrite take_empty_iff in Hchunk.
  destruct rest; [tauto|]. simpl in *. lia.
Qed.

Lemma read_chunks_total td nm r cs s :
  (_read_chunks td nm r cs s).1 <> Raise LoopBound.
Proof.
  unfold _read_chunks.
  destruct (content_length r) as [h|]; [|done].
  destruct (Py.int _) as [total|]; [|done].
  apply read_loop_total. lia.
Qed.

(** ** The phases of [_perform_download] *)

Section phases.
Context (W : world).
Implicit Types (s : state) (evs : list event).

Lemma silent_not_mkdtemp evs :
  Forall (fun e => silent e = true) evs ->
  Forall (fun e => is_mkdtemp e = false) evs.
Proof. intros H. eapply Forall_impl; [exact H|]. by intros []. Qed.

Lemma open_temp_stable td nm s res s' :
  open_temp td nm s = (res, s') ->
  resources s' = resources s /\ trace s' = trace s /\ tmp_stable td s s'.
Proof.
  unfold open_temp. destruct (tmp s !! td) as [d|] eqn:E; intros [= <- <-].
  - repeat split; simpl.
    + intros k Hk. by rewrite lookup_insert_ne.
    + rewrite lookup_insert_eq. by eexists.
  - repeat split; auto.
Qed.

(** The fetch touches neither the installed files nor any other temporary
    directory, whatever its outcome. *)
Lemma fetch_frame td base d s res s' :
  fetch W td base d s = (res, s') ->
  resources s' = resources s /\ tmp_stable td s s'
  /\ exists evs,
      trace s' = trace s
                 ++ EvPrint ("Downloading: " +:+ remote_archive_url base d)
                 :: EvUrlopen (remote_archive_url base d) :: evs
      /\ Forall (fun e => silent e = true) evs.
Proof.
  unfold fetch, bind, print, emit, do_urlopen. simpl.
  destruct (urlopen W _) as [r|e].
  2:{ intros [= <- <-]. repeat split; auto. exists []. split; [|done].
      simpl. by rewrite <- app_assoc. }
  destruct (open_temp _ _ _) as [[[]|e] s1] eqn:Hopen;
    apply open_temp_stable in Hopen as (Hres & Htr & Hst).
  2:{ intros [= <- <-]. repeat split; auto; try apply Hst.
      exists []. split; [|done]. rewrite Htr. simpl. by rewrite <- app_assoc. }
  destruct (_read_chunks _ _ _ _ _) as [r2 s2] eqn:Hread.
  apply read_chunks_frame in Hread as (Hres2 & Hst2 & evs & Htr2 & Hevs).
  intros Hfin.
  assert (s' = s2) as -> by (destruct r2; by injection Hfin).
  split; [by rewrite Hres2, Hres|]. split.
  { eapply tmp_stable_trans; [|exact Hst2]. exact Hst. }
  exists evs. split; [|done].
  rewrite Htr2, Htr. simpl. by rewrite <- !app_assoc.
Qed.

(** Each of the causes makes the fetch raise. *)
Lemma fetch_fails_raise td base d s :
  fetch_fails W (remote_archive_url base d) ->
  is_ok (fetch W td base d s).1 = false.
Proof.
  intros Hf. unfold fetch, bind, print, emit, do_urlopen. simpl.
  destruct Hf as [-> | -> | r -> Hh | r h -> Hh Hp | r k -> He Hk]; try done.
  all: destruct (open_temp _ _ _) as [[[]|e] s1]; [|done].
  all: unfold _read_chunks.
  - by rewrite Hh.
  - by rewrite Hh, Hp.
  - destruct (content_length r) as [h|]; [|done].
    destruct (Py.int _) as [total|]; [|done].
    pose proof (read_loop_broken td (archive_name d) r CHUNK_SIZE total k He
                  chunk_size_positive (S (String.length (body r))) 0 (body r) 0%Z s1
                  ltac:(lia) ltac:(lia) ltac:(lia)) as Hbroken.
    by destruct (read_loop _ _ _ _ _ _ _ _ _ _) as [[]].
Qed.

(** The install leaves the temporary directories alone and starts with the
    removal of the installed directory. *)
Lemma install_frame td d dd s res s' :
  install W td d dd s = (res, s') ->
  tmp s' = tmp s
  /\ (is_ok res = true -> is_Some (resources s'))
  /\ exists evs,
      trace s' = trace s
                 ++ EvPrint ("Removing old resources in " +:+ dd) :: EvRmtree :: evs
      /\ Forall (fun e => silent e = true) evs.
Proof.
  unfold install, bind, print, emit, rmtree, mkdir, extract. simpl.
  destruct (resources s) as [old|] eqn:Hold; simpl.
  2:{ intros [= <- <-]. split; [done|]. split; [done|].
      exists []. split; [|done]. simpl. by rewrite <- app_assoc. }
  destruct (tmp s !! td ≫= _) as [bytes|]; simpl.
  2:{ intros [= <- <-]. split; [done|]. split; [done|].
      exists [EvMkdir; EvExtract]. split; [|by auto].
      simpl. by rewrite <- !app_assoc. }
  destruct (untar W bytes) as [members [|]]; simpl.
  - intros [= <- <-]. split; [done|]. split; [by eexists|].
    eexists [EvMkdir; EvExtract; EvPrint _]. split; [|by auto].
    simpl. by rewrite <- !app_assoc.
  - intros [= <- <-]. split; [done|]. split; [done|].
    exists [EvMkdir; EvExtract]. split; [|by auto].
    simpl. by rewrite <- !app_assoc.
Qed.
End phases.

(** ** The whole of [_perform_download] *)

Section sync.
Context (W : world).
Implicit Types (s : state) (evs : list event).

Lemma actions_fetch_events url line evs :
  Forall (fun e => silent e = true) evs ->
  actions (EvPrint line :: EvUrlopen url :: evs) = [Fetch url].
Proof.
  intros Hs. change (actions ([EvPrint line; EvUrlopen url] ++ evs) = [Fetch url]).
  by rewrite actions_app, (actions_silent evs).
Qed.

Lemma actions_install_events line evs :
  Forall (fun e => silent e = true) evs ->
  actions (EvPrint line :: EvRmtree :: evs) = [Install].
Proof.
  intros Hs. change (actions ([EvPrint line; EvRmtree] ++ evs) = [Install]).
  by rewrite actions_app, (actions_silent evs).
Qed.

Lemma mkdtemp_search_free prefix (t : gmap string dir) tries from name :
  mkdtemp_search W prefix t tries from = Some name -> t !! name = None.
Proof.
  revert from; induction tries as [|tries IH]; intros from; [done|]. simpl.
  destruct (t !! (prefix +:+ tmp_names W from)) eqn:E; [apply IH|].
  by intros [= <-].
Qed.

(** The three steps in the body of the [try]: how far they get, and what
    that leaves. *)
Lemma sync_body_cases td base d dd s res s' :
  (fetch W td base d;; install W td d dd;;
   write_version (Py.str_of_int d)) s = (res, s') ->
  tmp_stable td s s'
  /\ exists evs,
      trace s' = trace s ++ evs
      /\ Forall (fun e => is_mkdtemp e = false) evs
      /\ ((res = Ok tt /\ actions evs = sync_actions base d
           /\ marker s' = Some (Py.str_of_int d))
          \/ (is_ok res = false /\ actions evs = take 1 (sync_actions base d)
              /\ resources s' = resources s)
          \/ (is_ok res = false /\ actions evs = take 2 (sync_actions base d))).
Proof.
  unfold bind at 1.
  destruct (fetch _ _ _ _ _) as [r1 s1] eqn:Hf.
  apply fetch_frame in Hf as (Hres1 & Hst1 & evs1 & Htr1 & Hevs1).
  destruct r1 as [[]|e].
  2:{ intros [= <- <-]. split; [done|]. eexists. split; [exact Htr1|].
      split.
      { repeat constructor. by apply silent_not_mkdtemp. }
      right; left. split; [done|]. split; [|done].
      by rewrite actions_fetch_events. }
  unfold bind at 1.
  destruct (install _ _ _ _ _) as [r2 s2] eqn:Hi.
  apply install_frame in Hi as (Htmp2 & Hok2 & evs2 & Htr2 & Hevs2).
  assert (tmp_stable td s s2) as Hst2.
  { destruct Hst1 as [Ha Hb]. split; rewrite Htmp2; auto. }
  destruct r2 as [[]|e].
  2:{ intros [= <- <-]. split; [done|]. eexists. split.
      { rewrite Htr2, Htr1, <- app_assoc. reflexivity. }
      split.
      { apply Forall_app. split; repeat constructor; by apply silent_not_mkdtemp. }
      right; right. split; [done|].
      by rewrite actions_app, actions_fetch_events, actions_install_events. }
  destruct (Hok2 eq_refl) as [files2 Hfiles2].
  unfold write_version. rewrite Hfiles2. intros [= <- <-].
  split; [done|]. eexists. split.
  { simpl. rewrite Htr2, Htr1, <- !app_assoc. reflexivity. }
  split.
  { apply Forall_app. split; [|apply Forall_app; split];
      repeat constructor; by apply silent_not_mkdtemp. }
  left. split; [done|]. split.
  - rewrite !actions_app.
    by rewrite actions_fetch_events, actions_install_events.
  - unfold marker. simpl. by rewrite lookup_insert_eq.
Qed.

(** Every run of [_perform_download]: the temporary directories are as
    before, [mkdtemp] is called once and first, and the steps of the sync
    are a prefix of [sync_actions] that is complete exactly on success. *)
Lemma perform_download_cases base d dd s res s' :
  _perform_download W base d dd s = (res, s') ->
  tmp s' = tmp s
  /\ exists t evs,
      trace s' = trace s ++ EvMkdtemp t :: evs
      /\ Forall (fun e => is_mkdtemp e = false) evs
      /\ (forall name, t = Some name ->
            tmp s !! name = None /\ EvRmtreeTemp name ∈ evs)
      /\ ((res = Ok tt /\ actions evs = sync_actions base d
           /\ marker s' = Some (Py.str_of_int d))
          \/ (is_ok res = false /\ actions evs = [] /\ resources s' = resources s)
          \/ (is_ok res = false /\ actions evs = take 1 (sync_actions base d)
              /\ resources s' = resources s)
          \/ (is_ok res = false /\ actions evs = take 2 (sync_actions base d))).
Proof.
  unfold _perform_download. unfold bind at 1. unfold mkdtemp.
  destruct (mkdtemp_search _ _ _ _ _) as [td|] eqn:Hsearch.
  2:{ intros [= <- <-]. split; [done|]. exists None, []. split; [done|].
      split; [done|]. split; [done|]. right; left. done. }
  apply mkdtemp_search_free in Hsearch.
  set (s0 := set_tmp _ _).
  unfold try_finally.
  destruct (bind _ _ s0) as [r3 s3] eqn:Hbody.
  apply sync_body_cases in Hbody as ([Hother Hkeep] & evs & Htr & Hevs & Hcases).
  assert (is_Some (tmp s3 !! td)) as [dtd Hdtd].
  { apply Hkeep. subst s0. simpl. rewrite lookup_insert_eq. by eexists. }
  unfold rmtree_temp. rewrite Hdtd. intros [= <- <-]. simpl.
  split.
  { apply map_eq. intros k. destruct (decide (k = td)) as [->|Hk].
    - by rewrite lookup_delete_eq.
    - rewrite lookup_delete_ne by done. rewrite Hother by done.
      subst s0. simpl. by rewrite lookup_insert_ne. }
  exists (Some td), (evs ++ [EvRmtreeTemp td]). split.
  { rewrite Htr. subst s0. simpl. by rewrite <- !app_assoc. }
  split.
  { apply Forall_app. split; [done|]. by repeat constructor. }
  split.
  { intros name [= <-]. split; [done|].
    rewrite elem_of_app, list_elem_of_singleton. by right. }
  rewrite actions_app. simpl. rewrite app_nil_r.
  destruct Hcases as [(-> & Ha & Hm) | [(Hr & Ha & Hm) | (Hr & Ha)]].
  - left. done.
  - right; right; left. done.
  - right; right; right. done.
Qed.
End sync.

(** ** The orchestrator *)

Section orchestrator.
Context (W : world).
Implicit Types (s : state) (c d : Z).

Lemma get_current_version_inv s c :
  (_get_current_version s).1 = Ok c ->
  match marker s with
  | None => c = 0%Z
  | Some text => Py.int text = Some c
  end.
Proof.
  unfold _get_current_version, bind, version_file.
  destruct (marker s) as [text|]; simpl.
  - destruct (Py.int text) as [v|]; simpl; [|done]. by intros [= ->].
  - by intros [= <-].
Qed.

Lemma get_desired_version_run s d :
  (_get_desired_version W s).1 = Ok d ->
  forall s', _get_desired_version W s' =
             (Ok d, log (EvPrint ("Version in DEPS file: " +:+ Py.str_of_int d)) s').
Proof.
  unfold _get_desired_version.
  destruct (deps_error W) as [e|]; [done|].
  destruct (deps_vars W) as [vars|]; [|done].
  destruct (vars !! DEPS_KEY) as [v|]; [|done].
  destruct (Py.int_of_value v) as [d'|e]; [|done].
  unfold bind, print, emit, ret. simpl. by intros [= ->].
Qed.

(** [main] up to its decision, when nothing stops it earlier. *)
Lemma main_decision s c d :
  Py.truthy (skip_env W) = false ->
  (_get_current_version s).1 = Ok c ->
  (_get_desired_version W s).1 = Ok d ->
  main W s =
  if negb (bool_decide (d = c)) || opt_force W
  then _perform_download W (Py.or_else (opt_base_url W) REMOTE_URL_BASE) d
         (downloads_dir W) (after_reads s c d)
  else (Ok tt,
        log (EvPrint ("Already have correct version: " +:+ Py.str_of_int c))
          (after_reads s c d)).
Proof.
  intros Hskip Hc Hd. unfold main. rewrite Hskip.
  apply get_current_version_inv in Hc.
  pose proof (get_desired_version_run s d Hd) as Hrun.
  unfold after_reads, prelude_events, files.
  unfold _get_current_version, bind, isdir, mkdir, version_file, ret, print, emit.
  unfold marker in *.
  destruct (resources s) as [old|] eqn:Hres; simpl in *.
  - rewrite Hres. simpl.
    destruct (old !! VERSION_FILENAME) as [text|]; simpl.
    + rewrite Hc. simpl. rewrite Hrun.
      unfold log. simpl. rewrite Hres, <- !app_assoc. simpl.
      destruct (negb _ || _); [done|]. simpl. by rewrite <- ?app_assoc.
    + subst c. rewrite Hrun.
      unfold log. simpl. rewrite Hres.
      destruct (negb _ || _); [done|]. simpl. by rewrite <- ?app_assoc.
  - subst c. rewrite Hres. simpl. rewrite lookup_empty, Hrun.
    unfold log. simpl. rewrite <- !app_assoc. simpl.
    destruct (negb _ || _); [done|]. simpl. by rewrite <- ?app_assoc.
Qed.
End orchestrator.

(** ** The URL of the archive *)




(** ** The decision of the orchestrator *)

Lemma prelude_events_silent s c d :
  Forall (fun e => silent e = true) (prelude_events s c d).
Proof.
  unfold prelude_events.
  destruct (resources s), (marker s); simpl; repeat constructor.
Qed.

Lemma not_started_silent evs :
  Forall (fun e => silent e = true) evs -> ~ download_started evs.
Proof. intros Hs [t Ht]. by eapply silent_no_mkdtemp. Qed.

Lemma trigger_iff (force : bool) (c d : Z) :
  negb (bool_decide (d = c)) || force = true <-> force = true \/ d <> c.
Proof.
  case_bool_decide; destruct force; simpl; split; auto.
  - intros [?|?]; done.
Qed.

(** The trace of a run of [main] that finds the version up to date. *)
Lemma main_up_to_date (W : world) s c :
  Py.truthy (skip_env W) = false ->
  opt_force W = false ->
  (_get_current_version s).1 = Ok c ->
  (_get_desired_version W s).1 = Ok c ->
  main W s =
  (Ok tt,
   State (Some (files s)) (tmp s)
     (trace s ++ prelude_events s c c
      ++ [EvPrint ("Already have correct version: " +:+ Py.str_of_int c)])).
Proof.
  intros Hskip Hforce Hc Hd.
  rewrite (main_decision W s c c) by done.
  rewrite Hforce, bool_decide_eq_true_2 by done. simpl.
  unfold log, after_reads. simpl. by rewrite <- app_assoc.
Qed.

(** C1. When the environment does not skip the run and both versions are
    read, the download-and-install sequence is entered if and only if the
    force flag is set or the desired version differs from the current one,
    and then the rest of the run is [_perform_download] for the desired
    version; otherwise the run ends well and, after the two reads, only
    prints the message that reports the current version. *)
Theorem main_syncs_iff_forced_or_stale (W : world) (s : state) (c d : Z) :
  Py.truthy (skip_env W) = false ->
  (_get_current_version s).1 = Ok c ->
  (_get_desired_version W s).1 = Ok d ->
  (download_started (new_events s (main W s).2)
   <-> opt_force W = true \/ d <> c)
  /\ (opt_force W = true \/ d <> c ->
      main W s
      = _perform_download W (Py.or_else (opt_base_url W) REMOTE_URL_BASE) d
          (downloads_dir W) (after_reads s c d))
  /\ (opt_force W = false -> d = c ->
      (main W s).1 = Ok tt
      /\ new_events s (main W s).2
         = prelude_events s c d
           ++ [EvPrint ("Already have correct version: " +:+ Py.str_of_int c)]).
Proof.
  intros Hskip Hc Hd. split; [|split].
  - rewrite <- trigger_iff, (main_decision W s c d) by done.
    destruct (negb _ || _) eqn:Htrig.
    + split; [done|]. intros _.
      destruct (_perform_download _ _ _ _ _) as [res s'] eqn:Hrun.
      apply perform_download_cases in Hrun as (_ & t & evs & Htr & _).
      simpl. exists t.
      rewrite (new_events_app s s' (prelude_events s c d ++ EvMkdtemp t :: evs)).
      * rewrite elem_of_app, elem_of_cons. auto.
      * rewrite Htr. unfold after_reads. simpl. by rewrite <- app_assoc.
    + split; [|done]. intros Hstarted. exfalso. revert Hstarted. simpl.
      rewrite (new_events_app _ _ (prelude_events s c d ++ [EvPrint
        ("Already have correct version: " +:+ Py.str_of_int c)])).
      * apply not_started_silent, Forall_app. split; [|by repeat constructor].
        apply prelude_events_silent.
      * unfold after_reads. simpl. by rewrite <- app_assoc.
  - intros Htrig. apply trigger_iff in Htrig.
    by rewrite (main_decision W s c d), Htrig.
  - intros Hforce ->.
    rewrite (main_up_to_date W s c) by done. simpl. split; [done|].
    by apply new_events_app.
Qed.

(** Version 12 is installed and the DEPS file asks for version 13. *)
Lemma main_syncs_iff_forced_or_stale_witness :
  let W := Sample.world_of false 13 (Ok Sample.three_bytes) in
  (Py.truthy (skip_env W) = false
   /\ (_get_current_version Sample.installed).1 = Ok 12%Z
   /\ (_get_desired_version W Sample.installed).1 = Ok 13%Z)
  /\ (download_started (new_events Sample.installed (main W Sample.installed).2)
      <-> opt_force W = true \/ 13%Z <> 12%Z)
  /\ (opt_force W = true \/ 13%Z <> 12%Z ->
      main W Sample.installed
      = _perform_download W (Py.or_else (opt_base_url W) REMOTE_URL_BASE) 13
          (downloads_dir W) (after_reads Sample.installed 12 13))
  /\ (opt_force W = false -> 13%Z = 12%Z ->
      (main W Sample.installed).1 = Ok tt
      /\ new_events Sample.installed (main W Sample.installed).2
         = prelude_events Sample.installed 12 13
           ++ [EvPrint ("Already have correct version: " +:+ Py.str_of_int 12)]).
Proof.
  split; [repeat split; reflexivity|].
  apply (main_syncs_iff_forced_or_stale
           (Sample.world_of false 13 (Ok Sample.three_bytes)) Sample.installed 12 13);
    reflexivity.
Defined.

(** ** A missing marker, and a run that finds nothing to do *)

(** C6. Without a version marker the current version reads as 0, nothing is
    printed by the read, and a run whose manifest asks for version 0 without
    the force flag ends well after the message that version 0 is installed,
    without entering the download. *)
Theorem missing_marker_reads_zero (W : world) (s : state) :
  marker s = None ->
  _get_current_version s = (Ok 0%Z, s)
  /\ (Py.truthy (skip_env W) = false ->
      opt_force W = false ->
      (_get_desired_version W s).1 = Ok 0%Z ->
      (main W s).1 = Ok tt
      /\ new_events s (main W s).2
         = prelude_events s 0 0 ++ [EvPrint "Already have correct version: 0"]
      /\ ~ download_started (new_events s (main W s).2)).
Proof.
  intros Hmarker.
  assert (_get_current_version s = (Ok 0%Z, s)) as Hcur.
  { unfold _get_current_version, bind, version_file. by rewrite Hmarker. }
  split; [done|]. intros Hskip Hforce Hd.
  rewrite (main_up_to_date W s 0) by (by rewrite ?Hcur).
  simpl. split; [done|].
  rewrite (new_events_app _ _
             (prelude_events s 0 0 ++ [EvPrint "Already have correct version: 0"]))
    by done.
  split; [done|].
  apply not_started_silent, Forall_app. split; [|by repeat constructor].
  apply prelude_events_silent.
Qed.

(** A fresh checkout whose DEPS file asks for version 0. *)
Lemma missing_marker_reads_zero_witness :
  let W := Sample.world_of false 0 (Raise URLError) in
  marker Sample.fresh = None
  /\ _get_current_version Sample.fresh = (Ok 0%Z, Sample.fresh)
  /\ (Py.truthy (skip_env W) = false ->
      opt_force W = false ->
      (_get_desired_version W Sample.fresh).1 = Ok 0%Z ->
      (main W Sample.fresh).1 = Ok tt
      /\ new_events Sample.fresh (main W Sample.fresh).2
         = prelude_events Sample.fresh 0 0
           ++ [EvPrint "Already have correct version: 0"]
      /\ ~ download_started (new_events Sample.fresh (main W Sample.fresh).2)).
Proof.
  split; [reflexivity|].
  apply (missing_marker_reads_zero
           (Sample.world_of false 0 (Raise URLError)) Sample.fresh).
  reflexivity.
Defined.

(** C7, as it is written, fails: on a fresh checkout whose manifest asks for
    version 0 the versions agree and the force flag is off, and the run
    creates the resources directory. *)
Lemma up_to_date_run_creates_directory :
  let W := Sample.world_of false 0 (Raise URLError) in
  (_get_current_version Sample.fresh).1 = Ok 0%Z
  /\ (_get_desired_version W Sample.fresh).1 = Ok 0%Z
  /\ opt_force W = false
  /\ resources Sample.fresh = None
  /\ resources (main W Sample.fresh).2 = Some ∅
  /\ ~ up_to_date_run_mutates_nothing.
Proof.
  repeat split; try reflexivity.
  intros Hclaim.
  destruct (Hclaim (Sample.world_of false 0 (Raise URLError)) Sample.fresh 0%Z)
    as [Hres _]; try reflexivity.
  discriminate Hres.
Qed.

(** C7, amended. When the desired version equals the current one and the
    force flag is off, the run creates the resources directory if it is
    missing and changes nothing else: the files in the directory and the
    temporary directories are as before, nothing is requested from the
    network, and apart from that [mkdir] the run only prints. *)
Theorem up_to_date_run_only_ensures_directory (W : world) (s : state) (v : Z) :
  Py.truthy (skip_env W) = false ->
  opt_force W = false ->
  (_get_current_version s).1 = Ok v ->
  (_get_desired_version W s).1 = Ok v ->
  let s' := (main W s).2 in
  resources s' = Some (files s)
  /\ files s' = files s
  /\ marker s' = marker s
  /\ tmp s' = tmp s
  /\ (EvMkdir ∈ new_events s s' <-> resources s = None)
  /\ Forall (fun e => is_print e = true \/ e = EvMkdir) (new_events s s')
  /\ actions (new_events s s') = []
  /\ ~ download_started (new_events s s').
Proof.
  intros Hskip Hforce Hc Hd.
  rewrite (main_up_to_date W s v) by done. simpl.
  rewrite (new_events_app _ _
             (prelude_events s v v
              ++ [EvPrint ("Already have correct version: " +:+ Py.str_of_int v)]))
    by done.
  assert (Forall (fun e => silent e = true)
            (prelude_events s v v
             ++ [EvPrint ("Already have correct version: " +:+ Py.str_of_int v)]))
    as Hsilent.
  { apply Forall_app. split; [apply prelude_events_silent|by repeat constructor]. }
  split; [done|]. split; [done|]. split.
  { unfold marker, files. simpl. destruct (resources s); [done|].
    simpl. by rewrite lookup_empty. }
  split; [done|]. split.
  { unfold prelude_events. rewrite !elem_of_app.
    destruct (resources s), (marker s); simpl;
      rewrite ?elem_of_cons, ?elem_of_nil; intuition discriminate. }
  split.
  { unfold prelude_events. repeat (apply Forall_app; split).
    all: try destruct (resources s); try destruct (marker s).
    all: repeat first [apply Forall_nil | apply Forall_cons]; simpl; auto. }
  split; [by apply actions_silent|by apply not_started_silent].
Qed.

(** The fresh checkout again: the directory is created, empty. *)
Lemma up_to_date_run_only_ensures_directory_witness :
  let W := Sample.world_of false 0 (Raise URLError) in
  let s' := (main W Sample.fresh).2 in
  (Py.truthy (skip_env W) = false
   /\ opt_force W = false
   /\ (_get_current_version Sample.fresh).1 = Ok 0%Z
   /\ (_get_desired_version W Sample.fresh).1 = Ok 0%Z)
  /\ resources s' = Some (files Sample.fresh)
  /\ files s' = files Sample.fresh
  /\ marker s' = marker Sample.fresh
  /\ tmp s' = tmp Sample.fresh
  /\ (EvMkdir ∈ new_events Sample.fresh s' <-> resources Sample.fresh = None)
  /\ Forall (fun e => is_print e = true \/ e = EvMkdir) (new_events Sample.fresh s')
  /\ actions (new_events Sample.fresh s') = []
  /\ ~ download_started (new_events Sample.fresh s').
Proof.
  split; [repeat split; reflexivity|].
  apply (up_to_date_run_only_ensures_directory
           (Sample.world_of false 0 (Raise URLError)) Sample.fresh 0);
    reflexivity.
Defined.

(** ** A sync, then a second run *)

Lemma get_current_version_of_marker s text c :
  marker s = Some text -> Py.int text = Some c ->
  (_get_current_version s).1 = Ok c.
Proof.
  intros Hm Hi. unfold _get_current_version, bind, version_file.
  by rewrite Hm, Hi.
Qed.

(** C8. After a sync to version V that ended well the marker holds the decimal
    text of V; a later run with a manifest that asks for V again, without the
    force flag, reads V as the current version, prints its three messages and
    ends, entering no download and leaving all files as they are. *)
Theorem sync_then_up_to_date (W W2 : world) (base_url downloads : string) (V : Z)
    (s s1 : state) :
  _perform_download W base_url V downloads s = (Ok tt, s1) ->
  Py.truthy (skip_env W2) = false ->
  opt_force W2 = false ->
  (_get_desired_version W2 s1).1 = Ok V ->
  marker s1 = Some (Py.str_of_int V)
  /\ (_get_current_version s1).1 = Ok V
  /\ (main W2 s1).1 = Ok tt
  /\ new_events s1 (main W2 s1).2
     = [EvPrint ("Found downloaded resources: version: " +:+ Py.str_of_int V);
        EvPrint ("Version in DEPS file: " +:+ Py.str_of_int V);
        EvPrint ("Already have correct version: " +:+ Py.str_of_int V)]
  /\ ~ download_started (new_events s1 (main W2 s1).2)
  /\ resources (main W2 s1).2 = resources s1
  /\ tmp (main W2 s1).2 = tmp s1.
Proof.
  intros Hsync Hskip Hforce Hd.
  apply perform_download_cases in Hsync as (_ & t & evs & _ & _ & _ & Hcases).
  assert (marker s1 = Some (Py.str_of_int V)) as Hmarker.
  { destruct Hcases as [(_ & _ & Hm)|[(Hr & _)|[(Hr & _)|(Hr & _)]]]; done. }
  clear Hcases.
  assert ((_get_current_version s1).1 = Ok V) as Hc.
  { eapply get_current_version_of_marker; [exact Hmarker|]. apply int_str_of_int. }
  split; [done|]. split; [done|].
  rewrite (main_up_to_date W2 s1 V) by done. simpl.
  assert (prelude_events s1 V V
          = [EvPrint ("Found downloaded resources: version: " +:+ Py.str_of_int V);
             EvPrint ("Version in DEPS file: " +:+ Py.str_of_int V)]) as Hpre.
  { unfold prelude_events. rewrite Hmarker.
    unfold marker in Hmarker. by destruct (resources s1). }
  rewrite (new_events_app _ _
             (prelude_events s1 V V
              ++ [EvPrint ("Already have correct version: " +:+ Py.str_of_int V)]))
    by done.
  rewrite Hpre. simpl. split; [done|]. split; [done|]. split.
  { apply not_started_silent. repeat constructor. }
  split; [|done].
  unfold files. unfold marker in Hmarker. by destruct (resources s1).
Qed.

(** An empty resources directory is synced to version 12, then checked
    again. *)
Lemma sync_then_up_to_date_witness :
  let W := Sample.world_of false 12 (Ok Sample.three_bytes) in
  let s0 := State (Some ∅) ∅ [] in
  let s1 := (_perform_download W REMOTE_URL_BASE 12 "/src/resources" s0).2 in
  (_perform_download W REMOTE_URL_BASE 12 "/src/resources" s0 = (Ok tt, s1)
   /\ Py.truthy (skip_env W) = false
   /\ opt_force W = false
   /\ (_get_desired_version W s1).1 = Ok 12%Z)
  /\ marker s1 = Some (Py.str_of_int 12)
  /\ (_get_current_version s1).1 = Ok 12%Z
  /\ (main W s1).1 = Ok tt
  /\ new_events s1 (main W s1).2
     = [EvPrint ("Found downloaded resources: version: " +:+ Py.str_of_int 12);
        EvPrint ("Version in DEPS file: " +:+ Py.str_of_int 12);
        EvPrint ("Already have correct version: " +:+ Py.str_of_int 12)]
  /\ ~ download_started (new_events s1 (main W s1).2)
  /\ resources (main W s1).2 = resources s1
  /\ tmp (main W s1).2 = tmp s1.
Proof.
  split; [repeat split; vm_compute; reflexivity|].
  apply (sync_then_up_to_date
           (Sample.world_of false 12 (Ok Sample.three_bytes))
           (Sample.world_of false 12 (Ok Sample.three_bytes))
           REMOTE_URL_BASE "/src/resources" 12 (State (Some ∅) ∅ []));
    vm_compute; reflexivity.
Defined.

(** ** The order of the steps, failures and the temporary directory *)

Lemma action_in_actions e a evs :
  e ∈ evs -> action_of e = Some a -> a ∈ actions evs.
Proof. intros He Ha. unfold actions. rewrite list_elem_of_omap. eauto. Qed.

Lemma record_not_in_prefix base d k text :
  k < 3 -> RecordVersion text ∉ take k (sync_actions base d).
Proof.
  intros Hk. destruct k as [|[|[|k]]]; simpl; [..|lia];
    rewrite ?elem_of_cons, ?elem_of_nil; intuition discriminate.
Qed.



(** Whenever the fetch raises, the installed files are as before and the
    removal of the resources directory is not reached. *)
Lemma fetch_raise_keeps_resources (W : world) base d dd s :
  (forall td s0, is_ok (fetch W td base d s0).1 = false) ->
  is_ok (_perform_download W base d dd s).1 = false
  /\ resources (_perform_download W base d dd s).2 = resources s
  /\ EvRmtree ∉ new_events s (_perform_download W base d dd s).2.
Proof.
  intros Hfetch.
  destruct (_perform_download W base d dd s) as [res s'] eqn:Hrun. simpl.
  revert Hrun. unfold _perform_download. unfold bind at 1. unfold mkdtemp.
  destruct (mkdtemp_search _ _ _ _ _) as [td|].
  2:{ intros [= <- <-]. split; [done|]. split; [done|].
      rewrite (new_events_app _ _ [EvMkdtemp None]) by done.
      rewrite list_elem_of_singleton. done. }
  set (s0 := set_tmp _ _).
  unfold try_finally. unfold bind at 1.
  specialize (Hfetch td s0).
  destruct (fetch W td base d s0) as [r1 s1] eqn:Hf.
  apply fetch_frame in Hf as (Hres & _ & evs & Htr & Hevs).
  destruct r1 as [[]|e]; [done|].
  assert (EvRmtree ∉ EvMkdtemp (Some td)
            :: EvPrint ("Downloading: " +:+ remote_archive_url base d)
            :: EvUrlopen (remote_archive_url base d)
            :: evs ++ [EvRmtreeTemp td]) as Hnot.
  { rewrite !elem_of_cons, elem_of_app, list_elem_of_singleton.
    intros [?|[?|[?|[Hin|?]]]]; try done.
    rewrite Forall_forall in Hevs. by apply Hevs in Hin. }
  unfold rmtree_temp.
  destruct (tmp s1 !! td); intros [= <- <-]; simpl;
    (split; [done|]); (split; [by rewrite Hres|]).
  all: erewrite new_events_app; [exact Hnot|].
  all: simpl; rewrite Htr; subst s0; simpl; by rewrite <- !app_assoc.
Qed.

(** C3. A fetch that fails for one of the causes of [fetch_fails] (the
    connection fails, the status is not a success, the Content-Length header
    is missing or is no integer, the connection breaks during a read) ends the
    sync with an exception before the removal of the resources directory is
    reached, and leaves the resources directory, the version marker in it and
    the temporary directories as they were; over a whole run of [main] the
    files of the resources directory and the marker are as before the run. *)
Theorem fetch_failure_leaves_resources (W : world) (base_url downloads : string)
    (d : Z) (s : state) :
  fetch_fails W (remote_archive_url base_url d) ->
  (is_ok (_perform_download W base_url d downloads s).1 = false
   /\ resources (_perform_download W base_url d downloads s).2 = resources s
   /\ marker (_perform_download W base_url d downloads s).2 = marker s
   /\ tmp (_perform_download W base_url d downloads s).2 = tmp s
   /\ EvRmtree ∉ new_events s (_perform_download W base_url d downloads s).2)
  /\ (forall c,
        base_url = Py.or_else (opt_base_url W) REMOTE_URL_BASE ->
        Py.truthy (skip_env W) = false ->
        (_get_current_version s).1 = Ok c ->
        (_get_desired_version W s).1 = Ok d ->
        files (main W s).2 = files s
        /\ marker (main W s).2 = marker s
        /\ tmp (main W s).2 = tmp s).
Proof.
  intros Hfails.
  assert (forall dd s0,
             is_ok (_perform_download W base_url d dd s0).1 = false
             /\ resources (_perform_download W base_url d dd s0).2 = resources s0
             /\ marker (_perform_download W base_url d dd s0).2 = marker s0
             /\ tmp (_perform_download W base_url d dd s0).2 = tmp s0
             /\ EvRmtree ∉ new_events s0 (_perform_download W base_url d dd s0).2)
    as Hsync.
  { intros dd s0.
    destruct (fetch_raise_keeps_resources W base_url d dd s0) as (Hr & Hres & Hrm).
    { intros td s1. by apply fetch_fails_raise. }
    split; [done|]. split; [done|]. split; [unfold marker; by rewrite Hres|].
    split; [|done].
    destruct (_perform_download _ _ _ _ _) as [res s'] eqn:Hrun.
    by apply perform_download_cases in Hrun as (Htmp & _). }
  split; [apply Hsync|].
  intros c -> Hskip Hc Hd.
  assert (marker (after_reads s c d) = marker s) as Hmarker.
  { unfold marker, after_reads, files. simpl.
    destruct (resources s); [done|]. simpl. by rewrite lookup_empty. }
  rewrite (main_decision W s c d) by done.
  destruct (negb _ || _).
  - destruct (Hsync (downloads_dir W) (after_reads s c d))
      as (_ & Hres & Hm & Htmp & _).
    split; [|split].
    + unfold files. by rewrite Hres.
    + by rewrite Hm.
    + by rewrite Htmp.
  - simpl. split; [done|]. split; [exact Hmarker|done].
Qed.

(** Version 12 is installed, version 13 is wanted, and the answer of the
    server has no Content-Length header. *)
Lemma fetch_failure_leaves_resources_witness :
  let W := Sample.world_of false 13 (Ok Sample.no_length) in
  let run := _perform_download W REMOTE_URL_BASE 13 "/src/resources" Sample.installed in
  fetch_fails W (remote_archive_url REMOTE_URL_BASE 13)
  /\ (is_ok run.1 = false
      /\ resources run.2 = resources Sample.installed
      /\ marker run.2 = marker Sample.installed
      /\ tmp run.2 = tmp Sample.installed
      /\ EvRmtree ∉ new_events Sample.installed run.2)
  /\ (forall c,
        REMOTE_URL_BASE = Py.or_else (opt_base_url W) REMOTE_URL_BASE ->
        Py.truthy (skip_env W) = false ->
        (_get_current_version Sample.installed).1 = Ok c ->
        (_get_desired_version W Sample.installed).1 = Ok 13%Z ->
        files (main W Sample.installed).2 = files Sample.installed
        /\ marker (main W Sample.installed).2 = marker Sample.installed
        /\ tmp (main W Sample.installed).2 = tmp Sample.installed).
Proof.
  assert (fetch_fails (Sample.world_of false 13 (Ok Sample.no_length))
            (remote_archive_url REMOTE_URL_BASE 13)) as Hfails.
  { apply (header_missing _ _ Sample.no_length); reflexivity. }
  split; [exact Hfails|].
  exact (fetch_failure_leaves_resources
           (Sample.world_of false 13 (Ok Sample.no_length))
           REMOTE_URL_BASE "/src/resources" 13 Sample.installed Hfails).
Defined.

(** C4. Whatever the outcome of [_perform_download], the temporary directory
    it created at its start does not exist when it returns or raises: the
    name was free before, [shutil.rmtree] was called on it, and the temporary
    directories are the same as before the call. *)
Theorem temp_dir_removed (W : world) (base_url downloads : string) (d : Z)
    (s : state) :
  let s' := (_perform_download W base_url d downloads s).2 in
  tmp s' = tmp s
  /\ forall name,
      EvMkdtemp (Some name) ∈ new_events s s' ->
      tmp s !! name = None
      /\ EvRmtreeTemp name ∈ new_events s s'
      /\ tmp s' !! name = None.
Proof.
  destruct (_perform_download _ _ _ _ _) as [res s'] eqn:Hrun. simpl.
  apply perform_download_cases in Hrun
    as (Htmp & t & evs & Htr & Hevs & Hname & _).
  split; [done|]. intros name.
  rewrite (new_events_app s s' (EvMkdtemp t :: evs)) by done.
  rewrite elem_of_cons. intros [[= <-]|Hin].
  - destruct (Hname name eq_refl) as [Hfree Hrm].
    split; [done|]. split; [by apply elem_of_cons; right|].
    by rewrite Htmp.
  - rewrite Forall_forall in Hevs. by apply Hevs in Hin.
Qed.

(** A sync on a fresh checkout whose server gives no Content-Length. *)
Lemma temp_dir_removed_witness :
  let W := Sample.world_of false 12 (Ok Sample.no_length) in
  let s' := (_perform_download W REMOTE_URL_BASE 12 "/src/resources"
               Sample.fresh).2 in
  tmp s' = tmp Sample.fresh
  /\ forall name,
      EvMkdtemp (Some name) ∈ new_events Sample.fresh s' ->
      tmp Sample.fresh !! name = None
      /\ EvRmtreeTemp name ∈ new_events Sample.fresh s'
      /\ tmp s' !! name = None.
Proof.
  exact (temp_dir_removed
           (Sample.world_of false 12 (Ok Sample.no_length))
           REMOTE_URL_BASE "/src/resources" 12 Sample.fresh).
Defined.

(** ** The progress report *)

Section progress.
Implicit Types (cs L : nat) (total b : Z).

Lemma stdout_writes_app evs1 evs2 :
  stdout_writes (evs1 ++ evs2) = stdout_writes evs1 ++ stdout_writes evs2.
Proof. apply omap_app. Qed.

Lemma stdout_writes_chunk cs total b :
  stdout_writes (chunk_events cs total b)
  = progress_line b total
    :: (if bool_decide (total ≤ b)%Z then [NL] else []).
Proof. unfold chunk_events. by case_bool_decide. Qed.

Lemma stdout_writes_flat_map (f : nat -> list event) (l : list nat) :
  stdout_writes (flat_map f l) = flat_map (fun k => stdout_writes (f k)) l.
Proof.
  induction l as [|k l IH]; [done|]. simpl.
  by rewrite stdout_writes_app, IH.
Qed.

(** The chunks cover the body: all but the last end before its end. *)
Lemma chunk_count_bounds cs L :
  0 < cs -> 0 < L ->
  0 < chunk_count cs L
  /\ (chunk_count cs L - 1) * cs < L
  /\ L ≤ chunk_count cs L * cs.
Proof.
  intros Hcs HL. unfold chunk_count.
  pose proof (Nat.div_mod (L + cs - 1) cs ltac:(lia)) as Hdiv.
  pose proof (Nat.mod_upper_bound (L + cs - 1) cs ltac:(lia)) as Hmod.
  set (m := (L + cs - 1) / cs) in *.
  set (r := (L + cs - 1) mod cs) in *.
  assert (0 < m) by (destruct m; [lia|lia]).
  repeat split; nia.
Qed.

Lemma flat_map_progress_before cs total L n :
  0 < cs -> n * cs < L -> total = Z.of_nat L ->
  flat_map
    (fun k => stdout_writes
                (chunk_events cs total (0 + Z.of_nat ((k * cs) `min` L))))
    (seq 1 n)
  = map (fun k => progress_line (Z.of_nat ((k * cs) `min` L)) total) (seq 1 n).
Proof.
  intros Hcs Hn ->. induction n as [|n IH]; [done|].
  rewrite seq_S, flat_map_app, map_app, IH by nia. f_equal.
  cbn [flat_map map]. rewrite stdout_writes_chunk, bool_decide_eq_false_2 by nia.
  by rewrite app_nil_r.
Qed.

(** On a body of exactly [total] bytes, [total > 0], the output is one
    progress line per chunk and one newline at the end. *)
Lemma loop_output_complete_body cs total L :
  0 < cs -> 0 < L -> total = Z.of_nat L ->
  stdout_writes (loop_events cs total L 0) = spec_stdout_writes cs total L.
Proof.
  intros Hcs HL Htotal.
  destruct (chunk_count_bounds cs L Hcs HL) as (Hm & Hlow & Hhigh).
  unfold loop_events, spec_stdout_writes.
  rewrite stdout_writes_app, stdout_writes_flat_map. cbv beta.
  change (stdout_writes [EvRead cs]) with (@nil string). rewrite app_nil_r.
  replace (chunk_count cs L) with (S (chunk_count cs L - 1)) by lia.
  rewrite seq_S, flat_map_app, map_app.
  rewrite flat_map_progress_before by done.
  rewrite <- app_assoc. f_equal. cbn [flat_map map].
  rewrite stdout_writes_chunk, bool_decide_eq_true_2 by nia.
  by rewrite app_nil_r.
Qed.

Lemma loop_output_empty_body cs total :
  0 < cs -> stdout_writes (loop_events cs total 0 0) = [].
Proof. intros Hcs. by rewrite loop_events_zero. Qed.
End progress.

(** The text of a percentage has two decimal places. *)
Lemma hundredths_positive (m : positive) (e : Z) :
  (0 ≤ (Py.hundredths m e).1 /\ 0 < (Py.hundredths m e).2)%Z.
Proof.
  unfold Py.hundredths. destruct (0 <=? e)%Z eqn:He; simpl.
  - apply Z.leb_le in He. pose proof (Z.pow_pos_nonneg 2 e). nia.
  - apply Z.leb_gt in He. pose proof (Z.pow_pos_nonneg 2 (- e)). lia.
Qed.

Lemma div_half_even_nearest (num den : Z) :
  (0 ≤ num)%Z -> (0 < den)%Z ->
  (Z.abs (2 * (Py.div_half_even num den * den - num)) ≤ den
   /\ 0 ≤ Py.div_half_even num den)%Z.
Proof.
  intros Hnum Hden. unfold Py.div_half_even.
  pose proof (Z.div_mod num den ltac:(lia)) as Hdiv.
  pose proof (Z.mod_pos_bound num den Hden) as Hmod.
  assert (0 ≤ num / den)%Z as Hq by (apply Z.div_pos; lia).
  destruct (Z.compare_spec (2 * (num mod den)) den) as [Heq|Hlt|Hgt];
    [destruct (Z.even (num / den))|..]; nia.
Qed.

Lemma format_2f_two_places (x : spec_float) : shows_two_places x (Py.format_2f x).
Proof.
  destruct x as [s|s| |s m e]; try done. simpl.
  destruct (hundredths_positive m e) as [Hnum Hden].
  destruct (Py.hundredths m e) as [num den] eqn:E. simpl in *.
  exists (Py.div_half_even num den).
  by destruct (div_half_even_nearest num den Hnum Hden).
Qed.

(** C9, as it is written, fails: the empty read that ends the download writes
    nothing.  For an empty body with Content-Length 0 there is no output at
    all, and for a body that ends before the announced length the output ends
    with the progress line, without a newline. *)
Lemma empty_body_emits_no_newline :
  let run := _read_chunks "t" "a.tgz" Sample.empty_body CHUNK_SIZE Sample.fresh in
  let cut := _read_chunks "t" "a.tgz" Sample.truncated CHUNK_SIZE Sample.fresh in
  run.1 = Ok 0%Z
  /\ new_events Sample.fresh run.2 = [EvRead CHUNK_SIZE]
  /\ stdout_writes (new_events Sample.fresh run.2) = []
  /\ spec_stdout_writes CHUNK_SIZE 0 0 = [NL]
  /\ cut.1 = Ok 3%Z
  /\ new_events Sample.fresh cut.2
     = [EvRead CHUNK_SIZE;
        EvStdoutWrite ("Downloaded 0 of 0 kB (60.00%)" +:+ CR);
        EvRead CHUNK_SIZE]
  /\ ~ newline_follows_final_read.
Proof.
  do 6 (split; [vm_compute; reflexivity|]).
  intros Hclaim.
  specialize (Hclaim "t" "a.tgz" Sample.empty_body 0%Z Sample.fresh _ 0%Z
                eq_refl eq_refl).
  vm_compute in Hclaim. discriminate Hclaim.
Qed.

(** C9, amended. When the Content-Length is an integer other than 0, it and
    the length of the body fit a float and no read fails (or the body is
    empty), [_read_chunks] asks for 10 KiB at every read.  After each read that
    returns bytes it writes a progress line that ends with a carriage return
    and shows the kB read so far, the kB of Content-Length and the percentage
    rounded to two decimals, and right after that line a newline when the
    count has reached the Content-Length total; the empty read that ends the
    loop writes nothing.  So a body of exactly Content-Length > 0 bytes gives
    one line per chunk and one newline at the end, and an empty body gives no
    output. *)
Theorem read_chunks_progress (temp_dir name : string) (r : response)
    (total : Z) (s : state) :
  (content_length r ≫= fun h => Py.int (Py.strip h)) = Some total ->
  read_error_at r = None ->
  reportable total (body r) ->
  let L := String.length (body r) in
  let run := _read_chunks temp_dir name r CHUNK_SIZE s in
  Z.of_nat CHUNK_SIZE = (10 * 1024)%Z
  /\ run.1 = Ok (Z.of_nat L)
  /\ new_events s run.2 = loop_events CHUNK_SIZE total L 0
  /\ (forall b : Z,
        progress_line b total
        = "Downloaded " +:+ Py.str_of_int (b / 1024) +:+ " of "
          +:+ Py.str_of_int (total / 1024) +:+ " kB ("
          +:+ Py.format_2f (percent b total) +:+ "%)" +:+ CR
        /\ percent b total
           = Py.round2 (Py.fmul (Py.fdiv (Py.float b) (Py.float total))
                          (Py.float 100))
        /\ shows_two_places (percent b total) (Py.format_2f (percent b total)))
  /\ (total = Z.of_nat L -> 0 < L ->
      stdout_writes (new_events s run.2) = spec_stdout_writes CHUNK_SIZE total L)
  /\ (L = 0 -> stdout_writes (new_events s run.2) = []).
Proof.
  intros Hheader Herr Htotal L run. subst run.
  split; [reflexivity|].
  unfold _read_chunks.
  destruct (content_length r) as [h|]; [|done]. simpl in Hheader.
  rewrite Hheader.
  destruct (read_loop_run temp_dir name r CHUNK_SIZE total Herr chunk_size_positive
              (S (String.length (body r))) 0 (body r) 0%Z s)
    as (s' & Hrun & _ & Htr); [lia|done|exact Htotal|].
  rewrite Hrun. simpl.
  rewrite (new_events_app _ _ _ Htr). fold L.
  split; [done|]. split; [done|]. split.
  { intros b. repeat split. apply format_2f_two_places. }
  split.
  - intros Ht HL. by apply loop_output_complete_body; [apply chunk_size_positive|..].
  - intros ->. apply loop_output_empty_body, chunk_size_positive.
Qed.

(** A body of three bytes with Content-Length 3. *)
Lemma read_chunks_progress_witness :
  let r := Sample.three_bytes in
  let run := _read_chunks "t" "a.tgz" r CHUNK_SIZE Sample.fresh in
  ((content_length r ≫= fun h => Py.int (Py.strip h)) = Some 3%Z
   /\ read_error_at r = None
   /\ reportable 3 (body r))
  /\ Z.of_nat CHUNK_SIZE = (10 * 1024)%Z
  /\ run.1 = Ok (Z.of_nat 3)
  /\ new_events Sample.fresh run.2 = loop_events CHUNK_SIZE 3 3 0
  /\ (forall b : Z,
        progress_line b 3
        = "Downloaded " +:+ Py.str_of_int (b / 1024) +:+ " of "
          +:+ Py.str_of_int (3 / 1024) +:+ " kB ("
          +:+ Py.format_2f (percent b 3) +:+ "%)" +:+ CR
        /\ percent b 3
           = Py.round2 (Py.fmul (Py.fdiv (Py.float b) (Py.float 3))
                          (Py.float 100))
        /\ shows_two_places (percent b 3) (Py.format_2f (percent b 3)))
  /\ (3%Z = Z.of_nat 3 -> 0 < 3 ->
      stdout_writes (new_events Sample.fresh run.2)
      = spec_stdout_writes CHUNK_SIZE 3 3)
  /\ (3 = 0 -> stdout_writes (new_events Sample.fresh run.2) = []).
Proof.
  assert (reportable 3 (body Sample.three_bytes)) as Hrep.
  { right. repeat split; [lia|vm_compute; reflexivity..]. }
  split; [repeat split; try reflexivity; exact Hrep|].
  apply (read_chunks_progress "t" "a.tgz" Sample.three_bytes 3 Sample.fresh);
    [reflexivity | reflexivity | exact Hrep].
Defined.

(** The output of that download, as it is written to the terminal. *)
Example three_bytes_output :
  stdout_writes
    (new_events Sample.fresh
       (_read_chunks "t" "a.tgz" Sample.three_bytes CHUNK_SIZE Sample.fresh).2)
  = ["Downloaded 0 of 0 kB (100.00%)" +:+ CR; NL].
Proof. vm_compute. reflexivity. Qed.

(** C10, as it is written, fails: a total above 0 is no precondition of the
    progress report.  It ends well for a negative total, and it raises
    OverflowError for a total above 0 that no float holds. *)
Lemma negative_total_is_reported :
  (_print_progress 3 (-5) Sample.fresh).1 = Ok tt
  /\ stdout_writes (new_events Sample.fresh (_print_progress 3 (-5) Sample.fresh).2)
     = ["Downloaded 0 of -1 kB (-60.00%)" +:+ CR; NL]
  /\ (_print_progress 3 (10 ^ 400) Sample.fresh).1 = Raise OverflowError
  /\ ~ progress_defined_only_above_zero.
Proof.
  do 3 (split; [vm_compute; reflexivity|]).
  intros Hclaim.
  specialize (Hclaim 3%Z (-5)%Z Sample.fresh eq_refl). lia.
Qed.

(** C10, amended. [_print_progress] divides by the total without a guard: for
    numbers that fit a float it raises ZeroDivisionError exactly when the
    total is 0 and ends well for every other total, the negative ones
    included; a number that fits no float raises OverflowError.  With a
    Content-Length of 0, [_read_chunks] ends well only for an empty body: the
    empty read leaves the loop before any progress report, 0 is returned and
    nothing is written; a body that is not empty raises ZeroDivisionError at
    its first chunk. *)
Theorem progress_divides_by_total (temp_dir name : string)
    (r : response) (s : state) :
  (content_length r ≫= fun h => Py.int (Py.strip h)) = Some 0%Z ->
  read_error_at r = None ->
  let run := _read_chunks temp_dir name r CHUNK_SIZE s in
  (forall b t s0,
      Py.fits_float b = true -> Py.fits_float t = true ->
      (_print_progress b t s0).1
      = if bool_decide (t = 0%Z) then Raise ZeroDivisionError else Ok tt)
  /\ (forall b t s0,
        (_print_progress b t s0).1 = Raise OverflowError
        <-> ~ (Z.abs b < Py.FLOAT_LIMIT /\ Z.abs t < Py.FLOAT_LIMIT)%Z)
  /\ (is_ok run.1 = true <-> body r = "")
  /\ (body r = "" ->
      run.1 = Ok 0%Z
      /\ new_events s run.2 = [EvRead CHUNK_SIZE]
      /\ stdout_writes (new_events s run.2) = [])
  /\ (body r <> "" ->
      run.1 = Raise ZeroDivisionError
      /\ stdout_writes (new_events s run.2) = []).
Proof.
  intros Hheader Herr run.
  split.
  { intros b t s0 Hb Ht. rewrite print_progress_run, Hb, Ht. cbn [andb negb].
    by case_bool_decide. }
  split.
  { intros b t s0. rewrite print_progress_run. unfold Py.fits_float.
    do 2 case_bool_decide; cbn [andb negb]; [|split; [tauto|done]..].
    case_bool_decide; split; try done; tauto. }
  assert (body r = "" ->
          run.1 = Ok 0%Z
          /\ new_events s run.2 = [EvRead CHUNK_SIZE]
          /\ stdout_writes (new_events s run.2) = []) as Hempty.
  { intros Hbody. subst run. unfold _read_chunks.
    destruct (content_length r) as [h|]; [|done]. simpl in Hheader.
    rewrite Hheader, Hbody. rewrite read_loop_unfold, Herr. simpl.
    split; [done|]. by rewrite (new_events_app _ _ [EvRead CHUNK_SIZE]). }
  assert (body r <> "" ->
          run.1 = Raise ZeroDivisionError
          /\ stdout_writes (new_events s run.2) = []) as Hfull.
  { intros Hbody. subst run. unfold _read_chunks.
    destruct (content_length r) as [h|]; [|done]. simpl in Hheader.
    rewrite Hheader.
    rewrite read_loop_zero_total
      by auto using chunk_size_positive, first_chunk_fits.
    simpl. split; [done|]. by rewrite (new_events_app _ _ [EvRead CHUNK_SIZE]). }
  split; [|done].
  destruct (decide (body r = "")) as [Hbody|Hbody].
  - destruct (Hempty Hbody) as [-> _]. done.
  - destruct (Hfull Hbody) as [-> _]. done.
Qed.

(** An empty body with Content-Length 0. *)
Lemma progress_divides_by_total_witness :
  let r := Sample.empty_body in
  let run := _read_chunks "t" "a.tgz" r CHUNK_SIZE Sample.fresh in
  ((content_length r ≫= fun h => Py.int (Py.strip h)) = Some 0%Z
   /\ read_error_at r = None)
  /\ (forall b t s0,
        Py.fits_float b = true -> Py.fits_float t = true ->
        (_print_progress b t s0).1
        = if bool_decide (t = 0%Z) then Raise ZeroDivisionError else Ok tt)
  /\ (forall b t s0,
        (_print_progress b t s0).1 = Raise OverflowError
        <-> ~ (Z.abs b < Py.FLOAT_LIMIT /\ Z.abs t < Py.FLOAT_LIMIT)%Z)
  /\ (is_ok run.1 = true <-> body r = "")
  /\ (body r = "" ->
      run.1 = Ok 0%Z
      /\ new_events Sample.fresh run.2 = [EvRead CHUNK_SIZE]
      /\ stdout_writes (new_events Sample.fresh run.2) = [])
  /\ (body r <> "" ->
      run.1 = Raise ZeroDivisionError
      /\ stdout_writes (new_events Sample.fresh run.2) = []).
Proof.
  split; [split; reflexivity|].
  apply (progress_divides_by_total "t" "a.tgz" Sample.empty_body Sample.fresh);
    reflexivity.
Defined.

(** ** A whole run *)

(** The DEPS file asks for version 12 and nothing is installed: the archive
    of version 12 is requested once, its members replace the resources
    directory, and the marker holds "12". *)
Example fresh_checkout_syncs :
  let W := Sample.world_of false 12 (Ok Sample.three_bytes) in
  let run := main W Sample.fresh in
  run.1 = Ok tt
  /\ actions (trace run.2)
     = [Fetch "http://commondatastorage.googleapis.com/webrtc-resources/webrtc-resources-12.tgz";
        Install; RecordVersion "12"]
  /\ resources run.2 = Some {[ "audio.pcm" := "abc"; VERSION_FILENAME := "12" ]}
  /\ tmp run.2 = ∅.
Proof. vm_compute. repeat split; reflexivity. Qed.

(** A Content-Length of 310 digits: the first progress report raises
    OverflowError, after the first chunk was written to the file. *)
Example oversized_content_length :
  let r := Response (Some (Py.str_of_int (10 ^ 309))) "abc" None in
  let run := _read_chunks "t" "a.tgz" r CHUNK_SIZE Sample.fresh in
  run.1 = Raise OverflowError /\ new_events Sample.fresh run.2 = [EvRead CHUNK_SIZE].
Proof. split; vm_compute; reflexivity. Qed.

(** What [_get_desired_version] raises: the exception of [execfile], KeyError
    when DEPS binds no [vars] or [vars] has no entry for the resources,
    TypeError for the value [None], ValueError for a text that is no number. *)
Example desired_version_errors :
  let W := Sample.world_of false 12 (Raise URLError) in
  let binds v := with_deps_vars (Some {[ DEPS_KEY := v ]}) W in
  (_get_desired_version Cases.world_skipping Sample.fresh).1 = Raise IOError
  /\ (_get_desired_version (with_deps_vars None W) Sample.fresh).1 = Raise KeyError
  /\ (_get_desired_version Cases.world_without_key Sample.fresh).1 = Raise KeyError
  /\ (_get_desired_version (binds Py.VNone) Sample.fresh).1 = Raise TypeError
  /\ (_get_desired_version (binds (Py.VStr "x")) Sample.fresh).1 = Raise ValueError
  /\ (_get_desired_version (binds (Py.VStr " 13 ")) Sample.fresh).1 = Ok 13%Z.
Proof. repeat split; reflexivity. Qed.

(** ** The downloaded file *)

Section store.
Context (W : world).
Implicit Types (s : state) (dm : dir).

Lemma take_drop_app n (t : string) : Py.take n t +:+ Py.drop n t = t.
Proof.
  revert t; induction n as [|n IH]; intros [|c t]; try done.
  simpl. by rewrite app_cons, IH.
Qed.

Lemma alter_lookup_insert {A} (f : A -> A) (m : gmap string A) k x :
  m !! k = Some x -> alter f k m = <[k := f x]> m.
Proof.
  intros Hk. apply map_eq. intros j. destruct (decide (j = k)) as [->|Hj].
  - by rewrite lookup_alter_eq, lookup_insert_eq, Hk.
  - by rewrite lookup_alter_ne, lookup_insert_ne.
Qed.

(** The loop appends the bytes it reads, all of them, to the file. *)
Lemma read_loop_store td nm r cs total :
  read_error_at r = None -> 0 < cs ->
  forall fuel nread rest b s dm old,
    String.length rest < fuel ->
    (0 ≤ b)%Z ->
    rest = ""
    \/ (total <> 0%Z /\ Py.fits_float total = true
        /\ Py.fits_float (b + Py.len rest) = true) ->
    tmp s !! td = Some dm -> dm !! nm = Some old ->
    exists s',
      read_loop td nm r cs total fuel nread rest b s
      = (Ok (b + Py.len rest)%Z, s')
      /\ resources s' = resources s
      /\ tmp s' = <[td := <[nm := old +:+ rest]> dm]> (tmp s).
Proof.
  intros Herr Hcs.
  induction fuel as [|fuel IH];
    intros nread rest b s dm old Hfuel Hb Htotal Htd Hnm; [lia|].
  rewrite read_loop_unfold, Herr, bool_decide_eq_false_2 by done.
  cbv zeta. set (s1 := set_tmp _ _).
  assert (tmp s1 = <[td := <[nm := old +:+ Py.take cs rest]> dm]> (tmp s)) as Hs1.
  { subst s1. simpl. rewrite (alter_lookup_insert _ _ td dm) by done.
    by rewrite (alter_lookup_insert _ dm nm old). }
  destruct (decide (rest = "")) as [->|Hrest].
  { replace (Py.take cs "") with "" in * by (by destruct cs).
    rewrite bool_decide_eq_true_2 by done.
    eexists. split; [reflexivity|]. split; [done|exact Hs1]. }
  rewrite bool_decide_eq_false_2.
  2:{ rewrite take_empty_iff. intros [?|?]; [lia|done]. }
  destruct Htotal as [?|(Htotal & Hft & Hfb)]; [done|].
  assert (Py.len (Py.take cs rest) + Py.len (Py.drop cs rest) = Py.len rest)%Z
    as Hsplit.
  { unfold Py.len. rewrite take_length, drop_length. lia. }
  assert (0 ≤ Py.len (Py.take cs rest) /\ 0 ≤ Py.len (Py.drop cs rest))%Z
    as [Htk Hdr] by (unfold Py.len; lia).
  rewrite print_progress_run, Hft.
  rewrite (fits_float_le (b + Py.len (Py.take cs rest)) (b + Py.len rest))
    by (done || lia).
  cbn [andb negb]. rewrite bool_decide_eq_false_2 by done.
  set (s2 := State _ _ _).
  assert (tmp s2 = tmp s1) as Hs2 by done.
  assert (resources s2 = resources s) as Hr2 by done.
  assert (0 < String.length rest) as HL by (destruct rest; [done|simpl; lia]).
  destruct (IH (S nread) (Py.drop cs rest) (b + Py.len (Py.take cs rest))%Z s2
              (<[nm := old +:+ Py.take cs rest]> dm) (old +:+ Py.take cs rest))
    as (s' & Hrun & Hres & Htmp).
  { rewrite drop_length. lia. }
  { lia. }
  { right. repeat split; [done..|].
    by replace (b + Py.len (Py.take cs rest) + Py.len (Py.drop cs rest))%Z
      with (b + Py.len rest)%Z by lia. }
  { rewrite Hs2, Hs1. apply lookup_insert_eq. }
  { apply lookup_insert_eq. }
  exists s'. split.
  { rewrite Hrun. do 2 f_equal. unfold Py.len.
    rewrite take_length, drop_length. lia. }
  split; [by rewrite Hres, Hr2|].
  rewrite Htmp, Hs2, Hs1.
  by rewrite !insert_insert_eq, string_app_assoc, take_drop_app.
Qed.

Lemma read_chunks_store td nm r cs total s dm old :
  (content_length r ≫= fun h => Py.int (Py.strip h)) = Some total ->
  read_error_at r = None -> 0 < cs ->
  reportable total (body r) ->
  tmp s !! td = Some dm -> dm !! nm = Some old ->
  exists s',
    _read_chunks td nm r cs s = (Ok (Py.len (body r)), s')
    /\ resources s' = resources s
    /\ tmp s' = <[td := <[nm := old +:+ body r]> dm]> (tmp s).
Proof.
  intros Hheader Herr Hcs Htotal Htd Hnm. unfold _read_chunks.
  destruct (content_length r) as [h|]; [|done]. simpl in Hheader. rewrite Hheader.
  destruct (read_loop_store td nm r cs total Herr Hcs
              (S (String.length (body r))) 0 (body r) 0%Z s dm old)
    as (s' & Hrun & Hres & Htmp); [lia|done|exact Htotal|done..|].
  exists s'. by rewrite Hrun.
Qed.

(** A fetch whose body arrives leaves it in the file named after the
    archive. *)
Lemma fetch_store td base d r s dm :
  delivers W (remote_archive_url base d) r ->
  tmp s !! td = Some dm ->
  exists s',
    fetch W td base d s = (Ok tt, s')
    /\ resources s' = resources s
    /\ tmp s' = <[td := <[archive_name d := body r]> dm]> (tmp s).
Proof.
  intros (Hopen & Herr & total & Hheader & Htotal) Htd.
  unfold fetch, bind, print, emit, do_urlopen. simpl. rewrite Hopen.
  unfold open_temp. simpl. rewrite Htd.
  set (s1 := set_tmp _ _).
  destruct (read_chunks_store td (archive_name d) r CHUNK_SIZE total s1
              (<[archive_name d := ""]> dm) "" Hheader Herr chunk_size_positive Htotal)
    as (s' & Hrun & Hres & Htmp).
  { subst s1. simpl. apply lookup_insert_eq. }
  { apply lookup_insert_eq. }
  exists s'. rewrite Hrun. split; [done|]. split; [by rewrite Hres|].
  rewrite Htmp. subst s1. simpl. by rewrite !insert_insert_eq.
Qed.
End store.

(** ** What a sync leaves behind *)

Section outcome.
Context (W : world).
Implicit Types (s : state) (dm : dir).

Lemma install_exact td d dd s bytes :
  temp_file s td (archive_name d) = Some bytes ->
  exists s',
    install W td d dd s
    = (match resources s with
       | None => Raise OSError
       | Some _ => if (untar W bytes).2 then Ok tt else Raise TarError
       end, s')
    /\ resources s'
       = (if resources s is Some _ then Some (extracted (untar W bytes).1) else None)
    /\ tmp s' = tmp s.
Proof.
  unfold temp_file. intros Hfile.
  unfold install, bind, print, emit, rmtree, mkdir, extract. simpl.
  destruct (resources s) as [old|] eqn:Hres; simpl.
  2:{ eexists. split; [reflexivity|]. simpl. by rewrite Hres. }
  rewrite Hfile. destruct (untar W bytes) as [members [|]]; simpl.
  - eexists. split; [reflexivity|]. by split.
  - eexists. split; [reflexivity|]. by split.
Qed.

Lemma mkdtemp_ok_inv prefix s :
  is_ok (mkdtemp W prefix s).1 = true ->
  exists td, mkdtemp_search W prefix (tmp s) (tmp_max W) 0 = Some td.
Proof.
  unfold mkdtemp. destruct (mkdtemp_search _ _ _ _ _) as [td|]; [eauto|done].
Qed.

(** A sync whose body arrives: its result and the resources directory it
    leaves are those of the extraction of that body. *)
Lemma perform_download_exact base d dd s r :
  delivers W (remote_archive_url base d) r ->
  is_ok (mkdtemp W "webrtc-resources-" s).1 = true ->
  (_perform_download W base d dd s).1
  = match resources s with
    | None => Raise OSError
    | Some _ => if (untar W (body r)).2 then Ok tt else Raise TarError
    end
  /\ resources (_perform_download W base d dd s).2
     = match resources s with
       | None => None
       | Some _ =>
           Some (if (untar W (body r)).2
                 then <[VERSION_FILENAME := Py.str_of_int d]>
                        (extracted (untar W (body r)).1)
                 else extracted (untar W (body r)).1)
       end.
Proof.
  intros Hdel [td Hsearch]%mkdtemp_ok_inv.
  destruct (_perform_download W base d dd s) as [res s'] eqn:Hrun. simpl.
  revert Hrun. unfold _perform_download. unfold bind at 1. unfold mkdtemp.
  rewrite Hsearch. set (s0 := set_tmp _ _).
  destruct (fetch_store W td base d r s0 ∅ Hdel) as (s1 & Hfetch & Hres1 & Htmp1).
  { subst s0. simpl. apply lookup_insert_eq. }
  unfold try_finally. unfold bind at 1. rewrite Hfetch.
  destruct (install_exact td d dd s1 (body r)) as (s2 & Hinst & Hres2 & Htmp2).
  { unfold temp_file. rewrite Htmp1, lookup_insert_eq. simpl.
    apply lookup_insert_eq. }
  unfold bind at 1. rewrite Hinst.
  assert (resources s1 = resources s) as Hres by (by rewrite Hres1).
  rewrite Hres in *.
  assert (is_Some (tmp s2 !! td)) as [dtd Hdtd].
  { rewrite Htmp2, Htmp1, lookup_insert_eq. by eexists. }
  unfold rmtree_temp.
  destruct (resources s) as [old|].
  2:{ rewrite Hdtd. intros [= <- <-]. simpl. by rewrite Hres2. }
  destruct (untar W (body r)).2.
  - unfold write_version. rewrite Hres2. simpl. rewrite Hdtd.
    by intros [= <- <-].
  - rewrite Hdtd. intros [= <- <-]. simpl. by rewrite Hres2.
Qed.
End outcome.

(** ** The download, the install and what follows a failure *)

Lemma temp_file_inv s td nm old :
  temp_file s td nm = Some old ->
  exists dm, tmp s !! td = Some dm /\ dm !! nm = Some old.
Proof.
  unfold temp_file. destruct (tmp s !! td) as [dm|]; [|done]. simpl. eauto.
Qed.

(** X1. When the progress can be reported (the Content-Length is not 0, and it
    and the length of the body fit a float, or the body is empty),
    [_read_chunks] appends the whole body to the output file and returns its
    length, for every chunk size above 0; no other file changes. *)
Theorem read_chunks_stores_body (temp_dir name : string) (r : response)
    (chunk_size : nat) (total : Z) (s : state) (old : string) :
  (content_length r ≫= fun h => Py.int (Py.strip h)) = Some total ->
  read_error_at r = None ->
  0 < chunk_size ->
  reportable total (body r) ->
  temp_file s temp_dir name = Some old ->
  let run := _read_chunks temp_dir name r chunk_size s in
  run.1 = Ok (Py.len (body r))
  /\ temp_file run.2 temp_dir name = Some (old +:+ body r)
  /\ (forall temp_dir' name',
        (temp_dir', name') <> (temp_dir, name) ->
        temp_file run.2 temp_dir' name' = temp_file s temp_dir' name')
  /\ resources run.2 = resources s.
Proof.
  intros Hheader Herr Hcs Htotal (dm & Htd & Hnm)%temp_file_inv run. subst run.
  destruct (read_chunks_store temp_dir name r chunk_size total s dm old)
    as (s' & Hrun & Hres & Htmp); try done.
  rewrite Hrun. simpl. split; [done|]. unfold temp_file. rewrite Htmp.
  split; [|split; [|done]].
  - rewrite lookup_insert_eq. simpl. apply lookup_insert_eq.
  - intros td' nm' Hne. destruct (decide (td' = temp_dir)) as [->|Htd'].
    + rewrite lookup_insert_eq, Htd. simpl.
      apply lookup_insert_ne. congruence.
    + by rewrite lookup_insert_ne.
Qed.

(** Twenty-five bytes read four at a time onto a file that holds "old:". *)
Lemma read_chunks_stores_body_witness :
  let r := Response (Some " 25 ") "abcdefghijklmnopqrstuvwxy" None in
  let s := State None {[ "t" := {[ "a.tgz" := "old:"; "b" := "x" ]} ]} [] in
  let run := _read_chunks "t" "a.tgz" r 4 s in
  ((content_length r ≫= fun h => Py.int (Py.strip h)) = Some 25%Z
   /\ read_error_at r = None
   /\ 0 < 4
   /\ reportable 25 (body r)
   /\ temp_file s "t" "a.tgz" = Some "old:")
  /\ run.1 = Ok (Py.len (body r))
  /\ temp_file run.2 "t" "a.tgz" = Some ("old:" +:+ body r)
  /\ (forall temp_dir' name',
        (temp_dir', name') <> ("t", "a.tgz") ->
        temp_file run.2 temp_dir' name' = temp_file s temp_dir' name')
  /\ resources run.2 = resources s.
Proof.
  assert (reportable 25 "abcdefghijklmnopqrstuvwxy") as Hrep.
  { right. repeat split; [lia|vm_compute; reflexivity..]. }
  split; [split; [reflexivity|]; split; [reflexivity|]; split; [lia|];
          split; [exact Hrep|reflexivity]|].
  apply (read_chunks_stores_body "t" "a.tgz"
           (Response (Some " 25 ") "abcdefghijklmnopqrstuvwxy" None) 4 25
           (State None {[ "t" := {[ "a.tgz" := "old:"; "b" := "x" ]} ]} []) "old:");
    [reflexivity | reflexivity | lia | exact Hrep | reflexivity].
Defined.

Lemma foldl_insert_lookup (members : list (string * string)) (acc : dir) f c :
  foldl (fun acc m => <[m.1 := m.2]> acc) acc members !! f = Some c ->
  acc !! f = Some c \/ (f, c) ∈ members.
Proof.
  revert acc. induction members as [|[k v] members IH]; intros acc; simpl; [auto|].
  intros [Hacc|Hin]%IH; [|right; by apply elem_of_cons; right].
  destruct (decide (k = f)) as [->|Hk].
  - rewrite lookup_insert_eq in Hacc. injection Hacc as ->.
    right. apply elem_of_cons. by left.
  - rewrite lookup_insert_ne in Hacc by done. by left.
Qed.

Lemma extracted_lookup members f c :
  extracted members !! f = Some c -> (f, c) ∈ members.
Proof.
  intros [Hempty|Hin]%foldl_insert_lookup; [|done].
  by rewrite lookup_empty in Hempty.
Qed.

Lemma extracted_lookup_none members f :
  f ∉ members.*1 -> extracted members !! f = None.
Proof.
  intros Hf. destruct (extracted members !! f) as [c|] eqn:E; [|done].
  apply extracted_lookup in E. destruct Hf.
  apply list_elem_of_fmap. by exists (f, c).
Qed.

Lemma perform_download_tmp (W : world) base d dd s :
  tmp (_perform_download W base d dd s).2 = tmp s.
Proof.
  destruct (_perform_download W base d dd s) as [res s'] eqn:Hrun.
  by apply perform_download_cases in Hrun as (Htmp & _).
Qed.

Lemma failed_run_writes_no_marker (W : world) base d dd s text :
  is_ok (_perform_download W base d dd s).1 = false ->
  EvWriteVersion text ∉ new_events s (_perform_download W base d dd s).2.
Proof.
  destruct (_perform_download W base d dd s) as [res s'] eqn:Hrun. simpl.
  apply perform_download_cases in Hrun as (_ & t & evs & Htr & _ & _ & Hcases).
  intros Hres. rewrite (new_events_app _ _ _ Htr).
  assert (exists k, k < 3 /\ actions evs = take k (sync_actions base d))
    as (k & Hk & Hak).
  { destruct Hcases as [(-> & _)|[(_ & Ha & _)|[(_ & Ha & _)|(_ & Ha)]]]; [done|..].
    - exists 0. split; [lia|done].
    - exists 1. split; [lia|done].
    - exists 2. split; [lia|done]. }
  rewrite elem_of_cons. intros [?|Hin]; [done|].
  apply (record_not_in_prefix base d k text Hk). rewrite <- Hak.
  by apply (action_in_actions (EvWriteVersion text)).
Qed.

(** X2. A sync whose download arrives ([delivers]: no read fails and the
    progress can be reported against the Content-Length) and whose archive
    extracts returns, and the resources directory then holds the members of
    the archive and the marker with the decimal text of the version, and
    nothing else: no file of the old installation is left unless the archive
    has it. *)
Theorem sync_installs_archive (W : world) (base_url downloads : string) (d : Z)
    (s : state) (r : response) (old : dir) (members : list (string * string)) :
  delivers W (remote_archive_url base_url d) r ->
  is_ok (mkdtemp W "webrtc-resources-" s).1 = true ->
  resources s = Some old ->
  untar W (body r) = (members, true) ->
  let run := _perform_download W base_url d downloads s in
  run.1 = Ok tt
  /\ resources run.2
     = Some (<[VERSION_FILENAME := Py.str_of_int d]> (extracted members))
  /\ marker run.2 = Some (Py.str_of_int d)
  /\ (forall f c, files run.2 !! f = Some c ->
        f = VERSION_FILENAME \/ (f, c) ∈ members)
  /\ tmp run.2 = tmp s.
Proof.
  intros Hdel Hmk Hold Huntar run. subst run.
  destruct (perform_download_exact W base_url d downloads s r Hdel Hmk) as [Hres Hdir].
  rewrite Hold, Huntar in Hres, Hdir. simpl in Hres, Hdir.
  split; [done|]. split; [done|]. split; [|split].
  - unfold marker. rewrite Hdir. simpl. apply lookup_insert_eq.
  - intros f c. unfold files. rewrite Hdir. simpl.
    destruct (decide (f = VERSION_FILENAME)) as [->|Hf]; [by left|].
    rewrite lookup_insert_ne by done. right. by apply extracted_lookup.
  - apply perform_download_tmp.
Qed.

(** Version 12 is installed and version 13 is synced. *)
Lemma sync_installs_archive_witness :
  let W := Sample.world_of false 13 (Ok Sample.three_bytes) in
  let run := _perform_download W REMOTE_URL_BASE 13 "/src/resources" Sample.installed in
  (delivers W (remote_archive_url REMOTE_URL_BASE 13) Sample.three_bytes
   /\ is_ok (mkdtemp W "webrtc-resources-" Sample.installed).1 = true
   /\ resources Sample.installed
      = Some {[ VERSION_FILENAME := "12"; "audio.pcm" := "abc" ]}
   /\ untar W (body Sample.three_bytes) = ([("audio.pcm", "abc")], true))
  /\ run.1 = Ok tt
  /\ resources run.2
     = Some (<[VERSION_FILENAME := Py.str_of_int 13]>
               (extracted [("audio.pcm", "abc")]))
  /\ marker run.2 = Some (Py.str_of_int 13)
  /\ (forall f c, files run.2 !! f = Some c ->
        f = VERSION_FILENAME \/ (f, c) ∈ [("audio.pcm", "abc")])
  /\ tmp run.2 = tmp Sample.installed.
Proof.
  assert (delivers (Sample.world_of false 13 (Ok Sample.three_bytes))
            (remote_archive_url REMOTE_URL_BASE 13) Sample.three_bytes) as Hdel.
  { split; [reflexivity|]. split; [reflexivity|].
    exists 3%Z. split; [reflexivity|].
    right. repeat split; [lia|vm_compute; reflexivity..]. }
  split; [split; [exact Hdel | repeat split; reflexivity]|].
  exact (sync_installs_archive
           (Sample.world_of false 13 (Ok Sample.three_bytes))
           REMOTE_URL_BASE "/src/resources" 13 Sample.installed Sample.three_bytes
           _ [("audio.pcm", "abc")] Hdel eq_refl eq_refl eq_refl).
Defined.

(** X3. When the download arrives ([delivers]) and the extraction of the
    archive fails, the sync raises TarError after the old installation is
    gone: the resources directory holds the members extracted so far and
    nothing else, the marker is not written, and the temporary directory is
    removed. *)
Theorem failed_extraction_wipes_resources (W : world) (base_url downloads : string)
    (d : Z) (s : state) (r : response) (old : dir)
    (members : list (string * string)) :
  delivers W (remote_archive_url base_url d) r ->
  is_ok (mkdtemp W "webrtc-resources-" s).1 = true ->
  resources s = Some old ->
  untar W (body r) = (members, false) ->
  let run := _perform_download W base_url d downloads s in
  run.1 = Raise TarError
  /\ resources run.2 = Some (extracted members)
  /\ (forall f c, files run.2 !! f = Some c -> (f, c) ∈ members)
  /\ (VERSION_FILENAME ∉ members.*1 -> marker run.2 = None)
  /\ (forall text, EvWriteVersion text ∉ new_events s run.2)
  /\ tmp run.2 = tmp s.
Proof.
  intros Hdel Hmk Hold Huntar run. subst run.
  destruct (perform_download_exact W base_url d downloads s r Hdel Hmk) as [Hres Hdir].
  rewrite Hold, Huntar in Hres, Hdir. simpl in Hres, Hdir.
  split; [done|]. split; [done|]. split; [|split; [|split]].
  - intros f c. unfold files. rewrite Hdir. simpl. apply extracted_lookup.
  - intros Hf. unfold marker. rewrite Hdir. simpl.
    by apply extracted_lookup_none.
  - intros text. apply failed_run_writes_no_marker. by rewrite Hres.
  - apply perform_download_tmp.
Qed.

(** Version 12 is installed; the archive of version 13 breaks after its first
    member. *)
Lemma failed_extraction_wipes_resources_witness :
  let W := Cases.world_broken_archive Sample.three_bytes in
  let run := _perform_download W REMOTE_URL_BASE 13 "/src/resources" Sample.installed in
  (delivers W (remote_archive_url REMOTE_URL_BASE 13) Sample.three_bytes
   /\ is_ok (mkdtemp W "webrtc-resources-" Sample.installed).1 = true
   /\ resources Sample.installed
      = Some {[ VERSION_FILENAME := "12"; "audio.pcm" := "abc" ]}
   /\ untar W (body Sample.three_bytes) = ([("video.yuv", "abc")], false))
  /\ run.1 = Raise TarError
  /\ resources run.2 = Some (extracted [("video.yuv", "abc")])
  /\ (forall f c, files run.2 !! f = Some c -> (f, c) ∈ [("video.yuv", "abc")])
  /\ (VERSION_FILENAME ∉ [("video.yuv", "abc")].*1 -> marker run.2 = None)
  /\ (forall text, EvWriteVersion text ∉ new_events Sample.installed run.2)
  /\ tmp run.2 = tmp Sample.installed.
Proof.
  assert (delivers (Cases.world_broken_archive Sample.three_bytes)
            (remote_archive_url REMOTE_URL_BASE 13) Sample.three_bytes) as Hdel.
  { split; [reflexivity|]. split; [reflexivity|].
    exists 3%Z. split; [reflexivity|].
    right. repeat split; [lia|vm_compute; reflexivity..]. }
  split; [split; [exact Hdel | repeat split; reflexivity]|].
  exact (failed_extraction_wipes_resources
           (Cases.world_broken_archive Sample.three_bytes)
           REMOTE_URL_BASE "/src/resources" 13 Sample.installed Sample.three_bytes
           _ [("video.yuv", "abc")] Hdel eq_refl eq_refl eq_refl).
Defined.

(** X4. After a sync whose download arrived ([delivers]) and that failed in
    the extraction, with no member named like the marker, the current version
    reads as 0, so the next run enters the download again without the force
    flag whenever the manifest asks for a version other than 0. *)
Theorem failed_install_is_retried (W W2 : world) (base_url downloads : string)
    (d d2 : Z) (s : state) (r : response) (old : dir)
    (members : list (string * string)) :
  delivers W (remote_archive_url base_url d) r ->
  is_ok (mkdtemp W "webrtc-resources-" s).1 = true ->
  resources s = Some old ->
  untar W (body r) = (members, false) ->
  VERSION_FILENAME ∉ members.*1 ->
  Py.truthy (skip_env W2) = false ->
  (_get_desired_version W2 s).1 = Ok d2 ->
  d2 <> 0%Z ->
  let s1 := (_perform_download W base_url d downloads s).2 in
  (_get_current_version s1).1 = Ok 0%Z
  /\ download_started (new_events s1 (main W2 s1).2)
  /\ main W2 s1
     = _perform_download W2 (Py.or_else (opt_base_url W2) REMOTE_URL_BASE) d2
         (downloads_dir W2) (after_reads s1 0 d2).
Proof.
  intros Hdel Hmk Hold Huntar Hname Hskip Hd2 Hne s1.
  destruct (perform_download_exact W base_url d downloads s r Hdel Hmk) as [_ Hdir].
  rewrite Hold, Huntar in Hdir. simpl in Hdir. fold s1 in Hdir.
  assert (marker s1 = None) as Hmarker.
  { unfold marker. rewrite Hdir. simpl. by apply extracted_lookup_none. }
  assert ((_get_current_version s1).1 = Ok 0%Z) as Hcur.
  { unfold _get_current_version, bind, version_file. by rewrite Hmarker. }
  assert ((_get_desired_version W2 s1).1 = Ok d2) as Hd2'.
  { by rewrite (get_desired_version_run W2 s d2 Hd2). }
  assert (main W2 s1
          = _perform_download W2 (Py.or_else (opt_base_url W2) REMOTE_URL_BASE) d2
              (downloads_dir W2) (after_reads s1 0 d2)) as Hmain.
  { rewrite (main_decision W2 s1 0 d2) by done.
    by rewrite bool_decide_eq_false_2. }
  split; [done|]. split; [|done].
  rewrite Hmain.
  destruct (_perform_download W2 _ _ _ _) as [res s2] eqn:Hrun.
  apply perform_download_cases in Hrun as (_ & t & evs & Htr & _).
  simpl. exists t.
  rewrite (new_events_app s1 s2 (prelude_events s1 0 d2 ++ EvMkdtemp t :: evs)).
  - rewrite elem_of_app, elem_of_cons. auto.
  - rewrite Htr. unfold after_reads. simpl. by rewrite <- app_assoc.
Qed.

(** The broken archive of version 13 over an installed version 12, then a
    second run. *)
Lemma failed_install_is_retried_witness :
  let W := Cases.world_broken_archive Sample.three_bytes in
  let s1 := (_perform_download W REMOTE_URL_BASE 13 "/src/resources"
               Sample.installed).2 in
  (delivers W (remote_archive_url REMOTE_URL_BASE 13) Sample.three_bytes
   /\ is_ok (mkdtemp W "webrtc-resources-" Sample.installed).1 = true
   /\ resources Sample.installed
      = Some {[ VERSION_FILENAME := "12"; "audio.pcm" := "abc" ]}
   /\ untar W (body Sample.three_bytes) = ([("video.yuv", "abc")], false)
   /\ (VERSION_FILENAME ∉ [("video.yuv", "abc")].*1)
   /\ Py.truthy (skip_env W) = false
   /\ (_get_desired_version W Sample.installed).1 = Ok 13%Z
   /\ 13%Z <> 0%Z)
  /\ (_get_current_version s1).1 = Ok 0%Z
  /\ download_started (new_events s1 (main W s1).2)
  /\ main W s1
     = _perform_download W (Py.or_else (opt_base_url W) REMOTE_URL_BASE) 13
         (downloads_dir W) (after_reads s1 0 13).
Proof.
  assert (delivers (Cases.world_broken_archive Sample.three_bytes)
            (remote_archive_url REMOTE_URL_BASE 13) Sample.three_bytes) as Hdel.
  { split; [reflexivity|]. split; [reflexivity|].
    exists 3%Z. split; [reflexivity|].
    right. repeat split; [lia|vm_compute; reflexivity..]. }
  assert (VERSION_FILENAME ∉ [("video.yuv", "abc")].*1) as Hname.
  { simpl. rewrite list_elem_of_singleton. discriminate. }
  split.
  { split; [exact Hdel|]. repeat split; try reflexivity; [exact Hname | lia]. }
  exact (failed_install_is_retried
           (Cases.world_broken_archive Sample.three_bytes)
           (Cases.world_broken_archive Sample.three_bytes)
           REMOTE_URL_BASE "/src/resources" 13 13 Sample.installed Sample.three_bytes
           _ [("video.yuv", "abc")] Hdel eq_refl eq_refl eq_refl Hname eq_refl eq_refl
           ltac:(lia)).
Defined.

Lemma mkdtemp_search_names (W1 W2 : world) prefix (t : gmap string dir) tries :
  tmp_names W1 = tmp_names W2 ->
  forall from,
    mkdtemp_search W1 prefix t tries from = mkdtemp_search W2 prefix t tries from.
Proof.
  intros Hnames. induction tries as [|tries IH]; intros from; [done|].
  simpl. rewrite Hnames. destruct (t !! _); [apply IH|done].
Qed.

Lemma mkdtemp_result_names (W1 W2 : world) prefix s s' :
  tmp_names W1 = tmp_names W2 -> tmp_max W1 = tmp_max W2 -> tmp s = tmp s' ->
  (mkdtemp W1 prefix s).1 = (mkdtemp W2 prefix s').1.
Proof.
  intros Hnames Hmax Htmp. unfold mkdtemp.
  rewrite (mkdtemp_search_names W1 W2) by done. rewrite Hmax, Htmp.
  by destruct (mkdtemp_search _ _ _ _ _).
Qed.

Lemma perform_download_no_tempdir (W : world) base d dd s :
  is_ok (mkdtemp W "webrtc-resources-" s).1 = false ->
  (_perform_download W base d dd s).1 = Raise IOError
  /\ resources (_perform_download W base d dd s).2 = resources s.
Proof.
  unfold _perform_download, bind, mkdtemp.
  destruct (mkdtemp_search _ _ _ _ _); simpl; [discriminate|done].
Qed.

(** X5. The Content-Length header only feeds the progress report: it is never
    compared with the bytes received.  Two servers that deliver the same body
    under different lengths (integers other than 0 that fit a float, as
    [delivers] asks) give the same result, the same resources directory and
    the same temporary directories, so a body that is shorter than announced
    is installed like a complete one. *)
Theorem content_length_is_not_checked (W1 W2 : world) (base_url downloads : string)
    (d : Z) (s : state) (r1 r2 : response) :
  delivers W1 (remote_archive_url base_url d) r1 ->
  delivers W2 (remote_archive_url base_url d) r2 ->
  body r1 = body r2 ->
  untar W1 = untar W2 ->
  tmp_names W1 = tmp_names W2 ->
  tmp_max W1 = tmp_max W2 ->
  let run1 := _perform_download W1 base_url d downloads s in
  let run2 := _perform_download W2 base_url d downloads s in
  run1.1 = run2.1
  /\ resources run1.2 = resources run2.2
  /\ tmp run1.2 = tmp run2.2.
Proof.
  intros Hdel1 Hdel2 Hbody Huntar Hnames Hmax run1 run2. subst run1 run2.
  rewrite !perform_download_tmp. split; [|split; [|done]].
  all: pose proof (mkdtemp_result_names W1 W2 "webrtc-resources-" s s
                     Hnames Hmax eq_refl) as Hmk.
  all: destruct (is_ok (mkdtemp W1 "webrtc-resources-" s).1) eqn:Hok1.
  all: assert (is_ok (mkdtemp W2 "webrtc-resources-" s).1
               = is_ok (mkdtemp W1 "webrtc-resources-" s).1) as Hok2
         by (by rewrite Hmk).
  all: rewrite Hok1 in Hok2.
  - destruct (perform_download_exact W1 base_url d downloads s r1 Hdel1 Hok1) as [-> _].
    destruct (perform_download_exact W2 base_url d downloads s r2 Hdel2 Hok2) as [-> _].
    by rewrite Huntar, Hbody.
  - destruct (perform_download_no_tempdir W1 base_url d downloads s Hok1) as [-> _].
    by destruct (perform_download_no_tempdir W2 base_url d downloads s Hok2) as [-> _].
  - destruct (perform_download_exact W1 base_url d downloads s r1 Hdel1 Hok1) as [_ ->].
    destruct (perform_download_exact W2 base_url d downloads s r2 Hdel2 Hok2) as [_ ->].
    by rewrite Huntar, Hbody.
  - destruct (perform_download_no_tempdir W1 base_url d downloads s Hok1) as [_ ->].
    by destruct (perform_download_no_tempdir W2 base_url d downloads s Hok2) as [_ ->].
Qed.

(** The same three bytes, announced as three by one server and as five by the
    other. *)
Lemma content_length_is_not_checked_witness :
  let W1 := Sample.world_of false 13 (Ok Sample.three_bytes) in
  let W2 := Sample.world_of false 13 (Ok Sample.truncated) in
  let run1 := _perform_download W1 REMOTE_URL_BASE 13 "/src/resources" Sample.installed in
  let run2 := _perform_download W2 REMOTE_URL_BASE 13 "/src/resources" Sample.installed in
  (delivers W1 (remote_archive_url REMOTE_URL_BASE 13) Sample.three_bytes
   /\ delivers W2 (remote_archive_url REMOTE_URL_BASE 13) Sample.truncated
   /\ body Sample.three_bytes = body Sample.truncated
   /\ untar W1 = untar W2
   /\ tmp_names W1 = tmp_names W2
   /\ tmp_max W1 = tmp_max W2)
  /\ run1.1 = run2.1
  /\ resources run1.2 = resources run2.2
  /\ tmp run1.2 = tmp run2.2.
Proof.
  assert (delivers (Sample.world_of false 13 (Ok Sample.three_bytes))
            (remote_archive_url REMOTE_URL_BASE 13) Sample.three_bytes) as Hdel1.
  { split; [reflexivity|]. split; [reflexivity|].
    exists 3%Z. split; [reflexivity|].
    right. repeat split; [lia|vm_compute; reflexivity..]. }
  assert (delivers (Sample.world_of false 13 (Ok Sample.truncated))
            (remote_archive_url REMOTE_URL_BASE 13) Sample.truncated) as Hdel2.
  { split; [reflexivity|]. split; [reflexivity|].
    exists 5%Z. split; [reflexivity|].
    right. repeat split; [lia|vm_compute; reflexivity..]. }
  split; [split; [exact Hdel1|split; [exact Hdel2|repeat split; reflexivity]]|].
  exact (content_length_is_not_checked
           (Sample.world_of false 13 (Ok Sample.three_bytes))
           (Sample.world_of false 13 (Ok Sample.truncated))
           REMOTE_URL_BASE "/src/resources" 13 Sample.installed
           Sample.three_bytes Sample.truncated
           Hdel1 Hdel2 eq_refl eq_refl eq_refl eq_refl).
Defined.

(** X6. What a sync whose download arrives ([delivers]) leaves does not depend
    on what was installed: from two states with a resources directory and the
    same temporary directories, the same download gives the same result and
    the same resources directory (so a forced re-sync of the installed version
    restores exactly the archive). *)
Theorem sync_forgets_previous_contents (W : world) (base_url downloads : string)
    (d : Z) (s s' : state) (r : response) :
  delivers W (remote_archive_url base_url d) r ->
  is_ok (mkdtemp W "webrtc-resources-" s).1 = true ->
  tmp s' = tmp s ->
  is_Some (resources s) ->
  is_Some (resources s') ->
  (_perform_download W base_url d downloads s).1
  = (_perform_download W base_url d downloads s').1
  /\ resources (_perform_download W base_url d downloads s).2
     = resources (_perform_download W base_url d downloads s').2.
Proof.
  intros Hdel Hmk Htmp [old Hold] [old' Hold'].
  assert (is_ok (mkdtemp W "webrtc-resources-" s').1 = true) as Hmk'.
  { by rewrite <- (mkdtemp_result_names W W "webrtc-resources-" s s'). }
  destruct (perform_download_exact W base_url d downloads s r Hdel Hmk) as [-> ->].
  destruct (perform_download_exact W base_url d downloads s' r Hdel Hmk') as [-> ->].
  by rewrite Hold, Hold'.
Qed.

(** Version 13 over an installed version 12 and over an empty directory. *)
Lemma sync_forgets_previous_contents_witness :
  let W := Sample.world_of false 13 (Ok Sample.three_bytes) in
  let s := Sample.installed in
  let s' := State (Some ∅) ∅ [EvMkdir] in
  (delivers W (remote_archive_url REMOTE_URL_BASE 13) Sample.three_bytes
   /\ is_ok (mkdtemp W "webrtc-resources-" s).1 = true
   /\ tmp s' = tmp s
   /\ is_Some (resources s)
   /\ is_Some (resources s'))
  /\ (_perform_download W REMOTE_URL_BASE 13 "/src/resources" s).1
     = (_perform_download W REMOTE_URL_BASE 13 "/src/resources" s').1
  /\ resources (_perform_download W REMOTE_URL_BASE 13 "/src/resources" s).2
     = resources (_perform_download W REMOTE_URL_BASE 13 "/src/resources" s').2.
Proof.
  assert (delivers (Sample.world_of false 13 (Ok Sample.three_bytes))
            (remote_archive_url REMOTE_URL_BASE 13) Sample.three_bytes) as Hdel.
  { split; [reflexivity|]. split; [reflexivity|].
    exists 3%Z. split; [reflexivity|].
    right. repeat split; [lia|vm_compute; reflexivity..]. }
  assert (is_Some (resources Sample.installed)) as H1 by (by eexists).
  assert (is_Some (resources (State (Some ∅) ∅ [EvMkdir]))) as H2 by (by eexists).
  split; [split; [exact Hdel|]; repeat split; try reflexivity; assumption|].
  exact (sync_forgets_previous_contents
           (Sample.world_of false 13 (Ok Sample.three_bytes))
           REMOTE_URL_BASE "/src/resources" 13 Sample.installed
           (State (Some ∅) ∅ [EvMkdir]) Sample.three_bytes
           Hdel eq_refl eq_refl H1 H2).
Defined.

(** ** Errors before and during the sync *)

(** X7. A marker that exists and holds no integer ends the run with ValueError
    at once: nothing is printed, DEPS is not read, nothing is created or
    downloaded and the state is the one before the run.  The force flag does
    not change this, so it cannot repair such a marker. *)
Theorem corrupt_marker_stops_run (W : world) (s : state) (text : string) :
  Py.truthy (skip_env W) = false ->
  marker s = Some text ->
  Py.int text = None ->
  main W s = (Raise ValueError, s).
Proof.
  intros Hskip Hmarker Hint. unfold main. rewrite Hskip.
  unfold _get_current_version, bind, isdir, version_file, ret. cbv beta.
  assert (is_Some (resources s)) as Hdir.
  { unfold marker in Hmarker. destruct (resources s); [by eexists|done]. }
  rewrite bool_decide_eq_true_2 by done.
  by rewrite Hmarker, Hint.
Qed.

(** The marker reads "twelve" and the run is forced. *)
Lemma corrupt_marker_stops_run_witness :
  let W := Sample.world_of true 12 (Ok Sample.three_bytes) in
  (Py.truthy (skip_env W) = false
   /\ marker Cases.corrupt_marker = Some "twelve"
   /\ Py.int "twelve" = None)
  /\ main W Cases.corrupt_marker = (Raise ValueError, Cases.corrupt_marker).
Proof.
  split; [repeat split; reflexivity|].
  exact (corrupt_marker_stops_run
           (Sample.world_of true 12 (Ok Sample.three_bytes))
           Cases.corrupt_marker "twelve" eq_refl eq_refl eq_refl).
Defined.

Lemma get_desired_version_raise (W : world) s e :
  (_get_desired_version W s).1 = Raise e ->
  forall s', _get_desired_version W s' = (Raise e, s').
Proof.
  unfold _get_desired_version.
  destruct (deps_error W) as [e'|]; [by intros [= <-]|].
  destruct (deps_vars W) as [vars|]; [|by intros [= <-]].
  destruct (vars !! DEPS_KEY) as [v|]; [|by intros [= <-]].
  destruct (Py.int_of_value v) as [d|e']; [done|by intros [= <-]].
Qed.

(** X8. When the desired version cannot be read from DEPS (the file cannot be
    evaluated, the key is missing, the value is no integer) the run fails
    without entering the download, also under the force flag: the files of the
    resources directory, the marker and the temporary directories are as
    before, and when the current version was read the exception is the one of
    the manifest. *)
Theorem manifest_error_stops_run (W : world) (s : state) (e : exn) :
  Py.truthy (skip_env W) = false ->
  (_get_desired_version W s).1 = Raise e ->
  is_ok (main W s).1 = false
  /\ (forall c, (_get_current_version s).1 = Ok c -> (main W s).1 = Raise e)
  /\ ~ download_started (new_events s (main W s).2)
  /\ files (main W s).2 = files s
  /\ marker (main W s).2 = marker s
  /\ tmp (main W s).2 = tmp s.
Proof.
  intros Hskip Hd. pose proof (get_desired_version_raise W s e Hd) as Hrun.
  unfold main. rewrite Hskip.
  unfold _get_current_version, bind, isdir, mkdir, version_file, ret, print, emit.
  unfold marker, files.
  destruct (resources s) as [old|] eqn:Hres; simpl; rewrite ?Hres; simpl.
  - destruct (old !! VERSION_FILENAME) as [text|] eqn:Hfile; simpl.
    + destruct (Py.int text) as [c|]; simpl.
      * rewrite Hrun. simpl. rewrite Hres. simpl.
        split; [done|]. split; [done|]. split; [|done].
        erewrite new_events_app; [|by simpl].
        apply not_started_silent. by repeat constructor.
      * rewrite Hres. simpl.
        split; [done|]. split; [done|]. split; [|done].
        erewrite (new_events_app _ _ []); [|by rewrite app_nil_r].
        apply not_started_silent. constructor.
    + rewrite Hrun. simpl. rewrite Hres. simpl.
      split; [done|]. split; [done|]. split; [|done].
      erewrite (new_events_app _ _ []); [|by rewrite app_nil_r].
      apply not_started_silent. constructor.
  - rewrite lookup_empty, Hrun. simpl.
    split; [done|]. split; [done|]. split; [|by rewrite lookup_empty].
    erewrite new_events_app; [|by simpl].
    apply not_started_silent. by repeat constructor.
Qed.

(** Version 12 is installed, the run is forced and DEPS has no entry for the
    resources. *)
Lemma manifest_error_stops_run_witness :
  let W := Cases.world_without_key in
  let s := Sample.installed in
  (Py.truthy (skip_env W) = false
   /\ (_get_desired_version W s).1 = Raise KeyError)
  /\ is_ok (main W s).1 = false
  /\ (forall c, (_get_current_version s).1 = Ok c -> (main W s).1 = Raise KeyError)
  /\ ~ download_started (new_events s (main W s).2)
  /\ files (main W s).2 = files s
  /\ marker (main W s).2 = marker s
  /\ tmp (main W s).2 = tmp s.
Proof.
  split; [split; reflexivity|].
  exact (manifest_error_stops_run Cases.world_without_key Sample.installed KeyError
           eq_refl eq_refl).
Defined.

(** Without the skip variable the first event of a run is never the line
    that a skipped run prints. *)
Lemma unskipped_run_events (W : world) (s : state) :
  Py.truthy (skip_env W) = false ->
  (main W s).1 = Ok tt ->
  exists c d evs,
    trace (main W s).2 = trace s ++ prelude_events s c d ++ evs.
Proof.
  intros Hskip Hok.
  destruct ((_get_current_version s).1) as [c|e] eqn:Hc.
  2:{ exfalso. revert Hok. unfold main. rewrite Hskip.
      revert Hc. unfold _get_current_version, bind, isdir, version_file, ret, marker.
      cbv beta. destruct (resources s) as [old|] eqn:Hres; simpl; [|done].
      rewrite Hres. simpl.
      destruct (old !! VERSION_FILENAME) as [text|]; simpl; [|done].
      by destruct (Py.int text). }
  destruct ((_get_desired_version W s).1) as [d|e] eqn:Hd.
  2:{ exfalso. revert Hok. pose proof (get_desired_version_raise W s e Hd) as Hrun.
      apply get_current_version_inv in Hc.
      unfold main. rewrite Hskip.
      unfold _get_current_version, bind, isdir, mkdir, version_file, ret, print, emit.
      unfold marker in *.
      destruct (resources s) as [old|] eqn:Hres; simpl in *; rewrite ?Hres; simpl.
      - destruct (old !! VERSION_FILENAME) as [text|]; simpl.
        + rewrite Hc. simpl. by rewrite Hrun.
        + by rewrite Hrun.
      - by rewrite lookup_empty, Hrun. }
  exists c, d. rewrite (main_decision W s c d) by done.
  destruct (negb _ || _).
  - destruct (_perform_download _ _ _ _ _) as [res s'] eqn:Hrun.
    apply perform_download_cases in Hrun as (_ & t & evs & Htr & _).
    exists (EvMkdtemp t :: evs). simpl. rewrite Htr. unfold after_reads. simpl.
    by rewrite <- app_assoc.
  - eexists. simpl. by rewrite <- app_assoc.
Qed.

(** X9. The run is skipped exactly when WEBRTC_SKIP_RESOURCES_DOWNLOAD is set
    to a string that is not empty: then it prints one line and ends well,
    whatever the command line, the marker and DEPS are, and nothing is read,
    created or downloaded; with the variable unset or empty no run has this
    outcome. *)
Theorem skip_variable_ends_run (W : world) (s : state) :
  main W s
  = (Ok tt,
     State (resources s) (tmp s)
       (trace s ++ [EvPrint
          "Skipping resources download since WEBRTC_SKIP_RESOURCES_DOWNLOAD set"]))
  <-> exists c text, skip_env W = Some (String c text).
Proof.
  split.
  - intros Hmain. destruct (Py.truthy (skip_env W)) eqn:Hskip.
    { destruct (skip_env W) as [[|c text]|]; try done. by exists c, text. }
    exfalso.
    destruct (unskipped_run_events W s Hskip) as (c & d & evs & Htr).
    { by rewrite Hmain. }
    rewrite Hmain in Htr. simpl in Htr. apply app_inv_head in Htr.
    revert Htr. unfold prelude_events.
    destruct (resources s), (marker s); simpl; intros [= Heq]; try done;
      apply (f_equal (fun t => String.length t <=? 20)) in Heq; done.
  - intros (c & text & Hset). unfold main. by rewrite Hset.
Qed.

(** The variable is "1"; the run is forced, there is no DEPS file and the
    marker is corrupt. *)
Lemma skip_variable_ends_run_witness :
  skip_env Cases.world_skipping = Some "1"
  /\ main Cases.world_skipping Cases.corrupt_marker
     = (Ok tt,
        State (resources Cases.corrupt_marker) (tmp Cases.corrupt_marker)
          (trace Cases.corrupt_marker ++ [EvPrint
             "Skipping resources download since WEBRTC_SKIP_RESOURCES_DOWNLOAD set"])).
Proof.
  split; [reflexivity|].
  apply (skip_variable_ends_run Cases.world_skipping Cases.corrupt_marker).
  by exists "1"%char, "".
Defined.

Lemma perform_download_fetch_exn (W : world) base d dd s e :
  is_ok (mkdtemp W "webrtc-resources-" s).1 = true ->
  (forall td s0, is_Some (tmp s0 !! td) -> (fetch W td base d s0).1 = Raise e) ->
  (_perform_download W base d dd s).1 = Raise e.
Proof.
  intros [td Hsearch]%mkdtemp_ok_inv Hfetch.
  unfold _perform_download. unfold bind at 1. unfold mkdtemp. rewrite Hsearch.
  set (s0 := set_tmp _ _).
  assert (is_Some (tmp s0 !! td)) as Htd.
  { subst s0. simpl. rewrite lookup_insert_eq. by eexists. }
  unfold try_finally. unfold bind at 1.
  specialize (Hfetch td s0 Htd).
  destruct (fetch W td base d s0) as [r1 s1] eqn:Hf.
  apply fetch_frame in Hf as (_ & [_ Hkeep] & _).
  simpl in Hfetch. subst r1.
  unfold rmtree_temp. by destruct (Hkeep Htd) as [dm ->].
Qed.

(** X10. The finally clause of [_perform_download] does not mask a failure of
    the download: the sync raises the exception of the step that failed, the
    one of urlopen, AttributeError for a missing Content-Length header,
    ValueError for a header that is no integer, the error of a first read
    that breaks, and ZeroDivisionError for a length of 0 with a body. *)
Theorem download_error_is_reraised (W : world) (base_url downloads : string)
    (d : Z) (s : state) :
  is_ok (mkdtemp W "webrtc-resources-" s).1 = true ->
  let url := remote_archive_url base_url d in
  let run := _perform_download W base_url d downloads s in
  (forall e, urlopen W url = Raise e -> run.1 = Raise e)
  /\ (forall r, urlopen W url = Ok r -> content_length r = None ->
        run.1 = Raise AttributeError)
  /\ (forall r h, urlopen W url = Ok r -> content_length r = Some h ->
        Py.int (Py.strip h) = None -> run.1 = Raise ValueError)
  /\ (forall r h total, urlopen W url = Ok r -> content_length r = Some h ->
        Py.int (Py.strip h) = Some total -> read_error_at r = Some 0 ->
        run.1 = Raise SocketError)
  /\ (forall r h, urlopen W url = Ok r -> content_length r = Some h ->
        Py.int (Py.strip h) = Some 0%Z -> read_error_at r = None ->
        body r <> "" -> run.1 = Raise ZeroDivisionError).
Proof.
  intros Hmk url run. subst url run.
  repeat split.
  - intros e Hopen. apply perform_download_fetch_exn; [done|].
    intros td s0 _. unfold fetch, bind, print, emit, do_urlopen. simpl.
    by rewrite Hopen.
  - intros r Hopen Hh. apply perform_download_fetch_exn; [done|].
    intros td s0 [dm Hdm]. unfold fetch, bind, print, emit, do_urlopen. simpl.
    rewrite Hopen. unfold open_temp. simpl. rewrite Hdm.
    unfold _read_chunks. by rewrite Hh.
  - intros r h Hopen Hh Hp. apply perform_download_fetch_exn; [done|].
    intros td s0 [dm Hdm]. unfold fetch, bind, print, emit, do_urlopen. simpl.
    rewrite Hopen. unfold open_temp. simpl. rewrite Hdm.
    unfold _read_chunks. by rewrite Hh, Hp.
  - intros r h total Hopen Hh Hp Herr. apply perform_download_fetch_exn; [done|].
    intros td s0 [dm Hdm]. unfold fetch, bind, print, emit, do_urlopen. simpl.
    rewrite Hopen. unfold open_temp. simpl. rewrite Hdm.
    unfold _read_chunks. rewrite Hh, Hp.
    by rewrite read_loop_unfold, Herr, bool_decide_eq_true_2.
  - intros r h Hopen Hh Hp Herr Hbody. apply perform_download_fetch_exn; [done|].
    intros td s0 [dm Hdm]. unfold fetch, bind, print, emit, do_urlopen. simpl.
    rewrite Hopen. unfold open_temp. simpl. rewrite Hdm.
    unfold _read_chunks. rewrite Hh, Hp.
    by rewrite read_loop_zero_total
      by auto using chunk_size_positive, first_chunk_fits.
Qed.

(** A server that cannot be reached. *)
Lemma download_error_is_reraised_witness :
  let W := Sample.world_of false 13 (Raise URLError) in
  let url := remote_archive_url REMOTE_URL_BASE 13 in
  let run := _perform_download W REMOTE_URL_BASE 13 "/src/resources" Sample.installed in
  (is_ok (mkdtemp W "webrtc-resources-" Sample.installed).1 = true
   /\ urlopen W url = Raise URLError
   /\ run.1 = Raise URLError)
  /\ (forall e, urlopen W url = Raise e -> run.1 = Raise e)
  /\ (forall r, urlopen W url = Ok r -> content_length r = None ->
        run.1 = Raise AttributeError)
  /\ (forall r h, urlopen W url = Ok r -> content_length r = Some h ->
        Py.int (Py.strip h) = None -> run.1 = Raise ValueError)
  /\ (forall r h total, urlopen W url = Ok r -> content_length r = Some h ->
        Py.int (Py.strip h) = Some total -> read_error_at r = Some 0 ->
        run.1 = Raise SocketError)
  /\ (forall r h, urlopen W url = Ok r -> content_length r = Some h ->
        Py.int (Py.strip h) = Some 0%Z -> read_error_at r = None ->
        body r <> "" -> run.1 = Raise ZeroDivisionError).
Proof.
  split; [repeat split; reflexivity|].
  exact (download_error_is_reraised
           (Sample.world_of false 13 (Raise URLError))
           REMOTE_URL_BASE "/src/resources" 13 Sample.installed eq_refl).
Defined.

(** ** The URL and the name of the archive *)

(** X11. A base URL may be given with or without its last slash: both give
    the same URL of the archive. *)
Theorem trailing_slash_is_optional (base_url : string) (d : Z) :
  Py.last1 base_url <> "/" ->
  remote_archive_url (base_url +:+ "/") d = remote_archive_url base_url d.
Proof.
  intros Hlast. unfold remote_archive_url.
  rewrite (bool_decide_eq_true_2 (Py.last1 (base_url +:+ "/") = "/"))
    by apply last1_snoc.
  by rewrite bool_decide_eq_false_2.
Qed.

(** The default base, which has no last slash. *)
Lemma trailing_slash_is_optional_witness :
  Py.last1 REMOTE_URL_BASE <> "/"
  /\ remote_archive_url (REMOTE_URL_BASE +:+ "/") 12
     = remote_archive_url REMOTE_URL_BASE 12.
Proof.
  assert (Py.last1 REMOTE_URL_BASE <> "/") as Hlast by discriminate.
  split; [exact Hlast|].
  exact (trailing_slash_is_optional REMOTE_URL_BASE 12 Hlast).
Defined.

(** X12. The version determines the archive: two versions have the same
    archive name, or the same URL under one base, only if they are equal. *)
Theorem archive_of_version_is_unique (base_url : string) (d1 d2 : Z) :
  (archive_name d1 = archive_name d2 <-> d1 = d2)
  /\ (remote_archive_url base_url d1 = remote_archive_url base_url d2 <-> d1 = d2).
Proof.
  split; (split; [|by intros ->]).
  - apply archive_name_inj.
  - apply remote_archive_url_inj.
Qed.

(** ** What the run takes from DEPS and from the marker *)

Lemma bind_ext {A B} (m : M A) (k1 k2 : A -> M B) s :
  (forall a s', k1 a s' = k2 a s') -> bind m k1 s = bind m k2 s.
Proof. intros Hk. unfold bind. destruct (m s) as [[a|e] s']; auto. Qed.

Section deps.
Context (W : world) (vars : option (gmap string Py.value)).

Lemma fetch_deps td base d s :
  fetch (with_deps_vars vars W) td base d s = fetch W td base d s.
Proof.
  reflexivity.
Qed.

Lemma perform_download_deps base d dd s :
  _perform_download (with_deps_vars vars W) base d dd s
  = _perform_download W base d dd s.
Proof.
  unfold _perform_download. unfold bind. unfold mkdtemp.
  rewrite (mkdtemp_search_names (with_deps_vars vars W) W) by done. simpl.
  destruct (mkdtemp_search _ _ _ _ _) as [td|]; [|done].
  unfold try_finally. by rewrite fetch_deps.
Qed.
End deps.

(** X13. The run takes one thing from DEPS, what [int] makes of the value
    bound to the key: two DEPS files whose values for the key give the same
    integer (a number or its decimal text, with whatever other variables), or
    make [int] raise the same exception, give the same run from every
    state. *)
Theorem main_reads_only_the_revision (W : world)
    (vars1 vars2 : gmap string Py.value) (v1 v2 : Py.value) (s : state) :
  deps_vars W = Some vars1 ->
  vars1 !! DEPS_KEY = Some v1 ->
  vars2 !! DEPS_KEY = Some v2 ->
  Py.int_of_value v1 = Py.int_of_value v2 ->
  main (with_deps_vars (Some vars2) W) s = main W s.
Proof.
  intros Hdeps H1 H2 Hint. unfold main. simpl.
  destruct (Py.truthy (skip_env W)); [done|].
  apply bind_ext. intros present s1.
  apply bind_ext. intros _ s2.
  apply bind_ext. intros c s3.
  unfold bind, _get_desired_version. simpl.
  destruct (deps_error W) as [e|]; [done|].
  rewrite Hdeps, H1, H2, Hint.
  destruct (Py.int_of_value v2) as [d|e]; [|done].
  unfold print, emit. simpl.
  destruct (negb _ || _); [|done].
  apply perform_download_deps.
Qed.

(** The revision as the number 12, and as the text "12" beside another
    variable. *)
Lemma main_reads_only_the_revision_witness :
  let W := Sample.world_of false 12 (Ok Sample.three_bytes) in
  let vars1 : gmap string Py.value := {[ DEPS_KEY := Py.VInt 12 ]} in
  let vars2 : gmap string Py.value :=
    {[ DEPS_KEY := Py.VStr "12"; "chromium_revision" := Py.VInt 7 ]} in
  (deps_vars W = Some vars1
   /\ vars1 !! DEPS_KEY = Some (Py.VInt 12)
   /\ vars2 !! DEPS_KEY = Some (Py.VStr "12")
   /\ Py.int_of_value (Py.VInt 12) = Py.int_of_value (Py.VStr "12"))
  /\ main (with_deps_vars (Some vars2) W) Sample.fresh = main W Sample.fresh.
Proof.
  split; [repeat split; reflexivity|].
  exact (main_reads_only_the_revision
           (Sample.world_of false 12 (Ok Sample.three_bytes))
           {[ DEPS_KEY := Py.VInt 12 ]}
           {[ DEPS_KEY := Py.VStr "12"; "chromium_revision" := Py.VInt 7 ]}
           (Py.VInt 12) (Py.VStr "12") Sample.fresh
           eq_refl eq_refl eq_refl eq_refl).
Defined.

Section blanks.
Implicit Types (l r x : string).

Lemma lstrip_blank_app l x : is_blank l = true -> Py.lstrip (l +:+ x) = Py.lstrip x.
Proof.
  unfold is_blank. induction l as [|c l IH]; [done|]. simpl.
  intros [Hc Hl]%andb_true_iff. rewrite Hc. auto.
Qed.

Lemma rstrip_blank r : is_blank r = true -> Py.rstrip r = "".
Proof.
  unfold is_blank. induction r as [|c r IH]; [done|]. simpl.
  intros [Hc Hr]%andb_true_iff. by rewrite IH, Hc.
Qed.

Lemma rstrip_app_blank x r : is_blank r = true -> Py.rstrip (x +:+ r) = Py.rstrip x.
Proof.
  intros Hr. induction x as [|c x IH]; [by apply rstrip_blank|].
  rewrite app_cons. simpl. by rewrite IH.
Qed.

Lemma str_of_int_no_space (v : Z) :
  Py.str_of_int v <> ""
  /\ string_forall (fun c => negb (Ascii.is_space c)) (Py.str_of_int v) = true.
Proof.
  unfold Py.str_of_int, pretty, pretty_Z.
  destruct v as [|p|p]; [done|..];
    unfold pretty, pretty_positive, pretty, pretty_N;
    (case_decide; [done|]).
  - split; [apply pretty_N_go_nonempty; lia|].
    apply digits_no_space, pretty_N_go_digits.
  - split; [done|]. rewrite app_cons, app_nil_l. simpl.
    apply digits_no_space, pretty_N_go_digits.
Qed.

Lemma strip_blank_around l x r :
  is_blank l = true -> is_blank r = true -> x <> "" ->
  string_forall (fun c => negb (Ascii.is_space c)) x = true ->
  Py.strip (l +:+ x +:+ r) = x.
Proof.
  intros Hl Hr Hx Hns. unfold Py.strip. rewrite lstrip_blank_app by done.
  assert (Py.lstrip (x +:+ r) = x +:+ r) as ->.
  { destruct x as [|c x]; [done|]. rewrite app_cons. simpl in *.
    apply andb_true_iff in Hns as [Hc _]. by destruct (Ascii.is_space c). }
  rewrite rstrip_app_blank by done. by apply rstrip_no_space.
Qed.
End blanks.

(** X14. White space around the number in the marker file does not matter: a
    marker that holds the decimal text of a version between blanks (a newline
    at its end, say) reads as that version. *)
Theorem marker_tolerates_blanks (s : state) (l r : string) (v : Z) :
  is_blank l = true ->
  is_blank r = true ->
  marker s = Some (l +:+ Py.str_of_int v +:+ r) ->
  _get_current_version s
  = (Ok v,
     State (resources s) (tmp s)
       (trace s ++ [EvPrint ("Found downloaded resources: version: "
                             +:+ Py.str_of_int v)])).
Proof.
  intros Hl Hr Hmarker.
  destruct (str_of_int_no_space v) as [Hne Hns].
  assert (Py.int (l +:+ Py.str_of_int v +:+ r) = Some v) as Hint.
  { transitivity (Py.int (Py.str_of_int v)); [|apply int_str_of_int].
    unfold Py.int. rewrite strip_blank_around by done.
    by rewrite strip_no_space. }
  unfold _get_current_version, bind, version_file. by rewrite Hmarker, Hint.
Qed.

(** The marker holds "12" and a newline. *)
Lemma marker_tolerates_blanks_witness :
  let s := Cases.marker_with_newline in
  (is_blank "" = true
   /\ is_blank NL = true
   /\ marker s = Some ("" +:+ Py.str_of_int 12 +:+ NL))
  /\ _get_current_version s
     = (Ok 12%Z,
        State (resources s) (tmp s)
          (trace s ++ [EvPrint ("Found downloaded resources: version: "
                                +:+ Py.str_of_int 12)])).
Proof.
  split; [repeat split; reflexivity|].
  exact (marker_tolerates_blanks Cases.marker_with_newline "" NL 12
           eq_refl eq_refl eq_refl).
Defined.

(** ** What every run keeps *)

Section invariants.
Context (W : world) (P : state -> Prop).

Lemma preserves_bind {A B} (m : M A) (k : A -> M B) :
  preserves P m -> (forall a, preserves P (k a)) -> preserves P (bind m k).
Proof.
  intros Hm Hk s Hs. unfold bind. specialize (Hm s Hs).
  destruct (m s) as [[a|e] s']; [by apply Hk|done].
Qed.

Lemma preserves_ret {A} (a : A) : preserves P (ret a).
Proof. by intros s. Qed.

Lemma preserves_raise {A} (e : exn) : preserves P (@raise A e).
Proof. by intros s. Qed.

(** A property that the trace does not enter into is kept by everything that
    only prints or reads. *)
Hypothesis P_log : forall e s, P s -> P (log e s).

Lemma preserves_print line : preserves P (print line).
Proof. intros s Hs. by apply P_log. Qed.

Lemma preserves_get_current_version : preserves P _get_current_version.
Proof.
  unfold _get_current_version. apply preserves_bind; [by intros s|].
  intros [text|]; [|apply preserves_ret].
  destruct (Py.int text); [|apply preserves_raise].
  apply preserves_bind; [apply preserves_print|]. intros _. apply preserves_ret.
Qed.

Lemma preserves_get_desired_version : preserves P (_get_desired_version W).
Proof.
  unfold _get_desired_version.
  destruct (deps_error W) as [e|]; [apply preserves_raise|].
  destruct (deps_vars W) as [vars|]; [|apply preserves_raise].
  destruct (vars !! DEPS_KEY) as [v|]; [|apply preserves_raise].
  destruct (Py.int_of_value v); [|apply preserves_raise].
  apply preserves_bind; [apply preserves_print|]. intros _. apply preserves_ret.
Qed.

(** From the two reads on, [main] keeps what [_perform_download] keeps. *)
Lemma preserves_main_tail :
  (forall base d dd, preserves P (_perform_download W base d dd)) ->
  preserves P
    (current_version <- _get_current_version;;
     desired_version <- _get_desired_version W;;
     if negb (bool_decide (desired_version = current_version)) || opt_force W
     then _perform_download W (Py.or_else (opt_base_url W) REMOTE_URL_BASE)
            desired_version (downloads_dir W)
     else print ("Already have correct version: "
                 +:+ Py.str_of_int current_version)).
Proof.
  intros Hsync.
  apply preserves_bind; [apply preserves_get_current_version|]. intros c.
  apply preserves_bind; [apply preserves_get_desired_version|]. intros d.
  destruct (negb _ || _); [apply Hsync|apply preserves_print].
Qed.
End invariants.

Lemma install_keeps_dir (W : world) td d dd s :
  is_Some (resources s) -> is_Some (resources (install W td d dd s).2).
Proof.
  intros [old Hold].
  unfold install, bind, print, emit, rmtree, mkdir, extract. simpl. rewrite Hold.
  simpl. destruct (tmp s !! td ≫= _) as [bytes|]; simpl; [|by eexists].
  destruct (untar W bytes) as [members [|]]; simpl; by eexists.
Qed.

Lemma perform_download_keeps_dir (W : world) base d dd :
  preserves (fun s => is_Some (resources s)) (_perform_download W base d dd).
Proof.
  intros s Hs. unfold _perform_download. unfold bind at 1. unfold mkdtemp.
  destruct (mkdtemp_search _ _ _ _ _) as [td|]; [|done].
  set (s0 := set_tmp _ _).
  assert (is_Some (resources s0)) as Hs0 by done.
  unfold try_finally.
  assert (is_Some (resources
            ((fetch W td base d;; install W td d dd;;
              write_version (Py.str_of_int d)) s0).2)) as Hbody.
  { unfold bind at 1.
    destruct (fetch W td base d s0) as [r1 s1] eqn:Hf.
    apply fetch_frame in Hf as (Hres1 & _).
    assert (is_Some (resources s1)) as Hs1 by (by rewrite Hres1).
    destruct r1 as [[]|e]; [|done].
    unfold bind at 1.
    pose proof (install_keeps_dir W td d dd s1 Hs1) as Hs2.
    destruct (install W td d dd s1) as [[[]|e] s2]; [|done].
    simpl in Hs2. destruct Hs2 as [dir2 Hdir2].
    unfold write_version. rewrite Hdir2. by eexists. }
  destruct (bind _ _ s0) as [r3 s3]. simpl in Hbody.
  unfold rmtree_temp. by destruct (tmp s3 !! td).
Qed.

(** X15. No run leaves anything in the temporary directory: whatever the
    world and the outcome of [main], the temporary directories after the run
    are those before it. *)
Theorem main_leaves_no_temp_dir (W : world) (s : state) :
  tmp (main W s).2 = tmp s.
Proof.
  unfold main. destruct (Py.truthy (skip_env W)); [done|].
  set (Q := fun s' : state => tmp s' = tmp s).
  assert (forall e s', Q s' -> Q (log e s')) as Hlog by done.
  assert (preserves Q
            (present <- isdir;; (if present then ret tt else mkdir);;
             current_version <- _get_current_version;;
             desired_version <- _get_desired_version W;;
             if negb (bool_decide (desired_version = current_version)) || opt_force W
             then _perform_download W (Py.or_else (opt_base_url W) REMOTE_URL_BASE)
                    desired_version (downloads_dir W)
             else print ("Already have correct version: "
                         +:+ Py.str_of_int current_version))) as Hmain.
  { apply preserves_bind; [by intros s'|]. intros present.
    apply preserves_bind.
    { destruct present; [apply preserves_ret|].
      intros s' Hs'. unfold mkdir. by destruct (resources s'). }
    intros _. apply preserves_main_tail; [done|].
    intros base d dd s' Hs'. unfold Q. by rewrite perform_download_tmp. }
  by apply Hmain.
Qed.

(** X16. After every run that the skip variable does not end, the resources
    directory exists, whether the run ended well or with an exception. *)
Theorem resources_dir_exists_after_run (W : world) (s : state) :
  Py.truthy (skip_env W) = false ->
  is_Some (resources (main W s).2).
Proof.
  intros Hskip. unfold main. rewrite Hskip.
  set (Q := fun s' : state => is_Some (resources s')).
  assert (forall e s', Q s' -> Q (log e s')) as Hlog by done.
  pose proof (preserves_main_tail W Q Hlog (perform_download_keeps_dir W)) as Htail.
  unfold bind at 1. unfold isdir.
  destruct (resources s) as [old|] eqn:Hres.
  - rewrite bool_decide_eq_true_2 by (by eexists).
    unfold bind at 1. unfold ret at 1. apply Htail. unfold Q. by rewrite Hres.
  - rewrite bool_decide_eq_false_2 by (by intros [? ?]).
    unfold bind at 1. unfold mkdir at 1. rewrite Hres. apply Htail. by eexists.
Qed.

(** A fresh checkout and a server that cannot be reached. *)
Lemma resources_dir_exists_after_run_witness :
  let W := Sample.world_of false 12 (Raise URLError) in
  Py.truthy (skip_env W) = false
  /\ is_ok (main W Sample.fresh).1 = false
  /\ is_Some (resources (main W Sample.fresh).2).
Proof.
  split; [reflexivity|]. split; [reflexivity|].
  exact (resources_dir_exists_after_run
           (Sample.world_of false 12 (Raise URLError)) Sample.fresh eq_refl).
Defined.
